(** * Image preprocessing for the wildflower CNN: a shallow embedding

    Source: [src/cnn_capstone_img_preprocess.py].  The Python functions are
    embedded as Rocq functions with the same names.  Exceptions are results
    of an error monad, numpy arrays are records of a shape and nested lists,
    [uint8] pixels are [byte]s and [float32] values are IEEE-754 binary32
    numbers ([spec_float] with 24 bits of precision).  A Python 3 [str]
    (file names, paths and labels) is a list of Unicode code points.

    The libraries the script calls are embedded by their documented
    behaviour: Python slices and list concatenation, the digit class of
    the [re] module on [str] patterns (the Unicode decimal digits),
    numpy's [zeros], slice assignment with broadcasting and integer
    indexing, OpenCV's [imread], [cvtColor] and [resize] (the interpolated
    pixel values are a parameter; a one-channel result has no channel
    axis), scikit-learn's [LabelEncoder] and [train_test_split] (the
    permutation drawn from the random generator is a parameter) and Keras'
    [to_categorical]. *)

From Stdlib Require Import ZArith List String Ascii Lia Bool SpecFloat.
From Stdlib Require Import Strings.Byte.
From Equations Require Import Equations.
From stdpp Require Import base list strings gmap sorting.

Open Scope Z_scope.

(** ** Python exceptions *)

Inductive exn : Set :=
| TypeError
| ValueError
| IndexError
| ZeroDivisionError
| Cv2Error.

Inductive result (A : Type) : Type :=
| Ok (a : A)
| Raise (e : exn).
Arguments Ok {A} a.
Arguments Raise {A} e.

Definition bind {A B} (m : result A) (k : A -> result B) : result B :=
  match m with
  | Ok a => k a
  | Raise e => Raise e
  end.

Notation "'do' x <- m ; k" := (bind m (fun x => k))
  (at level 10, x pattern, m at level 99, k at level 200).

(** ** Python strings *)

(** A Python 3 [str] is a sequence of Unicode code points. *)
#[warnings="-notation-for-abbreviation"]
Notation str := (list N) (only parsing).

(** The [str] of a literal of ASCII characters. *)
Definition lit (s : string) : str := map N_of_ascii (list_ascii_of_string s).

(** ** Label extractor ([image_categories], lines 30-49) *)

Module Label.

(** The code points of the Unicode category Nd (decimal digit), as closed
    ranges, in Unicode 14.0: the ten ASCII digits and the digits of the
    other scripts. *)
Definition decimal_ranges : list (N * N) :=
  [(48, 57); (1632, 1641); (1776, 1785); (1984, 1993); (2406, 2415);
   (2534, 2543); (2662, 2671); (2790, 2799); (2918, 2927); (3046, 3055);
   (3174, 3183); (3302, 3311); (3430, 3439); (3558, 3567); (3664, 3673);
   (3792, 3801); (3872, 3881); (4160, 4169); (4240, 4249); (6112, 6121);
   (6160, 6169); (6470, 6479); (6608, 6617); (6784, 6793); (6800, 6809);
   (6992, 7001); (7088, 7097); (7232, 7241); (7248, 7257); (42528, 42537);
   (43216, 43225); (43264, 43273); (43472, 43481); (43504, 43513);
   (43600, 43609); (44016, 44025); (65296, 65305); (66720, 66729);
   (68912, 68921); (69734, 69743); (69872, 69881); (69942, 69951);
   (70096, 70105); (70384, 70393); (70736, 70745); (70864, 70873);
   (71248, 71257); (71360, 71369); (71472, 71481); (71904, 71913);
   (72016, 72025); (72784, 72793); (73040, 73049); (73120, 73129);
   (92768, 92777); (92864, 92873); (93008, 93017); (120782, 120831);
   (123200, 123209); (123632, 123641); (125264, 125273);
   (130032, 130041)]%N.

(** [\d] in a [str] pattern: any Unicode decimal digit. *)
Definition is_digit (c : N) : bool :=
  existsb (fun r => (fst r <=? c)%N && (c <=? snd r)%N) decimal_ranges.
#[global] Arguments is_digit : simpl never.

Fixpoint drop_while {A} (p : A -> bool) (l : list A) : list A :=
  match l with
  | [] => []
  | x :: l' => if p x then drop_while p l' else l
  end.

(** [re.sub("\d+", "", name)]: scanning from the left, every match of
    [\d+] (a maximal run of digits) is replaced by the empty string. *)
Equations? re_sub_digits (s : str) : str by wf (length s) lt :=
  re_sub_digits [] := [];
  re_sub_digits (c :: s') with is_digit c => {
    | true := re_sub_digits (drop_while is_digit s');
    | false := c :: re_sub_digits s' }.
Proof.
  all: simpl; try lia.
  clear. induction s' as [|x l IH]; simpl; [lia|].
  destruct (is_digit x); simpl; lia.
Qed.

(** The argument of [rstrip]: the characters of ['_.jpg']. *)
Definition suffix_chars : str := lit "_.jpg".

Definition in_chars (chars : str) (c : N) : bool :=
  existsb (N.eqb c) chars.

(** [str.rstrip(chars)]: walk from the right end while the character is a
    member of [chars]. *)
Definition rstrip (chars : str) (s : str) : str :=
  rev (drop_while (in_chars chars) (rev s)).

(** Line 46: [img_cat = re.sub("\d+", "", name).rstrip('_.jpg')]. *)
Definition extract_label (name : str) : str :=
  rstrip suffix_chars (re_sub_digits name).

(** [name.startswith('.')] *)
Definition startswith_dot (name : str) : bool :=
  match name with
  | c :: _ => N.eqb c (N_of_ascii ".")
  | [] => false
  end.

(** A directory entry as [listdir] and [isfile] see it. *)
Record dir_entry := DirEntry { entry_name : str; entry_isfile : bool }.

(** [image_categories(img_root)], with the directory listing passed in.
    The loop body is [image_categories_step]; the dictionary is the
    accumulator. *)
Definition image_categories_step (img_root : str)
    (flower_dict : gmap str str) (name : str) : gmap str str :=
  if negb (startswith_dot name) then
    let img_path := img_root ++ name in
    let img_cat := extract_label name in
    <[img_path := img_cat]> flower_dict
  else flower_dict.

Definition image_categories (listing : list dir_entry) (img_root : str)
    : gmap str str :=
  let files := map entry_name (filter (fun e => entry_isfile e = true) listing) in
  fold_left (image_categories_step img_root) files ∅.

End Label.

(** ** numpy arrays *)

(** A three-dimensional array: its [shape] and its elements, as rows of
    columns of channel values. *)
Record ndarray (A : Type) : Type := NdArray {
  shape0 : Z;
  shape1 : Z;
  shape2 : Z;
  data : list (list (list A))
}.
Arguments NdArray {A} _ _ _ _.
Arguments shape0 {A} _.
Arguments shape1 {A} _.
Arguments shape2 {A} _.
Arguments data {A} _.

Definition shape {A} (a : ndarray A) : Z * Z * Z :=
  (shape0 a, shape1 a, shape2 a).

(** The element list agrees with the shape: every row has [n1] pixels and
    every pixel [n2] channel values. *)
Definition row_ok {A} (n1 n2 : Z) (row : list (list A)) : Prop :=
  Z.of_nat (length row) = n1 /\
  Forall (fun px => Z.of_nat (length px) = n2) row.

Definition wf {A} (a : ndarray A) : Prop :=
  Z.of_nat (length (data a)) = shape0 a /\ 0 <= shape1 a /\ 0 <= shape2 a /\
  Forall (row_ok (shape1 a) (shape2 a)) (data a).

(** [a[i, j, k]] for indices inside the array. *)
Definition getpx {A} (a : ndarray A) (i j k : nat) : option A :=
  match data a !! i with
  | Some row =>
      match row !! j with
      | Some px => px !! k
      | None => None
      end
  | None => None
  end.

(** *** Slices *)

(** A slice bound against an axis of length [n] (CPython's
    [PySlice_AdjustIndices] with step 1). *)
Definition adjust_index (n i : Z) : Z :=
  if i <? 0 then Z.max (i + n) 0 else Z.min i n.

Definition slice_start (n start stop : Z) : Z := adjust_index n start.
Definition slice_len (n start stop : Z) : Z :=
  Z.max 0 (adjust_index n stop - adjust_index n start).

(** [l[start:stop]] on an axis of length [n]. *)
Definition slice {A} (n : Z) (l : list A) (start stop : Z) : list A :=
  take (Z.to_nat (slice_len n start stop))
       (drop (Z.to_nat (slice_start n start stop)) l).

(** [a[r0:r1, c0:c1]] *)
Definition getitem_slice2 {A} (a : ndarray A) (rows cols : Z * Z) : ndarray A :=
  {| shape0 := slice_len (shape0 a) (fst rows) (snd rows);
     shape1 := slice_len (shape1 a) (fst cols) (snd cols);
     shape2 := shape2 a;
     data := map (fun row => slice (shape1 a) row (fst cols) (snd cols))
                 (slice (shape0 a) (data a) (fst rows) (snd rows)) |}.

(** *** Assignment to a slice, with broadcasting *)

(** An axis of length [src] broadcasts to length [dst] when they are
    equal or [src] is 1. *)
Definition broadcastable (src dst : Z) : bool :=
  (src =? dst) || (src =? 1).

Definition stretch {A} (src dst : Z) (l : list A) : list A :=
  if src =? dst then l
  else match l with
       | x :: _ => replicate (Z.to_nat dst) x
       | [] => []
       end.

(** Replace [l[start : start + length new]] by [new]. *)
Definition splice {A} (l : list A) (start : nat) (new : list A) : list A :=
  take start l ++ new ++ drop (start + length new) l.

(** [dst[r0:r1, c0:c1] = src] *)
Definition setitem_slice2 {A} (dst : ndarray A) (rows cols : Z * Z)
    (src : ndarray A) : result (ndarray A) :=
  let r := slice_start (shape0 dst) (fst rows) (snd rows) in
  let n0 := slice_len (shape0 dst) (fst rows) (snd rows) in
  let c := slice_start (shape1 dst) (fst cols) (snd cols) in
  let n1 := slice_len (shape1 dst) (fst cols) (snd cols) in
  if broadcastable (shape0 src) n0 && broadcastable (shape1 src) n1
     && broadcastable (shape2 src) (shape2 dst)
  then
    let px := map (map (stretch (shape2 src) (shape2 dst))) (data src) in
    let cols' := map (stretch (shape1 src) n1) px in
    let rows' := stretch (shape0 src) n0 cols' in
    let old := slice (shape0 dst) (data dst) (fst rows) (snd rows) in
    let new := zip_with (fun drow srow => splice drow (Z.to_nat c) srow) old rows' in
    Ok {| shape0 := shape0 dst; shape1 := shape1 dst; shape2 := shape2 dst;
          data := splice (data dst) (Z.to_nat r) new |}
  else Raise ValueError.

(** *** Sizes passed as Python sequences *)

Inductive seqkind : Set := PyList | PyTuple.

(** A two-element size [[height, width]] or [(height, width)]. *)
Record pysize : Set := PySize { kind : seqkind; item0 : Z; item1 : Z }.

(** [new_size + [c]]: list concatenation; a tuple on the left is a
    [TypeError]. *)
Definition concat_list1 (new_size : pysize) (c : Z) : result (Z * Z * Z) :=
  match kind new_size with
  | PyList => Ok (item0 new_size, item1 new_size, c)
  | PyTuple => Raise TypeError
  end.

(** [np.zeros(shape, dtype=np.uint8)] *)
Definition np_zeros (shp : Z * Z * Z) : result (ndarray byte) :=
  let '(d0, d1, d2) := shp in
  if (d0 <? 0) || (d1 <? 0) || (d2 <? 0) then Raise ValueError
  else Ok {| shape0 := d0; shape1 := d1; shape2 := d2;
             data := replicate (Z.to_nat d0)
                       (replicate (Z.to_nat d1) (replicate (Z.to_nat d2) x00)) |}.

(** ** Geometric normalizer (lines 51-84) *)

(** [cv2.resize] keeps the shape contract and leaves the interpolated pixel
    values to [interp]: [interp src (dh, dw) i j k] is the value written at
    row [i], column [j], channel [k] of a destination of [dh] rows and [dw]
    columns. *)
Definition interpolation : Type :=
  ndarray byte -> Z * Z -> nat -> nat -> nat -> byte.

(** The array that [cv2.resize] returns: OpenCV holds a one-channel image
    as a matrix without a channel axis and hands it back as an array of
    two axes, of shape (rows, cols); with more channels the result has
    three axes. *)
Inductive mat : Type :=
| Mat2 (rows cols : Z) (px : list (list byte))
| Mat3 (a : ndarray byte).

(** [m.shape] and its first two entries. *)
Definition mat_shape (m : mat) : list Z :=
  match m with
  | Mat2 rows cols _ => [rows; cols]
  | Mat3 a => [shape0 a; shape1 a; shape2 a]
  end.

Definition mat_shape0 (m : mat) : Z :=
  match m with
  | Mat2 rows _ _ => rows
  | Mat3 a => shape0 a
  end.

Definition mat_shape1 (m : mat) : Z :=
  match m with
  | Mat2 _ cols _ => cols
  | Mat3 a => shape1 a
  end.

(** The element list agrees with the shape. *)
Definition mat_wf (m : mat) : Prop :=
  match m with
  | Mat2 rows cols px =>
      Z.of_nat (length px) = rows /\ 0 <= cols /\
      Forall (fun row => Z.of_nat (length row) = cols) px
  | Mat3 a => wf a
  end.

Section Normalizer.

Variable interp : interpolation.

(** [cv2.resize(img, dsize=(width, height))]: OpenCV refuses an empty
    source and, with no scale factors given, a [dsize] with a component
    that is not positive.  The result has [height] rows and [width]
    columns; for a source with one channel it has no channel axis. *)
Definition cv2_resize (img : ndarray byte) (dsize : Z * Z) : result mat :=
  let '(dw, dh) := dsize in
  if (shape0 img <=? 0) || (shape1 img <=? 0) || (shape2 img <=? 0) then Raise Cv2Error
  else if (dw <=? 0) || (dh <=? 0) then Raise Cv2Error
  else if shape2 img =? 1 then
    Ok (Mat2 dh dw
          (map (fun i =>
             map (fun j => interp img (dh, dw) i j 0%nat)
                 (seq 0 (Z.to_nat dw)))
             (seq 0 (Z.to_nat dh))))
  else
    Ok (Mat3 {| shape0 := dh; shape1 := dw; shape2 := shape2 img;
                data := map (fun i =>
                          map (fun j =>
                            map (fun k => interp img (dh, dw) i j k)
                                (seq 0 (Z.to_nat (shape2 img))))
                            (seq 0 (Z.to_nat dw)))
                          (seq 0 (Z.to_nat dh)) |}).

(** [int(x / y)] on Python integers: true division, then truncation.  The
    exact quotient is used; the double-precision quotient truncates to the
    same integer as long as [x + y < 2^53]. *)
Definition int_truediv (x y : Z) : result Z :=
  if y =? 0 then Raise ZeroDivisionError else Ok (Z.quot x y).

(** Lines 57-61, for an image of three axes. *)
Definition _center_image (img : ndarray byte) (new_size : pysize)
    : result (ndarray byte) :=
  let row_buffer := (item0 new_size - shape0 img) / 2 in
  let col_buffer := (item1 new_size - shape1 img) / 2 in
  do shp <- concat_list1 new_size (shape2 img);
  do centered <- np_zeros shp;
  setitem_slice2 centered
    (row_buffer, row_buffer + shape0 img)
    (col_buffer, col_buffer + shape1 img) img.

(** Lines 69-72: the [dsize] handed to [cv2.resize], as (width, height). *)
Definition tile_size (img : ndarray byte) (new_size : pysize) : result (Z * Z) :=
  if shape0 img >? shape1 img then
    do w <- int_truediv (shape1 img * item1 new_size) (shape0 img);
    Ok (w, item1 new_size)
  else
    do h <- int_truediv (shape0 img * item1 new_size) (shape1 img);
    Ok (item1 new_size, h).

(** The resized tile, before centering. *)
Definition resize_tile (img : ndarray byte) (new_size : pysize) : result mat :=
  do ts <- tile_size img new_size;
  cv2_resize img ts.

(** Line 74.  For a tile of two axes [_center_image] computes the two
    margins (lines 57-58) and then fails at [img.shape[2]] (line 59) with
    an [IndexError], before [new_size] is concatenated. *)
Definition resize_image_to_square (img : ndarray byte) (new_size : pysize)
    : result (ndarray byte) :=
  do tile <- resize_tile img new_size;
  match tile with
  | Mat3 tile => _center_image tile new_size
  | Mat2 _ _ _ => Raise IndexError
  end.

(** Lines 82-84.  Slicing never raises. *)
Definition crop_image {A} (img : ndarray A) (crop_size : pysize) : ndarray A :=
  let row_buffer := (shape0 img - item0 crop_size) / 2 in
  let col_buffer := (shape1 img - item1 crop_size) / 2 in
  getitem_slice2 img
    (row_buffer, shape0 img - row_buffer)
    (col_buffer, shape1 img - col_buffer).

(** The two calls of the loop body of [process_images] (lines 96-97). *)
Definition normalize (img : ndarray byte) (resize_new_size crop_size : pysize)
    : result (ndarray byte) :=
  do img' <- resize_image_to_square img resize_new_size;
  Ok (crop_image img' crop_size).

(** ** Batch processor (lines 86-100) *)

(** [cv2.imread] returns [None] for a file it cannot read. *)
Variable imread : str -> option (ndarray byte).

(** [cv2.cvtColor(img, cv2.COLOR_BGR2RGB)]: three or four channels in,
    three out, the first and third exchanged; [None] is an error. *)
Definition bgr2rgb (px : list byte) : list byte :=
  match px with
  | b :: g :: r :: _ => [r; g; b]
  | _ => px
  end.

Definition cvtColor_BGR2RGB (img : option (ndarray byte)) : result (ndarray byte) :=
  match img with
  | None => Raise Cv2Error
  | Some a =>
      if (shape0 a <=? 0) || (shape1 a <=? 0) then Raise Cv2Error
      else if (shape2 a =? 3) || (shape2 a =? 4) then
        Ok {| shape0 := shape0 a; shape1 := shape1 a; shape2 := 3;
              data := map (map bgr2rgb) (data a) |}
      else Raise Cv2Error
  end.

(** The sizes [process_images] uses by default, and that the script
    passes. *)
Definition default_resize : pysize := PySize PyList 256 256.
Definition default_crop : pysize := PySize PyList 224 224.

(** Lines 94-97: what is appended for one path. *)
Definition process_one (resize_new_size crop_size : pysize) (file_path : str)
    : result (ndarray byte) :=
  let img := imread file_path in
  do img <- cvtColor_BGR2RGB img;
  do img <- resize_image_to_square img resize_new_size;
  Ok (crop_image img crop_size).

(** The [for] loop, threading the list [x]. *)
Fixpoint process_loop (resize_new_size crop_size : pysize)
    (file_paths_list : list str) (x : list (ndarray byte))
    : result (list (ndarray byte)) :=
  match file_paths_list with
  | [] => Ok x
  | file_path :: rest =>
      do img <- process_one resize_new_size crop_size file_path;
      process_loop resize_new_size crop_size rest (x ++ [img])
  end.

(** [np.array(x)] on a list of arrays: the arrays stacked along a new
    first axis; arrays of different shapes are a [ValueError]. *)
Definition same_shape {A} (a b : ndarray A) : bool :=
  (shape0 a =? shape0 b) && (shape1 a =? shape1 b) && (shape2 a =? shape2 b).

Definition np_array {A} (x : list (ndarray A)) : result (list (ndarray A)) :=
  match x with
  | [] => Ok []
  | a :: _ => if forallb (same_shape a) x then Ok x else Raise ValueError
  end.

Definition process_images (file_paths_list : list str)
    (resize_new_size crop_size : pysize) : result (list (ndarray byte)) :=
  do x <- process_loop resize_new_size crop_size file_paths_list [];
  np_array x.

End Normalizer.

(** ** float32 arithmetic *)

Definition f32 : Type := spec_float.
Definition f32_of_Z (z : Z) : f32 := binary_normalize 24 128 z 0 false.
Definition f32_div (x y : f32) : f32 := SFdiv 24 128 x y.
Definition f32_add (x y : f32) : f32 := SFadd 24 128 x y.
Definition f32_zero : f32 := S754_zero false.
Definition f32_one : f32 := f32_of_Z 1.
Definition f32_leb (x y : f32) : bool := SFleb x y.

(** [0.0 <= v <= 1.0] *)
Definition in_unit_interval (v : f32) : bool :=
  f32_leb f32_zero v && f32_leb v f32_one.

(** ** Dataset splitter (lines 102-126) *)

Definition ndarray_map {A B} (f : A -> B) (a : ndarray A) : ndarray B :=
  {| shape0 := shape0 a; shape1 := shape1 a; shape2 := shape2 a;
     data := map (map (map f)) (data a) |}.

(** [X.astype('float32')] on a [uint8] array. *)
Definition astype_float32 (b : byte) : f32 := f32_of_Z (Z.of_N (Byte.to_N b)).

(** [X / 255] on a [float32] array: the integer 255 becomes the float32
    255.0 and the quotient is rounded to float32. *)
Definition div_255 (v : f32) : f32 := f32_div v (f32_of_Z 255).

(** Lines 122-125 on one array of images. *)
Definition rescale (X : list (ndarray byte)) : list (ndarray f32) :=
  map (ndarray_map div_255) (map (ndarray_map astype_float32) X).

(** The order of numpy's sort on strings: code point by code point. *)
Fixpoint str_leb (a b : str) : bool :=
  match a, b with
  | [], _ => true
  | _ :: _, [] => false
  | x :: a', y :: b' =>
      if (x <? y)%N then true
      else if (y <? x)%N then false
      else str_leb a' b'
  end.

Definition str_le (a b : str) : Prop := str_leb a b = true.
#[global] Instance str_le_dec a b : Decision (str_le a b).
Proof. unfold str_le. apply _. Defined.

(** [np.unique]: the distinct values, sorted. *)
Definition np_unique (y : list str) : list str :=
  merge_sort str_le (remove_dups y).

(** [LabelEncoder]: [fit] stores [classes_]; [transform] maps each label
    to its position in [classes_] and rejects an unseen label. *)
Definition encoder_fit (y : list str) : list str := np_unique y.

Definition encode (classes_ : list str) (label : str) : result Z :=
  match list_find (fun c => c = label) classes_ with
  | Some (i, _) => Ok (Z.of_nat i)
  | None => Raise ValueError
  end.

Fixpoint mapM {A B} (f : A -> result B) (l : list A) : result (list B) :=
  match l with
  | [] => Ok []
  | a :: l' => do b <- f a; do bs <- mapM f l'; Ok (b :: bs)
  end.

Definition encoder_transform (classes_ : list str) (y : list str)
    : result (list Z) :=
  mapM (encode classes_) y.

Definition fit_transform (y : list str) : result (list Z) :=
  encoder_transform (encoder_fit y) y.

(** [a[ind]] with an integer index array. *)
Definition take_indices {A} (a : list A) (ind : list nat) : result (list A) :=
  mapM (fun i => match a !! i with Some v => Ok v | None => Raise IndexError end) ind.

Section Splitter.

(** [rng.permutation(n)] of the global generator that line 27 seeds. *)
Variable permutation : nat -> list nat.

(** [ceil(0.25 * n)], the default test size. *)
Definition n_test_of (n_samples : nat) : nat := ((n_samples + 3) / 4)%nat.

(** scikit-learn's [train_test_split(x, y)] with its defaults: one
    permutation of the sample indices, its first [n_test] entries the
    test indices and the following [n_train] the train indices, used to
    index every array. *)
Definition split_indices (n_samples : nat) : list nat * list nat :=
  let n_test := n_test_of n_samples in
  let n_train := (n_samples - n_test)%nat in
  let perm := permutation n_samples in
  (take n_train (drop n_test perm), take n_test perm).

Definition train_test_split {A B} (x : list A) (y : list B)
    : result (list A * list A * list B * list B) :=
  let n_samples := length x in
  if negb (length y =? n_samples)%nat then Raise ValueError
  else if (n_samples - n_test_of n_samples =? 0)%nat then Raise ValueError
  else
    let '(train, test) := split_indices n_samples in
    do X_train <- take_indices x train;
    do X_test <- take_indices x test;
    do y_train <- take_indices y train;
    do y_test <- take_indices y test;
    Ok (X_train, X_test, y_train, y_test).

(** The archive written by [np.savez(name, image_array, y)]. *)
Record archive : Type := Archive {
  arr_0 : list (ndarray byte);
  arr_1 : list str
}.

Definition train_validation_split (saved_arr : archive)
    : result (list (ndarray f32) * list (ndarray f32) * list Z * list Z) :=
  let x := arr_0 saved_arr in
  let y := arr_1 saved_arr in
  do y <- fit_transform y;
  do (X_train, X_test, y_train, y_test) <- train_test_split x y;
  let X_train := rescale X_train in
  let X_test := rescale X_test in
  Ok (X_train, X_test, y_train, y_test).

End Splitter.

(** ** Label binarizer (lines 143-147) *)

(** An index into an axis of length [n]: negative indices count from the
    end, anything outside [-n, n) is an [IndexError]. *)
Definition np_index (n i : Z) : result nat :=
  if (i <? - n) || (n <=? i) then Raise IndexError
  else Ok (Z.to_nat (if i <? 0 then i + n else i)).

(** [categorical[i, y[i]] = 1] for [i = start, start + 1, ...] *)
Fixpoint assign_ones (categorical : list (list f32)) (num_classes : Z)
    (start : nat) (y : list Z) : result (list (list f32)) :=
  match y with
  | [] => Ok categorical
  | label :: rest =>
      do j <- np_index num_classes label;
      assign_ones (alter (fun row => <[j := f32_one]> row) start categorical)
                  num_classes (S start) rest
  end.

(** Keras' [np_utils.to_categorical(y, num_classes)]: a zero matrix with
    one row per label, then [categorical[i, y[i]] = 1].  A [num_classes]
    of 0 (falsy) is replaced by [max(y) + 1]. *)
Definition to_categorical (y : list Z) (num_classes : Z) : result (list (list f32)) :=
  do num_classes <-
    (if num_classes =? 0 then
       match y with
       | [] => Raise ValueError
       | l :: ls => Ok (foldr Z.max l ls + 1)
       end
     else Ok num_classes);
  if num_classes <? 0 then Raise ValueError
  else
    let categorical :=
      replicate (length y) (replicate (Z.to_nat num_classes) f32_zero) in
    assign_ones categorical num_classes 0%nat y.

Definition convert_to_binary_class_matrices (y_train y_test : list Z)
    (nb_classes : Z) : result (list (list f32) * list (list f32)) :=
  do Y_train <- to_categorical y_train nb_classes;
  do Y_test <- to_categorical y_test nb_classes;
  Ok (Y_train, Y_test).

Definition row_sum (row : list f32) : f32 := fold_left f32_add row f32_zero.

(** ** The script (lines 149-165) *)

(** A Python [dict] as the list of its items in insertion order: assigning
    to a key that is present replaces the value in place, a new key goes
    to the end. *)
Fixpoint odict_set (d : list (str * str)) (k v : str)
    : list (str * str) :=
  match d with
  | [] => [(k, v)]
  | (k', v') :: d' =>
      if decide (k' = k) then (k', v) :: d'
      else (k', v') :: odict_set d' k v
  end.

(** [image_categories] with the dictionary kept in insertion order, as
    [list(y_dict.keys())] and [list(y_dict.values())] read it. *)
Definition image_categories_items_step (img_root : str)
    (flower_dict : list (str * str)) (name : str)
    : list (str * str) :=
  if negb (Label.startswith_dot name) then
    let img_path := img_root ++ name in
    let img_cat := Label.extract_label name in
    odict_set flower_dict img_path img_cat
  else flower_dict.

Definition image_categories_items (listing : list Label.dir_entry)
    (img_root : str) : list (str * str) :=
  let files :=
    map Label.entry_name (filter (fun e => Label.entry_isfile e = true) listing) in
  fold_left (image_categories_items_step img_root) files [].

Section Script.

Variable interp : interpolation.
Variable imread : str -> option (ndarray byte).
Variable permutation : nat -> list nat.

(** The body of [if __name__ == '__main__'].  [listing] is the directory
    as [image_categories] finds it, that is after [my_image_rename], which
    is imported from another module.  [np.savez] followed by [np.load]
    hands the two arrays over unchanged; the result is what the last
    [np.savez] writes. *)
Definition main (listing : list Label.dir_entry)
    : result (list (ndarray f32) * list (ndarray f32)
              * list (list f32) * list (list f32)) :=
  let img_root := lit "../imgs_jpgs/" in
  let y_dict := image_categories_items listing img_root in
  let y := map snd y_dict in
  let file_list := map fst y_dict in
  do image_array <-
    process_images interp imread file_list
      (PySize PyList 256 256) (PySize PyList 224 224);
  do (X_train, X_test, y_train, y_test) <-
    train_validation_split permutation (Archive image_array y);
  let nb_classes := 13 in
  do (Y_train, Y_test) <-
    convert_to_binary_class_matrices y_train y_test nb_classes;
  Ok (X_train, X_test, Y_train, Y_test).

End Script.

(** ** Vocabulary of the specification *)

(** "All trailing characters belonging to [chars] stripped from the right
    end": [r] is [s] without a tail of members of [chars], and [r] does
    not end in a member of [chars]. *)
Definition stripped_of (chars s r : str) : Prop :=
  exists tail, s = r ++ tail /\
    Forall (fun c => Label.in_chars chars c = true) tail /\
    (forall l c, r = l ++ [c] -> Label.in_chars chars c = false).

(** A path under which [imread] finds a colour image that the resize
    step accepts: positive sides, three channels, and the longer side at
    most [resize.W] times the shorter one. *)
Definition readable_image (imread : str -> option (ndarray byte))
    (resize_new_size : pysize) (file_path : str) : Prop :=
  exists img, imread file_path = Some img /\
    0 < shape0 img /\ 0 < shape1 img /\ shape2 img = 3 /\
    Z.max (shape0 img) (shape1 img)
      <= item1 resize_new_size * Z.min (shape0 img) (shape1 img).

(** The shape of every array that [process_one] returns. *)
Definition processed_shape (rs cs : pysize) : Z * Z * Z :=
  let rb := (item0 rs - item0 cs) / 2 in
  let cb := (item1 rs - item1 cs) / 2 in
  (slice_len (item0 rs) rb (item0 rs - rb),
   slice_len (item1 rs) cb (item1 rs - cb), 3).

(** Every element of a float array lies in [0.0, 1.0]. *)
Definition unit_pixels (a : ndarray f32) : Prop :=
  Forall (Forall (Forall (fun v => in_unit_interval v = true))) (data a).

(** The indicator vector of [j] among [n] classes. *)
Definition indicator (n j : nat) : list f32 :=
  map (fun k => if (k =? j)%nat then f32_one else f32_zero) (seq 0 n).

(** The column that label [l] sets, negative labels counting from the end. *)
Definition label_column (num_classes l : Z) : nat :=
  Z.to_nat (if l <? 0 then l + num_classes else l).

Definition result_shape {A} (r : result (ndarray A)) : option (Z * Z * Z) :=
  match r with
  | Ok a => Some (shape a)
  | Raise _ => None
  end.

#[global] Instance wf_dec {A} (a : ndarray A) : Decision (wf a).
Proof. unfold wf, row_ok. apply _. Defined.

(** ** Sample inputs *)

(** Nearest-neighbour interpolation, one instance of [interpolation]. *)
Definition interp_nearest : interpolation :=
  fun src dst i j k =>
    let si := Z.to_nat (Z.of_nat i * shape0 src / fst dst) in
    let sj := Z.to_nat (Z.of_nat j * shape1 src / snd dst) in
    default x00 (getpx src si sj k).

(** An image of one colour. *)
Definition solid_image (h w : Z) (px : list byte) : ndarray byte :=
  {| shape0 := h; shape1 := w; shape2 := Z.of_nat (length px);
     data := replicate (Z.to_nat h) (replicate (Z.to_nat w) px) |}.

Definition orange : list byte := [xff; x80; x00].

(** A directory with two readable images. *)
Definition sample_imread (file_path : str) : option (ndarray byte) :=
  if decide (file_path = lit "tall.jpg") then Some (solid_image 4 2 orange)
  else if decide (file_path = lit "wide.jpg") then Some (solid_image 2 4 orange)
  else None.

(** An archive of five one-pixel images and a generator that reverses the
    index range. *)
Definition sample_archive : archive :=
  {| arr_0 := [solid_image 1 1 [x00; x00; x00]; solid_image 1 1 [x01; x01; x01];
               solid_image 1 1 [x02; x02; x02]; solid_image 1 1 [xfe; xfe; xfe];
               solid_image 1 1 [xff; xff; xff]];
     arr_1 := map lit ["rose"; "daisy"; "rose"; "aster"; "daisy"]%string |}.

Definition sample_permutation (n : nat) : list nat := rev (seq 0 n).

(** A reader that finds the same small image under every path. *)
Definition sample_imread_any (file_path : str) : option (ndarray byte) :=
  Some (solid_image 4 2 orange).

(** A directory with two labelled images, a hidden file and a
    sub-directory. *)
Definition sample_listing : list Label.dir_entry :=
  [Label.DirEntry (lit "tall_1_.jpg") true; Label.DirEntry (lit "wide_2_.jpg") true;
   Label.DirEntry (lit ".DS_Store") true; Label.DirEntry (lit "old") false].

(** A directory with one image for each of fourteen labels. *)
Definition many_classes_listing : list Label.dir_entry :=
  map (fun s => Label.DirEntry (lit s ++ lit "_1_.jpg") true)
    ["a"; "b"; "c"; "d"; "e"; "f"; "h"; "i"; "k"; "l"; "m"; "n"; "o"; "q"]%string.

(** * Properties *)

(** ** Label extractor *)

Import Label.

Lemma drop_while_split {A} (p : A -> bool) (l : list A) :
  exists pre, l = pre ++ drop_while p l /\ Forall (fun x => p x = true) pre /\
    (forall x l', drop_while p l = x :: l' -> p x = false).
Proof.
  induction l as [|x l (pre & Hl & Hpre & Hhd)]; simpl.
  - exists []. split_and!; [done | constructor | discriminate].
  - destruct (p x) eqn:Hx.
    + exists (x :: pre). split_and!; [by rewrite Hl at 1 | by constructor | done].
    + exists []. split_and!; [done | constructor | congruence].
Qed.

Lemma filter_drop_while_digits (s : str) :
  filter (fun c => is_digit c = false) (drop_while is_digit s)
  = filter (fun c => is_digit c = false) s.
Proof.
  induction s as [|c s IH]; simpl; [done|].
  destruct (is_digit c) eqn:Hc.
  - rewrite IH, filter_cons_False; [done | congruence].
  - done.
Qed.

Lemma re_sub_digits_filter (s : str) :
  re_sub_digits s = filter (fun c => is_digit c = false) s.
Proof.
  funelim (re_sub_digits s).
  - done.
  - rewrite filter_cons_False by congruence.
    rewrite H. apply filter_drop_while_digits.
  - rewrite filter_cons_True by done. by rewrite H.
Qed.

(** On ASCII characters the digit class is ['0'] to ['9']. *)
Lemma is_digit_ascii (c : N) :
  (c < 128)%N -> is_digit c = true <-> (48 <= c <= 57)%N.
Proof.
  intros Hc. unfold is_digit.
  change decimal_ranges with ((48, 57)%N :: tl decimal_ranges).
  cbn [existsb fst snd]. rewrite orb_true_iff, andb_true_iff, !N.leb_le.
  split; [|by left]. intros [H|H]; [done|]. exfalso.
  apply existsb_exists in H as ([lo hi] & Hin & Hr).
  cbn [fst snd] in Hr. apply andb_true_iff in Hr as [Hlo _]. apply N.leb_le in Hlo.
  assert (Hall : forallb (fun r => (128 <=? fst r)%N) (tl decimal_ranges) = true)
    by (vm_compute; reflexivity).
  pose proof (proj1 (forallb_forall _ _) Hall _ Hin) as H128.
  cbn [fst] in H128. apply N.leb_le in H128. lia.
Qed.

Lemma rstrip_stripped chars s : stripped_of chars s (rstrip chars s).
Proof.
  unfold rstrip, stripped_of.
  destruct (drop_while_split (in_chars chars) (rev s)) as (pre & Hs & Hpre & Hhd).
  exists (rev pre). split_and!.
  - rewrite <- rev_app_distr, <- Hs. by rewrite rev_involutive.
  - by apply Forall_rev.
  - intros l c Hr. apply (f_equal (@rev N)) in Hr.
    rewrite rev_involutive, rev_app_distr in Hr. simpl in Hr. eauto.
Qed.

Lemma stripped_of_prefix chars (r1 t1 r2 t2 k : str) :
  r1 = r2 ++ k -> t2 = k ++ t1 ->
  Forall (fun c => in_chars chars c = true) t2 ->
  (forall l c, r1 = l ++ [c] -> in_chars chars c = false) ->
  k = [].
Proof.
  intros -> -> Ht Hl.
  destruct k as [|c k _] using rev_ind; [done|].
  apply Forall_app in Ht as [Ht _]. apply Forall_app in Ht as [_ Hc].
  apply Forall_inv in Hc.
  rewrite (Hl (r2 ++ k) c) in Hc; [discriminate | by rewrite app_assoc].
Qed.

Lemma stripped_of_unique chars s r1 r2 :
  stripped_of chars s r1 -> stripped_of chars s r2 -> r1 = r2.
Proof.
  intros (t1 & H1 & Ht1 & Hl1) (t2 & H2 & Ht2 & Hl2). subst s.
  apply app_eq_inv in H2 as [(k & Hr & Ht)|(k & Hr & Ht)].
  - rewrite (stripped_of_prefix chars r1 t1 r2 t2 k Hr Ht Ht2 Hl1) in Hr.
    by rewrite app_nil_r in Hr.
  - rewrite (stripped_of_prefix chars r2 t2 r1 t1 k Hr Ht Ht1 Hl2) in Hr.
    by rewrite app_nil_r in Hr.
Qed.

Lemma rstrip_app_tail chars (s t : str) :
  Forall (fun c => in_chars chars c = true) t ->
  rstrip chars (s ++ t) = rstrip chars s.
Proof.
  intros Ht. unfold rstrip. f_equal. rewrite rev_app_distr.
  apply Forall_rev in Ht. induction Ht as [|c l Hc _ IH]; simpl; [done|].
  by rewrite Hc.
Qed.

Lemma filter_all_digits (ds : str) :
  Forall (fun c => is_digit c = true) ds ->
  filter (fun c => is_digit c = false) ds = [].
Proof.
  induction 1 as [|c l Hc _ IH]; [done|].
  rewrite filter_cons_False by congruence. done.
Qed.

Lemma filter_no_digits (s : str) :
  Forall (fun c => is_digit c = false) s ->
  filter (fun c => is_digit c = false) s = s.
Proof.
  induction 1 as [|c l Hc _ IH]; [done|].
  rewrite filter_cons_True by done. by rewrite IH.
Qed.

Lemma extract_label_filter (name : str) :
  extract_label name
  = rstrip suffix_chars (filter (fun c => is_digit c = false) name).
Proof. unfold extract_label. by rewrite re_sub_digits_filter. Qed.

Lemma extract_label_stripped (name : str) :
  stripped_of suffix_chars
    (filter (fun c => is_digit c = false) name) (extract_label name).
Proof. rewrite extract_label_filter. apply rstrip_stripped. Qed.

Lemma suffix_chars_no_digit :
  Forall (fun c => is_digit c = false /\ in_chars suffix_chars c = true) suffix_chars.
Proof. repeat constructor. Qed.

Lemma extract_label_numbered (base digits : str) :
  Forall (fun c => is_digit c = false) base ->
  Forall (fun c => is_digit c = true) digits ->
  stripped_of suffix_chars base (extract_label (base ++ digits ++ lit "_.jpg")).
Proof.
  intros Hb Hd. rewrite extract_label_filter, !filter_app.
  rewrite (filter_all_digits _ Hd), (filter_no_digits _ Hb). cbn [app].
  rewrite filter_no_digits
    by (eapply Forall_impl; [apply suffix_chars_no_digit | by intros c [H _]]).
  rewrite rstrip_app_tail; [apply rstrip_stripped|].
  eapply Forall_impl; [apply suffix_chars_no_digit | by intros c [_ H]].
Qed.

(** C4.  For every file name, a [str] of arbitrary Unicode code points,
    the extracted label is the name with every decimal digit removed (the
    digits that [\d] matches: '0' to '9' and the decimal digits of the
    other scripts) and then all trailing characters of the set
    {'_', '.', 'j', 'p', 'g'} stripped from the right end (character-class
    semantics): it is the one string that [stripped_of] relates to the
    digit-free name.  In particular, for a name <name><digits>_.jpg with a
    digit-free <name> the label is <name> with its own trailing
    characters of that set removed.  Among the ASCII characters the
    digits are exactly '0' to '9'. *)
Theorem extract_label_rstrip_semantics :
  (forall (name r : str),
     stripped_of suffix_chars (filter (fun c => is_digit c = false) name) r
     <-> r = extract_label name) /\
  (forall base digits : str,
     Forall (fun c => is_digit c = false) base ->
     Forall (fun c => is_digit c = true) digits ->
     forall r : str,
       stripped_of suffix_chars base r
       <-> r = extract_label (base ++ digits ++ lit "_.jpg")) /\
  (forall c : N, (c < 128)%N -> is_digit c = true <-> (48 <= c <= 57)%N).
Proof.
  split_and!.
  - intros name r. split.
    + intros Hr. eapply stripped_of_unique; [exact Hr|]. apply extract_label_stripped.
    + intros ->. apply extract_label_stripped.
  - intros base digits Hb Hd r. split.
    + intros Hr. eapply stripped_of_unique; [exact Hr|]. by apply extract_label_numbered.
    + intros ->. by apply extract_label_numbered.
  - apply is_digit_ascii.
Qed.

Lemma drop_while_nonempty {A} (p : A -> bool) (l : list A) :
  drop_while p l <> [] <-> exists x, x ∈ l /\ p x = false.
Proof.
  induction l as [|x l IH]; simpl.
  - split; [done | intros (x & Hx & _); by apply elem_of_nil in Hx].
  - destruct (p x) eqn:Hx.
    + rewrite IH. split; intros (y & Hy & Hp).
      * exists y. split; [by apply elem_of_cons; right | done].
      * apply elem_of_cons in Hy as [->|Hy]; [congruence | eauto].
    + split; [intros _ | done]. exists x. split; [apply elem_of_cons; by left | done].
Qed.

Lemma elem_of_rev {A} (x : A) (l : list A) : x ∈ rev l <-> x ∈ l.
Proof. rewrite !list_elem_of_In. symmetry. apply in_rev. Qed.

Lemma rstrip_nonempty chars s :
  rstrip chars s <> [] <-> exists c, c ∈ s /\ in_chars chars c = false.
Proof.
  unfold rstrip. split.
  - intros H. assert (Hd : drop_while (in_chars chars) (rev s) <> []).
    { intros Hd. by rewrite Hd in H. }
    apply drop_while_nonempty in Hd as (c & Hc & Hp).
    exists c. split; [exact (proj1 (elem_of_rev _ _) Hc) | done].
  - intros (c & Hc & Hp) H.
    apply (f_equal (@rev N)) in H. rewrite rev_involutive in H. simpl in H.
    revert H. apply drop_while_nonempty. exists c. split; [|done].
    exact (proj2 (elem_of_rev _ _) Hc).
Qed.

Lemma image_categories_step_inv img_root files : forall m,
  (forall key v, m !! key = Some v ->
     exists n, key = img_root ++ n /\ v = extract_label n) ->
  (forall key v, fold_left (image_categories_step img_root) files m !! key = Some v ->
     exists n, key = img_root ++ n /\ v = extract_label n).
Proof.
  induction files as [|f files IH]; intros m Hm; simpl; [done|].
  apply IH. intros key v. unfold image_categories_step.
  destruct (negb (startswith_dot f)); [|apply Hm].
  rewrite lookup_insert. case_decide as Hk; [|apply Hm].
  intros [= <-]. eauto.
Qed.

Lemma image_categories_step_keeps img_root files : forall m key,
  is_Some (m !! key) ->
  is_Some (fold_left (image_categories_step img_root) files m !! key).
Proof.
  induction files as [|f files IH]; intros m key Hm; simpl; [done|].
  apply IH. unfold image_categories_step.
  destruct (negb (startswith_dot f)); [|done].
  rewrite lookup_insert. case_decide; [by eexists | done].
Qed.

Lemma image_categories_step_adds img_root files name : forall m,
  name ∈ files -> startswith_dot name = false ->
  is_Some (fold_left (image_categories_step img_root) files m !! (img_root ++ name)).
Proof.
  induction files as [|f files IH]; intros m Hin Hdot; simpl.
  - by apply elem_of_nil in Hin.
  - apply elem_of_cons in Hin as [<-|Hin]; [|by apply IH].
    apply image_categories_step_keeps. unfold image_categories_step.
    rewrite Hdot. simpl. rewrite lookup_insert_eq. by eexists.
Qed.

(** C8 (amended).  The label of a file name is non-empty exactly when
    the name contains a character that is neither a decimal digit (of any
    script) nor one of '_', '.', 'j', 'p', 'g'; and the label is a
    function of the file name alone: whatever the directory holds, the
    dictionary maps the path of every listed non-hidden file to
    [extract_label] of its name. *)
Theorem label_nonempty_iff_and_deterministic :
  (forall name : str,
     extract_label name <> [] <->
     exists c, c ∈ name /\ is_digit c = false /\
               in_chars suffix_chars c = false) /\
  (forall (listing : list dir_entry) (img_root name : str),
     DirEntry name true ∈ listing ->
     startswith_dot name = false ->
     image_categories listing img_root !! (img_root ++ name)
       = Some (extract_label name)).
Proof.
  split.
  - intros name. rewrite extract_label_filter, rstrip_nonempty. split.
    + intros (c & Hc & Hp). apply list_elem_of_filter in Hc as [Hd Hc]. eauto.
    + intros (c & Hc & Hd & Hp). exists c. split; [|done].
      apply list_elem_of_filter. done.
  - intros listing img_root name Hin Hdot. unfold image_categories.
    set (files := map entry_name _).
    assert (Hf : name ∈ files).
    { unfold files. apply (list_elem_of_fmap_2 entry_name _ (DirEntry name true)).
      apply list_elem_of_filter. done. }
    destruct (image_categories_step_adds img_root files name ∅ Hf Hdot) as [v Hv].
    rewrite Hv. f_equal.
    destruct (image_categories_step_inv img_root files ∅)
      with (key := img_root ++ name) (v := v)
      as (n & Hn & ->); [by intros key v'; rewrite lookup_empty | done |].
    by apply app_inv_head in Hn as <-.
Qed.

(** ** Slices *)

Lemma adjust_index_range n i : 0 <= n -> 0 <= adjust_index n i <= n.
Proof. unfold adjust_index. destruct (Z.ltb_spec i 0); lia. Qed.

Lemma slice_bounds_ok n start stop :
  0 <= n ->
  0 <= slice_start n start stop /\ 0 <= slice_len n start stop /\
  slice_start n start stop + slice_len n start stop <= n.
Proof.
  intros Hn. unfold slice_start, slice_len.
  pose proof (adjust_index_range n start Hn).
  pose proof (adjust_index_range n stop Hn). lia.
Qed.

(** The slice [(n - s) // 2 : (n - s) // 2 + s] used for centering. *)
Lemma center_axis_fit n s :
  0 <= s <= n ->
  let b := (n - s) / 2 in
  0 <= b /\ b + s <= n /\ slice_start n b (b + s) = b /\ slice_len n b (b + s) = s.
Proof.
  intros Hs b. assert (0 <= b /\ b + s <= n) as [Hb1 Hb2].
  { subst b. split; [apply Z.div_pos; lia|].
    pose proof (Z.mul_div_le (n - s) 2). lia. }
  unfold slice_start, slice_len, adjust_index.
  destruct (Z.ltb_spec b 0), (Z.ltb_spec (b + s) 0); lia.
Qed.

Lemma center_axis_cases n s :
  0 <= n -> 0 <= s ->
  let b := (n - s) / 2 in
  broadcastable s (slice_len n b (b + s)) = true ->
  n = 0 \/ 0 <= s <= n.
Proof.
  intros Hn Hs b Hbc. destruct (Z.le_gt_cases s n) as [|Hgt]; [lia|].
  destruct (Z.eq_dec n 0) as [|Hn0]; [lia|]. exfalso.
  pose proof (slice_bounds_ok n b (b + s) Hn) as (H1 & H2 & H3).
  unfold broadcastable in Hbc. apply orb_true_iff in Hbc as [Hbc|Hbc]; lia.
Qed.

(** The centered crop window [(n - c) // 2 : n - (n - c) // 2]. *)
Lemma crop_axis n c :
  0 <= c <= n ->
  let b := (n - c) / 2 in
  slice_start n b (n - b) = b /\ slice_len n b (n - b) = c + (n - c) mod 2.
Proof.
  intros Hc b. assert (0 <= b /\ 2 * b + (n - c) mod 2 = n - c) as [Hb1 Hb2].
  { subst b. split; [apply Z.div_pos; lia|].
    pose proof (Z.div_mod (n - c) 2). lia. }
  pose proof (Z.mod_pos_bound (n - c) 2).
  unfold slice_start, slice_len, adjust_index.
  destruct (Z.ltb_spec b 0), (Z.ltb_spec (n - b) 0); lia.
Qed.

(** ** Lists *)

Lemma lookup_slice {A} n (l : list A) start stop (i : nat) :
  slice n l start stop !! i =
  if decide (Z.of_nat i < slice_len n start stop)
  then l !! (Z.to_nat (slice_start n start stop) + i)%nat else None.
Proof.
  unfold slice. case_decide.
  - rewrite lookup_take_lt by lia. by rewrite lookup_drop.
  - apply lookup_take_ge. lia.
Qed.

Lemma length_slice {A} n (l : list A) start stop :
  Z.of_nat (length l) = n ->
  Z.of_nat (length (slice n l start stop)) = slice_len n start stop.
Proof.
  intros Hl. pose proof (slice_bounds_ok n start stop ltac:(lia)).
  unfold slice. rewrite length_take, length_drop. lia.
Qed.

Lemma length_splice {A} (l new : list A) start :
  (start + length new <= length l)%nat ->
  length (splice l start new) = length l.
Proof.
  intros H. unfold splice. rewrite !length_app, length_take, length_drop. lia.
Qed.

Lemma lookup_splice {A} (l new : list A) start (i : nat) :
  (start <= length l)%nat ->
  splice l start new !! i =
  if decide (i < start)%nat then l !! i
  else if decide (i < start + length new)%nat then new !! (i - start)%nat
  else l !! i.
Proof.
  intros H. unfold splice. case_decide.
  - rewrite lookup_app_l by (rewrite length_take; lia). by rewrite lookup_take_lt.
  - rewrite lookup_app_r by (rewrite length_take; lia).
    rewrite length_take, Nat.min_l by lia. case_decide.
    + by rewrite lookup_app_l by lia.
    + rewrite lookup_app_r by lia. rewrite lookup_drop. f_equal. lia.
Qed.

(** ** Well-formed arrays *)

Lemma length_stretch {A} src dst (l : list A) :
  Z.of_nat (length l) = src -> broadcastable src dst = true -> 0 <= dst ->
  Z.of_nat (length (stretch src dst l)) = dst.
Proof.
  intros Hl Hb Hd. unfold stretch, broadcastable in *.
  destruct (Z.eqb_spec src dst); [lia|]. simpl in Hb.
  destruct l as [|x l]; simpl in *; [lia|].
  rewrite length_replicate. lia.
Qed.

Lemma Forall_stretch {A} (P : A -> Prop) src dst (l : list A) :
  Forall P l -> Forall P (stretch src dst l).
Proof.
  intros Hl. unfold stretch. destruct (src =? dst); [done|].
  destruct Hl; [done|]. by apply Forall_replicate.
Qed.

Lemma Forall_splice {A} (P : A -> Prop) (l new : list A) start :
  Forall P l -> Forall P new -> Forall P (splice l start new).
Proof.
  intros Hl Hn. unfold splice. rewrite !Forall_app.
  split_and!; [by apply Forall_take | done | by apply Forall_drop].
Qed.

Lemma Forall_slice {A} (P : A -> Prop) n (l : list A) start stop :
  Forall P l -> Forall P (slice n l start stop).
Proof. intros Hl. unfold slice. by apply Forall_take, Forall_drop. Qed.

Lemma Forall_zip_with2 {A B C} (P : A -> Prop) (Q : B -> Prop) (R : C -> Prop)
    (f : A -> B -> C) (l : list A) (k : list B) :
  (forall a b, P a -> Q b -> R (f a b)) ->
  Forall P l -> Forall Q k -> Forall R (zip_with f l k).
Proof.
  intros Hf Hl. revert k. induction Hl as [|a l Ha Hl IH]; intros k Hk; [constructor|].
  destruct Hk as [|b k Hb Hk]; simpl; [constructor|].
  constructor; [by apply Hf | by apply IH].
Qed.

Lemma row_ok_splice {A} n1 n2 (drow srow : list (list A)) (c len : Z) :
  row_ok n1 n2 drow -> row_ok len n2 srow ->
  0 <= c -> 0 <= len -> c + len <= n1 ->
  row_ok n1 n2 (splice drow (Z.to_nat c) srow).
Proof.
  intros [Hd1 Hd2] [Hs1 Hs2] Hc Hlen Hfit. split.
  - rewrite length_splice; [done | lia].
  - by apply Forall_splice.
Qed.

Lemma setitem_slice2_shape {A} (dst src r : ndarray A) rows cols :
  setitem_slice2 dst rows cols src = Ok r -> shape r = shape dst.
Proof.
  unfold setitem_slice2. destruct (_ && _); [|done]. by intros [= <-].
Qed.

Lemma setitem_slice2_wf {A} (dst src r : ndarray A) rows cols :
  wf dst -> wf src -> setitem_slice2 dst rows cols src = Ok r -> wf r.
Proof.
  intros (Hd0 & Hd1 & Hd2 & Hd) (Hs0 & Hs1 & Hs2 & Hs). unfold setitem_slice2.
  destruct (_ && _) eqn:Hb; [|done]. intros [= <-].
  apply andb_true_iff in Hb as [Hb Hb2]. apply andb_true_iff in Hb as [Hb0 Hb1].
  pose proof (slice_bounds_ok (shape0 dst) (fst rows) (snd rows) ltac:(lia)) as (Hr1 & Hr2 & Hr3).
  pose proof (slice_bounds_ok (shape1 dst) (fst cols) (snd cols) Hd1) as (Hc1 & Hc2 & Hc3).
  set (n0 := slice_len (shape0 dst) _ _) in *.
  set (n1 := slice_len (shape1 dst) _ _) in *.
  set (px := map (map (stretch _ _)) (data src)).
  set (cols' := map (stretch _ _) px).
  set (rows' := stretch _ _ cols').
  assert (Hpx : Forall (row_ok (shape1 src) (shape2 dst)) px).
  { unfold px. apply Forall_fmap. eapply Forall_impl; [exact Hs|].
    intros row [Hr Hp]. split; simpl; [by rewrite length_map|].
    apply Forall_fmap. eapply Forall_impl; [exact Hp|].
    intros p Hpl. simpl. by apply length_stretch. }
  assert (Hcols : Forall (row_ok n1 (shape2 dst)) cols').
  { unfold cols'. apply Forall_fmap. eapply Forall_impl; [exact Hpx|].
    intros row [Hr Hp]. split; simpl; [by apply length_stretch | by apply Forall_stretch]. }
  assert (Hrows : Forall (row_ok n1 (shape2 dst)) rows' /\ Z.of_nat (length rows') = n0).
  { unfold rows'. split; [by apply Forall_stretch|].
    apply length_stretch; [|done|done]. unfold cols', px. by rewrite !length_map. }
  destruct Hrows as [Hrows Hlen].
  split_and!; simpl; [|done|done|].
  - rewrite length_splice; [done|]. rewrite length_zip_with.
    pose proof (length_slice _ (data dst) (fst rows) (snd rows) Hd0). lia.
  - apply Forall_splice; [done|].
    eapply Forall_zip_with2; [|by apply Forall_slice|exact Hrows].
    intros drow srow Hdrow Hsrow. simpl. by eapply row_ok_splice.
Qed.

Lemma np_zeros_wf shp a : np_zeros shp = Ok a -> wf a /\ shape a = shp.
Proof.
  destruct shp as [[d0 d1] d2]. unfold np_zeros.
  destruct (_ || _) eqn:Hneg; [done|]. intros [= <-].
  apply orb_false_iff in Hneg as [Hneg H2]. apply orb_false_iff in Hneg as [H0 H1].
  split; [|done]. split_and!; simpl; [rewrite length_replicate|..]; try lia.
  apply Forall_replicate. split; [rewrite length_replicate; lia|].
  apply Forall_replicate. rewrite length_replicate; lia.
Qed.

Lemma getpx_zeros d0 d1 d2 a (i j k : nat) :
  np_zeros (d0, d1, d2) = Ok a ->
  Z.of_nat i < d0 -> Z.of_nat j < d1 -> Z.of_nat k < d2 ->
  getpx a i j k = Some x00.
Proof.
  unfold np_zeros. destruct (_ || _); [done|]. intros [= <-] Hi Hj Hk.
  unfold getpx. simpl.
  rewrite lookup_replicate_2 by lia. rewrite lookup_replicate_2 by lia.
  apply lookup_replicate_2. lia.
Qed.

Lemma stretch_same {A} n (l : list A) : stretch n n l = l.
Proof. unfold stretch. by rewrite Z.eqb_refl. Qed.

Lemma map_stretch_same {A} n (l : list (list A)) : map (stretch n n) l = l.
Proof. induction l as [|x l IH]; simpl; [done|]. by rewrite stretch_same, IH. Qed.

Lemma wf_lookup_row {A} (a : ndarray A) (i : nat) :
  wf a -> Z.of_nat i < shape0 a ->
  exists row, data a !! i = Some row /\ row_ok (shape1 a) (shape2 a) row.
Proof.
  intros (H0 & _ & _ & Hrows) Hi.
  destruct (lookup_lt_is_Some_2 (data a) i) as [row Hrow]; [lia|].
  exists row. split; [done|]. by eapply Forall_lookup_1 in Hrows.
Qed.

(** Reading back an assignment whose source has exactly the shape of the
    target window. *)
Lemma setitem_slice2_getpx {A} (dst src r : ndarray A) rows cols (i j k : nat) :
  wf dst -> wf src ->
  shape0 src = slice_len (shape0 dst) (fst rows) (snd rows) ->
  shape1 src = slice_len (shape1 dst) (fst cols) (snd cols) ->
  shape2 src = shape2 dst ->
  setitem_slice2 dst rows cols src = Ok r ->
  Z.of_nat i < shape0 dst -> Z.of_nat j < shape1 dst ->
  let r0 := slice_start (shape0 dst) (fst rows) (snd rows) in
  let c0 := slice_start (shape1 dst) (fst cols) (snd cols) in
  getpx r i j k =
  if decide (r0 <= Z.of_nat i < r0 + shape0 src /\ c0 <= Z.of_nat j < c0 + shape1 src)
  then getpx src (i - Z.to_nat r0) (j - Z.to_nat c0) k
  else getpx dst i j k.
Proof.
  intros Hwd Hws E0 E1 E2 Hset Hi Hj r0 c0.
  pose proof Hwd as (Hd0 & Hd1 & Hd2 & Hd).
  pose proof Hws as (Hs0 & Hs1 & Hs2 & Hs).
  pose proof (slice_bounds_ok (shape0 dst) (fst rows) (snd rows) ltac:(lia)) as (Hr1 & Hr2 & Hr3).
  pose proof (slice_bounds_ok (shape1 dst) (fst cols) (snd cols) Hd1) as (Hc1 & Hc2 & Hc3).
  fold r0 in Hr1, Hr3. fold c0 in Hc1, Hc3.
  revert Hset. unfold setitem_slice2. rewrite <- E0, <- E1, E2.
  destruct (_ && _); [|done]. intros [= <-].
  rewrite !stretch_same, !map_stretch_same.
  assert (Hid : map (map (stretch (shape2 dst) (shape2 dst))) (data src) = data src).
  { clear. induction (data src) as [|x l IH]; simpl; [done|].
    by rewrite map_stretch_same, IH. }
  rewrite Hid. clear Hid. fold r0 c0.
  destruct (wf_lookup_row dst i Hwd Hi) as (drow & Hdrow & Hdl & Hdp).
  unfold getpx at 1. simpl.
  set (old := slice _ _ _ _).
  assert (Hold : Z.of_nat (length old) = shape0 src).
  { unfold old. rewrite E0. by apply length_slice. }
  rewrite lookup_splice by lia. rewrite length_zip_with.
  case_decide as Hlt.
  { rewrite decide_False by lia. unfold getpx. by rewrite Hdrow. }
  case_decide as Hlt2.
  2:{ rewrite decide_False by lia. unfold getpx. by rewrite Hdrow. }
  rewrite lookup_zip_with.
  assert (Hol : old !! (i - Z.to_nat r0)%nat = Some drow).
  { unfold old. rewrite lookup_slice. rewrite decide_True by lia.
    rewrite <- Hdrow. f_equal. fold r0. lia. }
  rewrite Hol. simpl.
  destruct (wf_lookup_row src (i - Z.to_nat r0)%nat Hws ltac:(lia)) as (srow & Hsrow & Hsl & Hsp).
  rewrite Hsrow. simpl.
  rewrite lookup_splice by lia.
  unfold getpx at 1. rewrite Hsrow.
  case_decide as Hj1.
  { rewrite decide_False by lia. unfold getpx. by rewrite Hdrow. }
  case_decide as Hj2.
  - by rewrite decide_True by lia.
  - rewrite decide_False by lia. unfold getpx. by rewrite Hdrow.
Qed.

(** ** [_center_image] *)

Lemma center_image_inv img new_size centered :
  _center_image img new_size = Ok centered ->
  let rb := (item0 new_size - shape0 img) / 2 in
  let cb := (item1 new_size - shape1 img) / 2 in
  exists zeros,
    kind new_size = PyList /\
    np_zeros (item0 new_size, item1 new_size, shape2 img) = Ok zeros /\
    setitem_slice2 zeros (rb, rb + shape0 img) (cb, cb + shape1 img) img = Ok centered.
Proof.
  unfold _center_image, concat_list1. destruct (kind new_size); [|done].
  cbn [bind].
  destruct (np_zeros (item0 new_size, item1 new_size, shape2 img)) as [zeros|] eqn:Hz;
    [|done].
  cbn [bind]. intros H. exists zeros. done.
Qed.

Lemma center_image_shape img new_size centered :
  _center_image img new_size = Ok centered ->
  shape centered = (item0 new_size, item1 new_size, shape2 img).
Proof.
  intros H. apply center_image_inv in H as (zeros & _ & Hz & Hset).
  apply setitem_slice2_shape in Hset. pose proof (np_zeros_wf _ _ Hz) as [_ Hshp].
  congruence.
Qed.

Lemma center_image_wf img new_size centered :
  wf img -> _center_image img new_size = Ok centered -> wf centered.
Proof.
  intros Hw H. apply center_image_inv in H as (zeros & _ & Hz & Hset).
  pose proof (np_zeros_wf _ _ Hz) as [Hwz _].
  exact (setitem_slice2_wf _ _ _ _ _ Hwz Hw Hset).
Qed.

Lemma center_image_total img new_size :
  kind new_size = PyList ->
  0 <= shape0 img <= item0 new_size ->
  0 <= shape1 img <= item1 new_size ->
  0 <= shape2 img ->
  exists centered, _center_image img new_size = Ok centered.
Proof.
  intros Hk H0 H1 H2. unfold _center_image, concat_list1. rewrite Hk. simpl.
  unfold np_zeros.
  destruct (Z.ltb_spec (item0 new_size) 0); [lia|].
  destruct (Z.ltb_spec (item1 new_size) 0); [lia|].
  destruct (Z.ltb_spec (shape2 img) 0); [lia|]. simpl.
  unfold setitem_slice2. simpl.
  destruct (center_axis_fit _ _ H0) as (_ & _ & _ & ->).
  destruct (center_axis_fit _ _ H1) as (_ & _ & _ & ->).
  unfold broadcastable. rewrite !Z.eqb_refl. simpl. eauto.
Qed.

Lemma center_image_getpx img new_size centered (i j k : nat) :
  wf img -> _center_image img new_size = Ok centered ->
  Z.of_nat i < item0 new_size -> Z.of_nat j < item1 new_size ->
  Z.of_nat k < shape2 img ->
  let rb := (item0 new_size - shape0 img) / 2 in
  let cb := (item1 new_size - shape1 img) / 2 in
  getpx centered i j k =
  if decide (rb <= Z.of_nat i < rb + shape0 img /\ cb <= Z.of_nat j < cb + shape1 img)
  then getpx img (i - Z.to_nat rb) (j - Z.to_nat cb) k
  else Some x00.
Proof.
  intros Hw H Hi Hj Hk rb cb.
  apply center_image_inv in H as (zeros & _ & Hz & Hset). fold rb cb in Hset.
  pose proof Hw as (Hs0 & Hs1 & Hs2 & _).
  pose proof (np_zeros_wf _ _ Hz) as [Hwz [= Hz0 Hz1 Hz2]].
  assert (Hbc : broadcastable (shape0 img) (slice_len (shape0 zeros) rb (rb + shape0 img)) = true
             /\ broadcastable (shape1 img) (slice_len (shape1 zeros) cb (cb + shape1 img)) = true).
  { revert Hset. unfold setitem_slice2. simpl. destruct (_ && _) eqn:Hb; [|done].
    intros _. apply andb_true_iff in Hb as [Hb _]. by apply andb_true_iff in Hb. }
  destruct Hbc as [Hb0 Hb1]. rewrite Hz0 in Hb0. rewrite Hz1 in Hb1.
  apply center_axis_cases in Hb0 as [?|Hf0]; [lia| | lia | lia].
  apply center_axis_cases in Hb1 as [?|Hf1]; [lia| | lia | lia].
  destruct (center_axis_fit _ _ Hf0) as (Hrb & _ & Hrs & Hrl).
  destruct (center_axis_fit _ _ Hf1) as (Hcb & _ & Hcs & Hcl).
  fold rb in Hrb, Hrs, Hrl. fold cb in Hcb, Hcs, Hcl.
  pose proof (setitem_slice2_getpx zeros img centered
                (rb, rb + shape0 img) (cb, cb + shape1 img) i j k Hwz Hw) as Hg.
  simpl in Hg. rewrite Hz0, Hz1, Hz2, Hrs, Hcs, Hrl, Hcl in Hg.
  rewrite (Hg eq_refl eq_refl eq_refl Hset Hi Hj).
  case_decide; [done|]. by eapply getpx_zeros.
Qed.

(** ** [crop_image] *)

Lemma getitem_slice2_getpx {A} (a : ndarray A) rows cols (i j k : nat) :
  let r0 := slice_start (shape0 a) (fst rows) (snd rows) in
  let c0 := slice_start (shape1 a) (fst cols) (snd cols) in
  Z.of_nat i < slice_len (shape0 a) (fst rows) (snd rows) ->
  Z.of_nat j < slice_len (shape1 a) (fst cols) (snd cols) ->
  getpx (getitem_slice2 a rows cols) i j k
  = getpx a (Z.to_nat r0 + i) (Z.to_nat c0 + j) k.
Proof.
  intros r0 c0 Hi Hj. unfold getpx. simpl.
  rewrite list_lookup_fmap, lookup_slice. rewrite decide_True by done. fold r0.
  destruct (data a !! _) as [row|]; simpl; [|done].
  rewrite lookup_slice. rewrite decide_True by done. done.
Qed.

Lemma getitem_slice2_wf {A} (a : ndarray A) rows cols :
  wf a -> wf (getitem_slice2 a rows cols).
Proof.
  intros (H0 & H1 & H2 & Hrows).
  pose proof (slice_bounds_ok (shape1 a) (fst cols) (snd cols) H1) as (Hc1 & Hc2 & Hc3).
  split_and!; simpl; [|done|done|].
  - rewrite length_map. by apply length_slice.
  - apply Forall_fmap, Forall_slice. eapply Forall_impl; [exact Hrows|].
    intros row [Hl Hp]. split; simpl; [by apply length_slice | by apply Forall_slice].
Qed.

(** ** [cv2.resize] and the tile *)

Section NormalizerFacts.

Variable interp : interpolation.

Lemma cv2_resize_total img dw dh :
  0 < shape0 img -> 0 < shape1 img -> 1 < shape2 img -> 0 < dw -> 0 < dh ->
  exists tile, cv2_resize interp img (dw, dh) = Ok (Mat3 tile) /\ wf tile /\
    shape tile = (dh, dw, shape2 img).
Proof.
  intros H0 H1 H2 Hw Hh. unfold cv2_resize.
  destruct (Z.leb_spec (shape0 img) 0); [lia|].
  destruct (Z.leb_spec (shape1 img) 0); [lia|].
  destruct (Z.leb_spec (shape2 img) 0); [lia|].
  destruct (Z.leb_spec dw 0); [lia|].
  destruct (Z.leb_spec dh 0); [lia|].
  destruct (Z.eqb_spec (shape2 img) 1); [lia|]. simpl.
  eexists. split; [done|]. split; [|done].
  split_and!; simpl; [rewrite length_map, length_seq; lia | lia | lia |].
  apply Forall_fmap, Forall_forall. intros i _. split; simpl.
  - rewrite length_map, length_seq. lia.
  - apply Forall_fmap, Forall_forall. intros j _. simpl.
    rewrite length_map, length_seq. lia.
Qed.

(** A source with one channel comes back with two axes. *)
Lemma cv2_resize_one_channel img dw dh :
  0 < shape0 img -> 0 < shape1 img -> shape2 img = 1 -> 0 < dw -> 0 < dh ->
  exists px, cv2_resize interp img (dw, dh) = Ok (Mat2 dh dw px) /\
    mat_wf (Mat2 dh dw px).
Proof.
  intros H0 H1 H2 Hw Hh. unfold cv2_resize.
  destruct (Z.leb_spec (shape0 img) 0); [lia|].
  destruct (Z.leb_spec (shape1 img) 0); [lia|].
  destruct (Z.leb_spec (shape2 img) 0); [lia|].
  destruct (Z.leb_spec dw 0); [lia|].
  destruct (Z.leb_spec dh 0); [lia|].
  destruct (Z.eqb_spec (shape2 img) 1); [|lia]. simpl.
  eexists. split; [done|].
  split_and!; [rewrite length_map, length_seq; lia | lia |].
  apply Forall_fmap, Forall_forall. intros i _. simpl.
  rewrite length_map, length_seq. lia.
Qed.

Lemma cv2_resize_inv img dsize tile :
  cv2_resize interp img dsize = Ok tile ->
  0 < shape0 img /\ 0 < shape1 img /\ 0 < shape2 img /\
  0 < fst dsize /\ 0 < snd dsize /\
  mat_shape0 tile = snd dsize /\ mat_shape1 tile = fst dsize /\ mat_wf tile /\
  match tile with
  | Mat3 a => shape2 a = shape2 img /\ shape2 img <> 1
  | Mat2 _ _ _ => shape2 img = 1
  end.
Proof.
  destruct dsize as [dw dh]. intros Ht.
  assert (Hpos : 0 < shape0 img /\ 0 < shape1 img /\ 0 < shape2 img /\
                 0 < dw /\ 0 < dh).
  { revert Ht. unfold cv2_resize.
    destruct (Z.leb_spec (shape0 img) 0); [done|].
    destruct (Z.leb_spec (shape1 img) 0); [done|].
    destruct (Z.leb_spec (shape2 img) 0); [done|].
    destruct (Z.leb_spec dw 0); [done|].
    destruct (Z.leb_spec dh 0); [done|]. lia. }
  destruct Hpos as (H0 & H1 & H2 & Hw & Hh). cbn [fst snd].
  destruct (Z.eq_dec (shape2 img) 1) as [E|E].
  - destruct (cv2_resize_one_channel img dw dh) as (px & Hpx & Hwf); try done.
    rewrite Hpx in Ht. injection Ht as <-. done.
  - destruct (cv2_resize_total img dw dh) as (a & Ha & Hwf & [= E0 E1 E2]);
      try done; try lia.
    rewrite Ha in Ht. injection Ht as <-. done.
Qed.

Lemma scaled_side_bounds a b W :
  0 < a -> a <= b -> 0 < W -> b <= W * a ->
  1 <= a * W / b <= W.
Proof.
  intros Ha Hab HW Hasp. split.
  - apply Z.div_le_lower_bound; lia.
  - apply Z.div_le_upper_bound; nia.
Qed.

Lemma tile_size_spec img new_size :
  0 < shape0 img -> 0 < shape1 img -> 0 <= item1 new_size ->
  tile_size img new_size =
  Ok (if shape0 img >? shape1 img
      then (shape1 img * item1 new_size / shape0 img, item1 new_size)
      else (item1 new_size, shape0 img * item1 new_size / shape1 img)).
Proof.
  intros H0 H1 HW. unfold tile_size, int_truediv.
  destruct (shape0 img >? shape1 img).
  - destruct (Z.eqb_spec (shape0 img) 0); [lia|]. cbn [bind].
    by rewrite Z.quot_div_nonneg by lia.
  - destruct (Z.eqb_spec (shape1 img) 0); [lia|]. cbn [bind].
    by rewrite Z.quot_div_nonneg by lia.
Qed.

Lemma resize_tile_fits img new_size :
  0 < shape0 img -> 0 < shape1 img -> 1 < shape2 img ->
  0 < item1 new_size ->
  Z.max (shape0 img) (shape1 img) <= item1 new_size * Z.min (shape0 img) (shape1 img) ->
  exists tile,
    resize_tile interp img new_size = Ok (Mat3 tile) /\ wf tile /\
    shape2 tile = shape2 img /\
    1 <= shape0 tile <= item1 new_size /\
    1 <= shape1 tile <= item1 new_size.
Proof.
  intros H0 H1 H2 HW Hasp. unfold resize_tile.
  rewrite tile_size_spec by lia. cbn [bind].
  destruct (Z.gtb_spec (shape0 img) (shape1 img)) as [Hgt|Hle].
  - rewrite Z.max_l, Z.min_r in Hasp by lia.
    pose proof (scaled_side_bounds (shape1 img) (shape0 img) (item1 new_size)
                  ltac:(lia) ltac:(lia) HW ltac:(lia)) as Hb.
    destruct (cv2_resize_total img (shape1 img * item1 new_size / shape0 img)
                (item1 new_size)) as (tile & Ht & Hwf & [= E0 E1 E2]); try lia.
    exists tile. rewrite Ht, E0, E1, E2. split_and!; done || lia.
  - rewrite Z.max_r, Z.min_l in Hasp by lia.
    pose proof (scaled_side_bounds (shape0 img) (shape1 img) (item1 new_size)
                  ltac:(lia) ltac:(lia) HW ltac:(lia)) as Hb.
    destruct (cv2_resize_total img (item1 new_size)
                (shape0 img * item1 new_size / shape1 img)) as (tile & Ht & Hwf & [= E0 E1 E2]); try lia.
    exists tile. rewrite Ht, E0, E1, E2. split_and!; done || lia.
Qed.

Lemma resize_image_to_square_spec img new_size :
  0 < shape0 img -> 0 < shape1 img -> 1 < shape2 img ->
  kind new_size = PyList ->
  0 < item1 new_size <= item0 new_size ->
  Z.max (shape0 img) (shape1 img) <= item1 new_size * Z.min (shape0 img) (shape1 img) ->
  exists tile out,
    resize_tile interp img new_size = Ok (Mat3 tile) /\
    resize_image_to_square interp img new_size = Ok out /\
    _center_image tile new_size = Ok out /\
    wf tile /\ wf out /\
    shape out = (item0 new_size, item1 new_size, shape2 img) /\
    1 <= shape0 tile <= item1 new_size /\
    1 <= shape1 tile <= item1 new_size.
Proof.
  intros H0 H1 H2 Hk HW Hasp.
  destruct (resize_tile_fits img new_size) as (tile & Ht & Hwf & E2 & Hb0 & Hb1);
    try done; try lia.
  destruct (center_image_total tile new_size) as [out Hout]; try done; try lia.
  exists tile, out. unfold resize_image_to_square. rewrite Ht. cbn [bind].
  split_and!; try done; try lia.
  - by eapply center_image_wf.
  - rewrite <- E2. by apply center_image_shape.
Qed.

Lemma resize_image_to_square_inv img new_size out :
  resize_image_to_square interp img new_size = Ok out ->
  exists tile,
    resize_tile interp img new_size = Ok (Mat3 tile) /\ wf tile /\
    shape2 tile = shape2 img /\ _center_image tile new_size = Ok out.
Proof.
  unfold resize_image_to_square.
  destruct (resize_tile interp img new_size) as [[rows cols px|tile]|] eqn:Ht;
    cbn [bind]; [done | | done].
  intros Hc. exists tile. split; [done|].
  revert Ht. unfold resize_tile.
  destruct (tile_size img new_size) as [ts|]; cbn [bind]; [|done].
  intros Ht. apply cv2_resize_inv in Ht as (_ & _ & _ & _ & _ & _ & _ & Hwf & E2 & _).
  done.
Qed.

End NormalizerFacts.

(** ** Batch processor *)

Lemma mapM_Forall2 {A B} (f : A -> result B) (l : list A) (ys : list B) :
  mapM f l = Ok ys <-> Forall2 (fun a b => f a = Ok b) l ys.
Proof.
  revert ys. induction l as [|a l IH]; intros ys; simpl.
  - split; [intros [= <-]; constructor | by inversion 1].
  - destruct (f a) as [b|e] eqn:Hfa; cbn [bind].
    + destruct (mapM f l) as [bs|e] eqn:Hm; cbn [bind].
      * split.
        -- intros [= <-]. constructor; [done | by apply IH].
        -- inversion 1 as [|? b' ? bs' Hb Hbs]; subst.
           apply IH in Hbs. congruence.
      * split; [done|]. inversion 1 as [|? b' ? bs' Hb Hbs]; subst.
        apply IH in Hbs. congruence.
    + split; [done|]. inversion 1; subst. congruence.
Qed.

Lemma mapM_Raise {A B} (f : A -> result B) (l : list A) e :
  mapM f l = Raise e -> exists a, a ∈ l /\ f a = Raise e.
Proof.
  induction l as [|a l IH]; simpl; [done|].
  destruct (f a) as [b|e'] eqn:Hfa; cbn [bind].
  - destruct (mapM f l) as [bs|e'] eqn:Hm; cbn [bind]; [done|].
    intros [= ->]. destruct IH as (a' & Ha' & Hf); [done|].
    exists a'. split; [by apply elem_of_cons; right | done].
  - intros [= ->]. exists a. split; [apply elem_of_cons; by left | done].
Qed.

Lemma mapM_total {A B} (f : A -> result B) (l : list A) :
  Forall (fun a => exists b, f a = Ok b) l -> exists bs, mapM f l = Ok bs.
Proof.
  induction 1 as [|a l [b Hb] _ [bs Hbs]]; simpl; [by eexists|].
  rewrite Hb, Hbs. cbn [bind]. by eexists.
Qed.

Section BatchFacts.

Variable interp : interpolation.
Variable imread : str -> option (ndarray byte).

Lemma process_loop_mapM rs cs paths : forall x,
  process_loop interp imread rs cs paths x =
  do ys <- mapM (process_one interp imread rs cs) paths; Ok (x ++ ys).
Proof.
  induction paths as [|p paths IH]; intros x; simpl.
  - by rewrite app_nil_r.
  - destruct (process_one interp imread rs cs p) as [img|e]; cbn [bind]; [|done].
    rewrite IH. destruct (mapM _ paths) as [ys|e]; cbn [bind]; [|done].
    by rewrite <- app_assoc.
Qed.


Lemma process_one_inv rs cs p a :
  process_one interp imread rs cs p = Ok a ->
  exists rgb sq,
    cvtColor_BGR2RGB (imread p) = Ok rgb /\ shape2 rgb = 3 /\
    resize_image_to_square interp rgb rs = Ok sq /\ a = crop_image sq cs.
Proof.
  unfold process_one.
  destruct (cvtColor_BGR2RGB (imread p)) as [img|] eqn:Hcvt; cbn [bind]; [|done].
  assert (H3 : shape2 img = 3).
  { revert Hcvt. unfold cvtColor_BGR2RGB. destruct (imread p) as [b|]; [|done].
    destruct (_ || _); [done|]. destruct (_ || _); [|done]. by intros [= <-]. }
  destruct (resize_image_to_square interp img rs) as [sq|] eqn:Hsq; cbn [bind]; [|done].
  intros [= <-]. by exists img, sq.
Qed.

Lemma process_one_shape rs cs p a :
  process_one interp imread rs cs p = Ok a -> shape a = processed_shape rs cs.
Proof.
  intros (img & sq & _ & H3 & Hsq & ->)%process_one_inv.
  apply resize_image_to_square_inv in Hsq as (tile & _ & _ & E2 & Hsq).
  apply center_image_shape in Hsq as [= S0 S1 S2].
  unfold crop_image, shape, processed_shape. simpl. rewrite S0, S1, S2. congruence.
Qed.

Lemma process_one_readable rs cs p :
  kind rs = PyList -> 0 < item1 rs <= item0 rs ->
  readable_image imread rs p ->
  exists a, process_one interp imread rs cs p = Ok a.
Proof.
  intros Hk HW (img & Hp & H0 & H1 & H2 & Hasp). unfold process_one. rewrite Hp.
  unfold cvtColor_BGR2RGB.
  destruct (Z.leb_spec (shape0 img) 0); [exfalso; lia|].
  destruct (Z.leb_spec (shape1 img) 0); [exfalso; lia|]. cbn [orb].
  rewrite H2. cbn [Z.eqb Pos.eqb orb bind].
  set (rgb := {| shape0 := shape0 img |}).
  destruct (resize_image_to_square_spec interp rgb rs) as (tile & sq & _ & -> & _);
    try done. cbn [bind]. by eexists.
Qed.

Lemma process_one_unreadable rs cs p :
  imread p = None -> process_one interp imread rs cs p = Raise Cv2Error.
Proof. intros Hp. unfold process_one. by rewrite Hp. Qed.

Lemma np_array_same_shape {A} (x : list (ndarray A)) shp :
  Forall (fun a => shape a = shp) x -> np_array x = Ok x.
Proof.
  intros Hx. unfold np_array. destruct x as [|a x]; [done|].
  assert (Ha : shape a = shp) by by inversion Hx.
  rewrite (proj2 (forallb_forall _ _)); [done|].
  intros b Hb%list_elem_of_In. eapply Forall_forall in Hx; [|done].
  unfold same_shape. rewrite <- Ha in Hx. injection Hx as -> -> ->.
  by rewrite !Z.eqb_refl.
Qed.

Lemma process_images_mapM paths rs cs :
  process_images interp imread paths rs cs
  = mapM (process_one interp imread rs cs) paths.
Proof.
  unfold process_images. rewrite process_loop_mapM.
  destruct (mapM _ paths) as [ys|e] eqn:Hm; cbn [bind]; [|done]. simpl.
  apply np_array_same_shape with (shp := processed_shape rs cs).
  apply mapM_Forall2 in Hm. clear -Hm.
  induction Hm as [|p a paths ys Hp _ IH]; constructor; [|done].
  by eapply process_one_shape.
Qed.

(** C5 (amended).  [process_images []] returns the empty sequence and no
    error.  For a list of paths that [cv2.imread] all reads as colour
    images with positive sides whose longer side is at most [resize.W]
    times the shorter one, and a list-valued resize size with
    0 < W <= H, [process_images] returns exactly one image per path, in
    the order of the paths: element [i] is the image read from path [i],
    converted to RGB, resized to the square and cropped.  A list that
    holds a path [cv2.imread] cannot read yields no sequence: the call
    raises. *)
Theorem process_images_length_and_order :
  (forall rs cs, process_images interp imread [] rs cs = Ok []) /\
  (forall paths rs cs,
     kind rs = PyList -> 0 < item1 rs <= item0 rs ->
     Forall (readable_image imread rs) paths ->
     exists x,
       process_images interp imread paths rs cs = Ok x /\
       length x = length paths /\
       forall (i : nat) file_path, paths !! i = Some file_path ->
         exists rgb sq,
           cvtColor_BGR2RGB (imread file_path) = Ok rgb /\
           resize_image_to_square interp rgb rs = Ok sq /\
           x !! i = Some (crop_image sq cs)) /\
  (forall paths rs cs file_path,
     file_path ∈ paths -> imread file_path = None ->
     exists e, process_images interp imread paths rs cs = Raise e).
Proof.
  split_and!; [done | |].
  - intros paths rs cs Hk HW Hpaths.
    destruct (mapM_total (process_one interp imread rs cs) paths) as [x Hx].
    { eapply Forall_impl; [exact Hpaths|]. intros p Hp. by apply process_one_readable. }
    pose proof (proj1 (mapM_Forall2 _ _ _) Hx) as HF.
    exists x. rewrite process_images_mapM. split; [done|].
    split; [symmetry; by eapply Forall2_length|].
    intros i p Hi.
    destruct (Forall2_lookup_l _ _ _ _ _ HF Hi) as (a & Ha & Hpa).
    apply process_one_inv in Hpa as (rgb & sq & Hrgb & _ & Hsq & ->).
    by exists rgb, sq.
  - intros paths rs cs p Hin Hp. rewrite process_images_mapM.
    destruct (mapM _ paths) as [x|e] eqn:Hm; [|by exists e].
    apply mapM_Forall2 in Hm.
    apply list_elem_of_lookup in Hin as [i Hi].
    destruct (Forall2_lookup_l _ _ _ _ _ Hm Hi) as (a & _ & Hpa).
    by rewrite process_one_unreadable in Hpa.
Qed.

End BatchFacts.

(** ** Label encoder *)

Lemma elem_of_np_unique (y : list str) (label : str) :
  label ∈ np_unique y <-> label ∈ y.
Proof.
  unfold np_unique. rewrite merge_sort_Permutation. apply elem_of_remove_dups.
Qed.

Lemma encode_seen (y : list str) (label : str) :
  label ∈ y -> exists code, encode (encoder_fit y) label = Ok code.
Proof.
  intros Hin. unfold encode, encoder_fit.
  destruct (list_find_elem_of (fun c => c = label) (np_unique y) label) as [[i c] Hf];
    [by apply elem_of_np_unique | done |].
  rewrite Hf. eauto.
Qed.

Lemma encode_inj (classes_ : list str) (a b : str) (code : Z) :
  encode classes_ a = Ok code -> encode classes_ b = Ok code -> a = b.
Proof.
  unfold encode.
  destruct (list_find _ classes_) as [[i x]|] eqn:Ha; [|done].
  destruct (list_find (fun c => c = b) classes_) as [[j z]|] eqn:Hb; [|done].
  intros [= <-] [= Hij]. apply Nat2Z.inj in Hij as ->.
  apply list_find_Some in Ha as (Hx & -> & _).
  apply list_find_Some in Hb as (Hz & -> & _). congruence.
Qed.

Lemma fit_transform_total (y : list str) :
  exists codes, fit_transform y = Ok codes /\
    Forall2 (fun label code => encode (encoder_fit y) label = Ok code) y codes.
Proof.
  destruct (mapM_total (encode (encoder_fit y)) y) as [codes Hc].
  - apply Forall_forall. intros label Hl. by apply encode_seen.
  - exists codes. split; [done|]. by apply mapM_Forall2.
Qed.

Lemma take_indices_total {A} (a : list A) (ind : list nat) :
  Forall (fun k => k < length a)%nat ind ->
  exists r, take_indices a ind = Ok r /\ Forall2 (fun k v => a !! k = Some v) ind r.
Proof.
  intros Hind. destruct (mapM_total
    (fun i => match a !! i with Some v => Ok v | None => Raise IndexError end) ind) as [r Hr].
  - eapply Forall_impl; [exact Hind|]. intros k Hk. simpl in *.
    destruct (lookup_lt_is_Some_2 a k Hk) as [v ->]. by eexists.
  - exists r. split; [done|]. apply mapM_Forall2 in Hr.
    eapply Forall2_impl; [exact Hr|]. intros k v. simpl.
    destruct (a !! k); [by intros [= ->] | done].
Qed.

(** ** Float rescaling *)

Lemma div_255_in_unit (b : byte) :
  in_unit_interval (div_255 (astype_float32 b)) = true.
Proof. destruct b; vm_compute; reflexivity. Qed.


Lemma rescale_unit_pixels (X : list (ndarray byte)) :
  Forall unit_pixels (rescale X).
Proof.
  unfold rescale. apply Forall_fmap, Forall_fmap, Forall_forall. intros a _.
  unfold unit_pixels. simpl.
  apply Forall_fmap, Forall_fmap, Forall_forall. intros row _. simpl.
  apply Forall_fmap, Forall_fmap, Forall_forall. intros px _. simpl.
  apply Forall_fmap, Forall_fmap, Forall_forall. intros b _. simpl.
  apply div_255_in_unit.
Qed.

Lemma lookup_rescale (X : list (ndarray byte)) (i : nat) :
  rescale X !! i = (fun img => ndarray_map div_255 (ndarray_map astype_float32 img)) <$> X !! i.
Proof.
  unfold rescale. rewrite !list_lookup_fmap. by destruct (X !! i).
Qed.

Lemma take_indices_Forall2 {A} (a : list A) (ind : list nat) (r : list A) :
  take_indices a ind = Ok r -> Forall2 (fun k v => a !! k = Some v) ind r.
Proof.
  intros H%mapM_Forall2. eapply Forall2_impl; [exact H|].
  intros k v. simpl. destruct (a !! k); [by intros [= ->] | done].
Qed.

Lemma getpx_ndarray_map {A B} (f : A -> B) (a : ndarray A) (i j k : nat) :
  getpx (ndarray_map f a) i j k = f <$> getpx a i j k.
Proof.
  unfold getpx, ndarray_map. cbn [data]. rewrite list_lookup_fmap.
  destruct (data a !! i) as [row|]; [|done]. cbn [fmap option_fmap option_map].
  rewrite list_lookup_fmap. destruct (row !! j) as [px|]; [|done].
  cbn [fmap option_fmap option_map]. by rewrite list_lookup_fmap.
Qed.

Section SplitterFacts.

Variable permutation : nat -> list nat.

Lemma split_indices_valid n :
  Forall (fun k => k < n)%nat (permutation n) ->
  Forall (fun k => k < n)%nat (fst (split_indices permutation n)) /\
  Forall (fun k => k < n)%nat (snd (split_indices permutation n)).
Proof.
  intros H. unfold split_indices. simpl. split.
  - by apply Forall_take, Forall_drop.
  - by apply Forall_take.
Qed.

Lemma train_validation_split_inv_full saved_arr X_train X_test y_train y_test :
  train_validation_split permutation saved_arr
    = Ok (X_train, X_test, y_train, y_test) ->
  let x := arr_0 saved_arr in
  let n := length x in
  exists codes Xtr Xte,
    fit_transform (arr_1 saved_arr) = Ok codes /\
    length codes = n /\ length (arr_1 saved_arr) = n /\
    (n - n_test_of n <> 0)%nat /\
    Forall2 (fun k v => x !! k = Some v) (fst (split_indices permutation n)) Xtr /\
    Forall2 (fun k v => x !! k = Some v) (snd (split_indices permutation n)) Xte /\
    Forall2 (fun k v => codes !! k = Some v) (fst (split_indices permutation n)) y_train /\
    Forall2 (fun k v => codes !! k = Some v) (snd (split_indices permutation n)) y_test /\
    X_train = rescale Xtr /\ X_test = rescale Xte.
Proof.
  intros H x n. unfold train_validation_split in H.
  destruct (fit_transform_total (arr_1 saved_arr)) as (codes & Hfit & Hcodes).
  pose proof (Forall2_length _ _ _ Hcodes) as Hclen.
  rewrite Hfit in H. cbn [bind] in H. unfold train_test_split in H. fold x n in H.
  destruct (Nat.eqb_spec (length codes) n) as [Hlen|]; [|done]. simpl negb in H. cbv iota in H.
  destruct (Nat.eqb_spec (n - n_test_of n) 0) as [|Hn]; [done|].
  destruct (split_indices permutation n) as [train test] eqn:Hsi.
  destruct (take_indices x train) as [Xtr|] eqn:H1; cbn [bind] in H; [|done].
  destruct (take_indices x test) as [Xte|] eqn:H2; cbn [bind] in H; [|done].
  destruct (take_indices codes train) as [ytr|] eqn:H3; cbn [bind] in H; [|done].
  destruct (take_indices codes test) as [yte|] eqn:H4; cbn [bind] in H; [|done].
  injection H as <- <- <- <-.
  exists codes, Xtr, Xte. simpl.
  split_and!; try done; try congruence; by apply take_indices_Forall2.
Qed.

End SplitterFacts.

(** ** Label binarizer *)


Lemma np_index_in_range n l :
  - n <= l < n -> np_index n l = Ok (label_column n l).
Proof.
  intros H. unfold np_index.
  destruct (Z.ltb_spec l (- n)); [lia|]. destruct (Z.leb_spec n l); [lia|]. done.
Qed.

Lemma np_index_out_of_range n l :
  l < - n \/ n <= l -> np_index n l = Raise IndexError.
Proof.
  intros H. unfold np_index.
  destruct (Z.ltb_spec l (- n)); [done|]. destruct (Z.leb_spec n l); [done | lia].
Qed.

Lemma assign_ones_raise num_classes (y : list Z) : forall categorical start,
  Exists (fun l => l < - num_classes \/ num_classes <= l) y ->
  assign_ones categorical num_classes start y = Raise IndexError.
Proof.
  induction y as [|l y IH]; intros categorical start Hex; [by inversion Hex|].
  simpl. destruct (decide (- num_classes <= l < num_classes)) as [Hin|Hout].
  - rewrite np_index_in_range by done. cbn [bind]. apply IH.
    inversion Hex; subst; [lia | done].
  - rewrite np_index_out_of_range by lia. done.
Qed.

Lemma assign_ones_ok num_classes (y : list Z) : forall categorical start,
  Forall (fun l => - num_classes <= l < num_classes) y ->
  exists Y, assign_ones categorical num_classes start y = Ok Y /\
    length Y = length categorical /\
    forall (i : nat) row, categorical !! i = Some row ->
      Y !! i = Some (if decide (start <= i)%nat
                     then match y !! (i - start)%nat with
                          | Some l => <[label_column num_classes l := f32_one]> row
                          | None => row
                          end
                     else row).
Proof.
  induction y as [|l y IH]; intros categorical start Hy; simpl.
  - exists categorical. split_and!; [done..|]. intros i row Hrow.
    by case_decide.
  - apply Forall_cons in Hy as [Hl Hy]. rewrite np_index_in_range by done. cbn [bind].
    destruct (IH (alter (fun row => <[label_column num_classes l := f32_one]> row)
                    start categorical) (S start) Hy) as (Y & HY & Hlen & Hrows).
    exists Y. split; [done|]. split; [by rewrite Hlen, length_alter|].
    intros i row Hrow. destruct (decide (i = start)) as [->|Hne].
    + rewrite (Hrows start (<[label_column num_classes l := f32_one]> row)).
      * rewrite decide_False by lia. rewrite decide_True by lia.
        by rewrite Nat.sub_diag.
      * rewrite list_lookup_alter_eq. by rewrite Hrow.
    + rewrite (Hrows i row) by (by rewrite list_lookup_alter_ne).
      destruct (decide (S start <= i)%nat).
      * rewrite decide_True by lia.
        replace (i - start)%nat with (S (i - S start)) by lia. done.
      * by rewrite decide_False by lia.
Qed.

Lemma insert_one_indicator (n j : nat) :
  (j < n)%nat -> <[j := f32_one]> (replicate n f32_zero) = indicator n j.
Proof.
  intros Hj. apply list_eq. intros k. unfold indicator.
  rewrite list_lookup_fmap. destruct (decide (k < n)%nat) as [Hk|Hk].
  - rewrite lookup_seq_lt by done. simpl. destruct (Nat.eqb_spec k j) as [->|Hne].
    + apply list_lookup_insert_eq. by rewrite length_replicate.
    + rewrite list_lookup_insert_ne by done. by apply lookup_replicate_2.
  - rewrite lookup_seq_ge by lia. simpl. apply lookup_ge_None.
    rewrite length_insert, length_replicate. lia.
Qed.

Lemma fold_add_zeros (n : nat) (acc : f32) :
  acc = f32_zero \/ acc = f32_one ->
  fold_left f32_add (replicate n f32_zero) acc = acc.
Proof.
  intros Hacc. induction n as [|n IH]; simpl; [done|].
  destruct Hacc as [->| ->]; exact IH.
Qed.

Lemma indicator_split (n j : nat) :
  (j < n)%nat ->
  indicator n j = replicate j f32_zero ++ f32_one :: replicate (n - S j) f32_zero.
Proof.
  intros Hj. rewrite <- insert_one_indicator by done.
  replace n with (j + S (n - S j))%nat at 1 by lia.
  rewrite replicate_add. simpl.
  rewrite insert_app_r_alt by (rewrite length_replicate; lia).
  rewrite length_replicate, Nat.sub_diag. done.
Qed.

Lemma row_sum_indicator (n j : nat) :
  (j < n)%nat -> row_sum (indicator n j) = f32_one.
Proof.
  intros Hj. unfold row_sum. rewrite indicator_split by done.
  rewrite fold_left_app, fold_add_zeros by auto. simpl.
  apply fold_add_zeros. auto.
Qed.

Lemma label_column_lt num_classes l :
  - num_classes <= l < num_classes ->
  (label_column num_classes l < Z.to_nat num_classes)%nat.
Proof. intros H. unfold label_column. destruct (Z.ltb_spec l 0); lia. Qed.

(** ** Claims on the geometric normalizer *)

Lemma solid_image_wf h w px : 0 <= h -> 0 <= w -> wf (solid_image h w px).
Proof.
  intros Hh Hw. split_and!; simpl; [rewrite length_replicate; lia | lia | lia |].
  apply Forall_replicate. split; [rewrite length_replicate; lia|].
  by apply Forall_replicate.
Qed.

Section NormalizerClaims.

Variable interp : interpolation.

(** An image too thin for the target: the scaled side truncates to zero
    and [cv2.resize] refuses the size. *)
Lemma resize_tile_too_thin img new_size :
  0 < shape0 img -> 0 < shape1 img ->
  item1 new_size * Z.min (shape0 img) (shape1 img)
    < Z.max (shape0 img) (shape1 img) ->
  resize_tile interp img new_size = Raise Cv2Error.
Proof.
  intros H0 H1 Hthin. unfold resize_tile, tile_size, int_truediv.
  destruct (Z.gtb_spec (shape0 img) (shape1 img)) as [Hgt|Hle].
  - destruct (Z.eqb_spec (shape0 img) 0); [lia|]. cbn [bind].
    rewrite Z.max_l, Z.min_r in Hthin by lia.
    unfold cv2_resize. destruct (_ || _ || _); [done|].
    destruct (Z.leb_spec (item1 new_size) 0) as [Hneg|Hpos].
    + by rewrite orb_true_r.
    + rewrite Z.quot_small by nia. done.
  - destruct (Z.eqb_spec (shape1 img) 0); [lia|]. cbn [bind].
    rewrite Z.max_r, Z.min_l in Hthin by lia.
    unfold cv2_resize. destruct (_ || _ || _); [done|].
    destruct (Z.leb_spec (item1 new_size) 0) as [Hneg|Hpos]; [done|].
    rewrite Z.quot_small by nia. done.
Qed.

(** The default [new_size] of [resize_image_to_square] is the tuple
    [(256, 256)], which [_center_image] cannot concatenate with a list. *)
Lemma resize_image_to_square_tuple img new_size :
  0 < shape0 img -> 0 < shape1 img -> 1 < shape2 img ->
  kind new_size = PyTuple -> 0 < item1 new_size ->
  Z.max (shape0 img) (shape1 img) <= item1 new_size * Z.min (shape0 img) (shape1 img) ->
  resize_image_to_square interp img new_size = Raise TypeError.
Proof.
  intros H0 H1 H2 Hk HW Hasp.
  destruct (resize_tile_fits interp img new_size) as (tile & Ht & _); try done.
  unfold resize_image_to_square. rewrite Ht. cbn [bind].
  unfold _center_image, concat_list1. by rewrite Hk.
Qed.

(** C1 (amended).  For an image of shape (h, w, 3) with h, w > 0 whose
    longer side is at most [resize_target.W] times its shorter side, a
    list-valued resize target with 0 < W <= H and a crop target no larger
    than the resize target, the pipeline resize, center pad, center crop
    returns an array of shape
    (crop.H + (H - crop.H) mod 2, crop.W + (W - crop.W) mod 2, 3): the crop
    size, plus one pixel on an axis where the difference is odd.  With the
    defaults [256, 256] and [224, 224] the shape is (224, 224, 3). *)
Theorem normalize_output_shape (img : ndarray byte) (resize_new_size crop_size : pysize) :
  0 < shape0 img -> 0 < shape1 img -> shape2 img = 3 ->
  kind resize_new_size = PyList ->
  0 < item1 resize_new_size <= item0 resize_new_size ->
  Z.max (shape0 img) (shape1 img)
    <= item1 resize_new_size * Z.min (shape0 img) (shape1 img) ->
  0 <= item0 crop_size <= item0 resize_new_size ->
  0 <= item1 crop_size <= item1 resize_new_size ->
  exists out,
    normalize interp img resize_new_size crop_size = Ok out /\
    wf out /\
    shape out =
      (item0 crop_size + (item0 resize_new_size - item0 crop_size) mod 2,
       item1 crop_size + (item1 resize_new_size - item1 crop_size) mod 2,
       3) /\
    (resize_new_size = default_resize -> crop_size = default_crop ->
     shape out = (224, 224, 3)).
Proof.
  intros H0 H1 H2 Hk HW Hasp Hc0 Hc1.
  destruct (resize_image_to_square_spec interp img resize_new_size)
    as (tile & sq & _ & Hsq & _ & _ & Hwf & [= S0 S1 S2] & _); try done; try lia.
  exists (crop_image sq crop_size). unfold normalize. rewrite Hsq. cbn [bind].
  assert (Hshape : shape (crop_image sq crop_size) =
    (item0 crop_size + (item0 resize_new_size - item0 crop_size) mod 2,
     item1 crop_size + (item1 resize_new_size - item1 crop_size) mod 2, 3)).
  { unfold crop_image, shape. simpl. rewrite S0, S1, S2, H2.
    destruct (crop_axis _ _ Hc0) as [_ ->]. destruct (crop_axis _ _ Hc1) as [_ ->].
    done. }
  split_and!; [done | by apply getitem_slice2_wf | done |].
  intros -> ->. by rewrite Hshape.
Qed.

(** C2 (amended).  In the aspect-preserving resize step, for an image
    with positive sides whose longer side is at most [resize_target.W]
    times its shorter side: if height > width the tile's height equals
    [resize_target.W] and its width is floor(width * W / height); otherwise
    the tile's width equals [resize_target.W] and its height is
    floor(height * W / width).  Both tile sides lie between 1 and
    [resize_target.W], so for a square target the tile is no larger than
    the target in either dimension.  The tile keeps the channels of the
    image, except that for one channel it has no channel axis. *)
Theorem resize_tile_longer_side_fixed (img : ndarray byte) (new_size : pysize) :
  0 < shape0 img -> 0 < shape1 img -> 0 < shape2 img ->
  0 < item1 new_size ->
  Z.max (shape0 img) (shape1 img) <= item1 new_size * Z.min (shape0 img) (shape1 img) ->
  exists tile,
    resize_tile interp img new_size = Ok tile /\ mat_wf tile /\
    mat_shape tile
      = [mat_shape0 tile; mat_shape1 tile]
        ++ (if shape2 img =? 1 then [] else [shape2 img]) /\
    (shape0 img > shape1 img ->
       mat_shape0 tile = item1 new_size /\
       mat_shape1 tile = shape1 img * item1 new_size / shape0 img) /\
    (shape0 img <= shape1 img ->
       mat_shape1 tile = item1 new_size /\
       mat_shape0 tile = shape0 img * item1 new_size / shape1 img) /\
    1 <= mat_shape0 tile <= item1 new_size /\
    1 <= mat_shape1 tile <= item1 new_size.
Proof.
  intros H0 H1 H2 HW Hasp.
  assert (Hts : exists dw dh,
    tile_size img new_size = Ok (dw, dh) /\ 1 <= dw <= item1 new_size /\
    1 <= dh <= item1 new_size /\
    (shape0 img > shape1 img ->
       dh = item1 new_size /\ dw = shape1 img * item1 new_size / shape0 img) /\
    (shape0 img <= shape1 img ->
       dw = item1 new_size /\ dh = shape0 img * item1 new_size / shape1 img)).
  { rewrite tile_size_spec by lia.
    destruct (Z.gtb_spec (shape0 img) (shape1 img)) as [Htall|Hwide].
    - (* the height is the longer side: it becomes [W] *)
      rewrite Z.max_l, Z.min_r in Hasp by lia.
      eexists _, _. split; [done|].
      split; [apply scaled_side_bounds; lia|]. split_and!; lia.
    - (* the width is the longer side (or the image is square) *)
      rewrite Z.max_r, Z.min_l in Hasp by lia.
      eexists _, _. split; [done|]. split; [lia|].
      split; [apply scaled_side_bounds; lia|]. split_and!; lia. }
  destruct Hts as (dw & dh & Hts & Hdw & Hdh & Htall & Hwide).
  unfold resize_tile. rewrite Hts. cbn [bind].
  destruct (cv2_resize interp img (dw, dh)) as [tile|e] eqn:Ht.
  - exists tile.
    apply cv2_resize_inv in Ht as (_ & _ & _ & _ & _ & E0 & E1 & Hwf & Hch).
    cbn [fst snd] in E0, E1.
    assert (Hshape : mat_shape tile
      = [mat_shape0 tile; mat_shape1 tile]
        ++ (if shape2 img =? 1 then [] else [shape2 img])).
    { destruct tile as [rows cols px|a]; cbn [mat_shape mat_shape0 mat_shape1].
      - by rewrite Hch.
      - destruct Hch as [E2 Hne]. destruct (Z.eqb_spec (shape2 img) 1); [done|].
        by rewrite E2. }
    rewrite E0, E1 in *. split_and!; try done; lia.
  - exfalso. destruct (Z.eq_dec (shape2 img) 1) as [E|E].
    + destruct (cv2_resize_one_channel interp img dw dh) as (px & Hpx & _);
        try done; try lia. congruence.
    + destruct (cv2_resize_total interp img dw dh) as (a & Ha & _); try lia.
      congruence.
Qed.

(** C9 (amended).  For an image with positive height and width and 3
    channels and a list-valued square target [S, S]: when the longer side
    is at most S times the shorter side, [resize_image_to_square] returns
    a well-formed uint8 array of shape (S, S, 3), the tile sides do not
    exceed S, both centering margins are non-negative and the tile fits
    in the canvas; when the longer side exceeds S times the shorter side,
    the call raises the error of [cv2.resize]. *)
Theorem resize_image_to_square_exact_shape (img : ndarray byte) (S : Z) :
  0 < shape0 img -> 0 < shape1 img -> shape2 img = 3 ->
  let new_size := PySize PyList S S in
  (Z.max (shape0 img) (shape1 img) <= S * Z.min (shape0 img) (shape1 img) ->
   exists tile out,
     resize_tile interp img new_size = Ok (Mat3 tile) /\
     resize_image_to_square interp img new_size = Ok out /\
     wf out /\ shape out = (S, S, 3) /\
     shape0 tile <= S /\ shape1 tile <= S /\
     let row_buffer := (S - shape0 tile) / 2 in
     let col_buffer := (S - shape1 tile) / 2 in
     0 <= row_buffer /\ 0 <= col_buffer /\
     row_buffer + shape0 tile <= S /\ col_buffer + shape1 tile <= S) /\
  (S * Z.min (shape0 img) (shape1 img) < Z.max (shape0 img) (shape1 img) ->
   resize_image_to_square interp img new_size = Raise Cv2Error).
Proof.
  intros H0 H1 H2 new_size. split.
  - intros Hasp. assert (HS : 0 < S) by nia.
    destruct (resize_image_to_square_spec interp img new_size)
      as (tile & out & Ht & Hsq & _ & _ & Hwf & Hshape & Hb0 & Hb1);
      simpl; try done; try lia.
    simpl in Hb0, Hb1, Hshape. rewrite H2 in Hshape.
    exists tile, out.
    destruct (center_axis_fit S (shape0 tile) ltac:(lia)) as (? & ? & _).
    destruct (center_axis_fit S (shape1 tile) ltac:(lia)) as (? & ? & _).
    split_and!; done || lia.
  - intros Hthin. unfold resize_image_to_square.
    by rewrite resize_tile_too_thin.
Qed.

End NormalizerClaims.

(** C10.  Padding and cropping never invent or alter pixel values: every
    pixel of the canvas returned by [_center_image] is the pixel of the
    input tile shifted by the centering offsets inside the tile rectangle
    and 0 outside it, and [crop_image] returns a contiguous subregion of
    its input with the pixel values unchanged. *)
Theorem pad_and_crop_keep_pixels :
  (forall (img : ndarray byte) (new_size : pysize) (centered : ndarray byte)
          (i j k : nat),
     wf img -> _center_image img new_size = Ok centered ->
     Z.of_nat i < shape0 centered -> Z.of_nat j < shape1 centered ->
     Z.of_nat k < shape2 centered ->
     let row_buffer := (item0 new_size - shape0 img) / 2 in
     let col_buffer := (item1 new_size - shape1 img) / 2 in
     getpx centered i j k =
     if decide (row_buffer <= Z.of_nat i < row_buffer + shape0 img /\
                col_buffer <= Z.of_nat j < col_buffer + shape1 img)
     then getpx img (i - Z.to_nat row_buffer) (j - Z.to_nat col_buffer) k
     else Some x00) /\
  (forall (A : Type) (img : ndarray A) (crop_size : pysize),
     wf img ->
     let cropped := crop_image img crop_size in
     exists r0 c0 : nat,
       wf cropped /\ shape2 cropped = shape2 img /\
       Z.of_nat r0 + shape0 cropped <= shape0 img /\
       Z.of_nat c0 + shape1 cropped <= shape1 img /\
       forall i j k : nat,
         Z.of_nat i < shape0 cropped -> Z.of_nat j < shape1 cropped ->
         getpx cropped i j k = getpx img (r0 + i) (c0 + j) k).
Proof.
  split.
  - intros img new_size centered i j k Hw Hc Hi Hj Hk.
    pose proof (center_image_shape _ _ _ Hc) as [= S0 S1 S2].
    rewrite S0 in Hi. rewrite S1 in Hj. rewrite S2 in Hk.
    by apply center_image_getpx.
  - intros A img crop_size Hw cropped.
    pose proof Hw as (H0 & H1 & _).
    set (rb := (shape0 img - item0 crop_size) / 2).
    set (cb := (shape1 img - item1 crop_size) / 2).
    pose proof (slice_bounds_ok (shape0 img) rb (shape0 img - rb) ltac:(lia))
      as (Hr1 & Hr2 & Hr3).
    pose proof (slice_bounds_ok (shape1 img) cb (shape1 img - cb) H1)
      as (Hc1 & Hc2 & Hc3).
    exists (Z.to_nat (slice_start (shape0 img) rb (shape0 img - rb))),
           (Z.to_nat (slice_start (shape1 img) cb (shape1 img - cb))).
    split_and!.
    + by apply getitem_slice2_wf.
    + done.
    + subst cropped. unfold crop_image. simpl. fold rb. lia.
    + subst cropped. unfold crop_image. simpl. fold cb. lia.
    + intros i j k Hi Hj. by apply getitem_slice2_getpx.
Qed.

(** ** Claims on the dataset splitter *)

(** C3.  The label encoder is fitted once over the whole label array
    before the split, so every code comes from one vocabulary in which
    distinct labels have distinct codes, and the split indexes the image
    array and the code array with the same index lists: element [i] of
    [X_train] and of [y_train] (likewise of [X_test] and [y_test]) come
    from the same position [k] of the archive. *)
Theorem train_validation_split_keeps_pairs
    (permutation : nat -> list nat) (saved_arr : archive) :
  let x := arr_0 saved_arr in
  let y := arr_1 saved_arr in
  let n := length x in
  length y = n -> (2 <= n)%nat ->
  Forall (fun k => k < n)%nat (permutation n) ->
  exists codes X_train X_test y_train y_test,
    fit_transform y = Ok codes /\
    Forall2 (fun label code => encode (encoder_fit y) label = Ok code) y codes /\
    (forall a b code, encode (encoder_fit y) a = Ok code ->
                      encode (encoder_fit y) b = Ok code -> a = b) /\
    train_validation_split permutation saved_arr
      = Ok (X_train, X_test, y_train, y_test) /\
    let paired (ind : list nat) (X : list (ndarray f32)) (yy : list Z) :=
      length X = length ind /\ length yy = length ind /\
      forall (i k : nat), ind !! i = Some k ->
        exists img label code,
          x !! k = Some img /\ y !! k = Some label /\
          encode (encoder_fit y) label = Ok code /\
          X !! i = Some (ndarray_map div_255 (ndarray_map astype_float32 img)) /\
          yy !! i = Some code in
    paired (fst (split_indices permutation n)) X_train y_train /\
    paired (snd (split_indices permutation n)) X_test y_test.
Proof.
  intros x y n Hlen Hn Hperm.
  destruct (fit_transform_total y) as (codes & Hfit & Hcodes).
  pose proof (Forall2_length _ _ _ Hcodes) as Hclen.
  destruct (split_indices_valid permutation n Hperm) as [Htr Hte].
  destruct (take_indices_total x _ Htr) as (Xtr & HXtr & FXtr).
  destruct (take_indices_total x _ Hte) as (Xte & HXte & FXte).
  destruct (take_indices_total codes (fst (split_indices permutation n)))
    as (ytr & Hytr & Fytr); [by rewrite <- Hclen, Hlen|].
  destruct (take_indices_total codes (snd (split_indices permutation n)))
    as (yte & Hyte & Fyte); [by rewrite <- Hclen, Hlen|].
  exists codes, (rescale Xtr), (rescale Xte), ytr, yte.
  split; [done|]. split; [done|].
  split; [intros a b code; apply encode_inj|]. split.
  - unfold train_validation_split. fold y. rewrite Hfit. cbn [bind].
    unfold train_test_split. fold x n.
    rewrite <- Hclen, Hlen, Nat.eqb_refl. simpl negb. cbv iota.
    assert (Hnt : ((n - n_test_of n) =? 0)%nat = false).
    { apply Nat.eqb_neq. unfold n_test_of.
      pose proof (Nat.div_mod_eq (n + 3) 4). pose proof (Nat.mod_upper_bound (n + 3) 4).
      lia. }
    rewrite Hnt. destruct (split_indices permutation n) as [train test] eqn:Hsi.
    simpl in *. rewrite HXtr, HXte, Hytr, Hyte. done.
  - assert (Hpair : forall ind X yy,
      Forall2 (fun k v => x !! k = Some v) ind X ->
      Forall2 (fun k v => codes !! k = Some v) ind yy ->
      length (rescale X) = length ind /\ length yy = length ind /\
      forall i k : nat, ind !! i = Some k ->
        exists img label code,
          x !! k = Some img /\ y !! k = Some label /\
          encode (encoder_fit y) label = Ok code /\
          rescale X !! i = Some (ndarray_map div_255 (ndarray_map astype_float32 img)) /\
          yy !! i = Some code).
    { intros ind X yy FX Fy. split_and!.
      - unfold rescale. rewrite !length_map. symmetry. by eapply Forall2_length.
      - symmetry. by eapply Forall2_length.
      - intros i k Hik.
        destruct (Forall2_lookup_l _ _ _ _ _ FX Hik) as (img & HXi & Himg).
        destruct (Forall2_lookup_l _ _ _ _ _ Fy Hik) as (code & Hyi & Hcode).
        destruct (Forall2_lookup_r _ _ _ _ _ Hcodes Hcode) as (label & Hlabel & Henc).
        exists img, label, code. rewrite lookup_rescale, HXi. done. }
    split; by apply Hpair.
Qed.

(** C6.  The arrays [X_train] and [X_test] returned by
    [train_validation_split] hold one image per train and test index, the
    image of the archive at that index with every uint8 value [b]
    replaced by the float32 quotient of [b] and 255: that value lies in
    [0.0, 1.0], an input value of 255 gives exactly 1.0 and 0 gives 0.0.
    So every pixel value of both arrays lies in [0.0, 1.0]. *)
Theorem rescaled_pixels_in_unit_interval
    (permutation : nat -> list nat) (saved_arr : archive)
    (X_train X_test : list (ndarray f32)) (y_train y_test : list Z) :
  train_validation_split permutation saved_arr
    = Ok (X_train, X_test, y_train, y_test) ->
  let n := length (arr_0 saved_arr) in
  let rescaled (ind : list nat) (X : list (ndarray f32)) :=
    length X = length ind /\
    forall (i k : nat), ind !! i = Some k ->
      exists img out,
        arr_0 saved_arr !! k = Some img /\ X !! i = Some out /\
        shape out = shape img /\
        forall (r c ch : nat) (b : byte), getpx img r c ch = Some b ->
          exists v, getpx out r c ch = Some v /\
            v = f32_div (f32_of_Z (Z.of_N (Byte.to_N b))) (f32_of_Z 255) /\
            in_unit_interval v = true /\
            (b = xff -> v = f32_one) /\ (b = x00 -> v = f32_zero) in
  rescaled (fst (split_indices permutation n)) X_train /\
  rescaled (snd (split_indices permutation n)) X_test /\
  Forall unit_pixels X_train /\ Forall unit_pixels X_test.
Proof.
  intros H n rescaled.
  apply train_validation_split_inv_full in H
    as (codes & Xtr & Xte & _ & _ & _ & _ & Ftr & Fte & _ & _ & -> & ->).
  fold n in Ftr, Fte.
  assert (Hres : forall ind X,
    Forall2 (fun k v => arr_0 saved_arr !! k = Some v) ind X ->
    rescaled ind (rescale X)).
  { intros ind X HF. split.
    - unfold rescale. rewrite !length_map. symmetry. by eapply Forall2_length.
    - intros i k Hik.
      destruct (Forall2_lookup_l _ _ _ _ _ HF Hik) as (img & HXi & Himg).
      exists img, (ndarray_map div_255 (ndarray_map astype_float32 img)).
      split; [done|]. split; [by rewrite lookup_rescale, HXi|]. split; [done|].
      intros r c ch b Hb. exists (div_255 (astype_float32 b)).
      split; [by rewrite !getpx_ndarray_map, Hb|]. split; [done|].
      split; [apply div_255_in_unit|].
      split; intros ->; vm_compute; reflexivity. }
  split_and!; [by apply Hres | by apply Hres | apply rescale_unit_pixels..].
Qed.

(** ** Claims on the label binarizer *)

(** C7 (amended).  For a class count num_classes > 0 the conversion
    raises [IndexError] whenever some label is >= num_classes or
    < -num_classes; when all labels lie in [-num_classes, num_classes) it
    returns one row per label, row [i] being the indicator vector of label
    [i] (of label + num_classes for a negative label), so each row sums to
    exactly 1; [to_categorical [0;2;1] 3] is [[1,0,0],[0,0,1],[0,1,0]]. *)
Theorem to_categorical_indicator_rows (y : list Z) (num_classes : Z) :
  0 < num_classes ->
  (Exists (fun l => l < - num_classes \/ num_classes <= l) y ->
     to_categorical y num_classes = Raise IndexError /\
     forall y_test,
       convert_to_binary_class_matrices y y_test num_classes = Raise IndexError) /\
  (Forall (fun l => - num_classes <= l < num_classes) y ->
     exists Y, to_categorical y num_classes = Ok Y /\
       length Y = length y /\
       forall (i : nat) l, y !! i = Some l ->
         Y !! i = Some (indicator (Z.to_nat num_classes) (label_column num_classes l)) /\
         row_sum (indicator (Z.to_nat num_classes) (label_column num_classes l)) = f32_one /\
         (0 <= l -> label_column num_classes l = Z.to_nat l)) /\
  to_categorical [0; 2; 1] 3
    = Ok [[f32_one; f32_zero; f32_zero];
          [f32_zero; f32_zero; f32_one];
          [f32_zero; f32_one; f32_zero]].
Proof.
  intros Hnc.
  assert (Hraise :
    Exists (fun l => l < - num_classes \/ num_classes <= l) y ->
    to_categorical y num_classes = Raise IndexError).
  { intros Hex. unfold to_categorical.
    destruct (Z.eqb_spec num_classes 0); [lia|]. cbn [bind].
    destruct (Z.ltb_spec num_classes 0); [lia|]. by apply assign_ones_raise. }
  split_and!.
  - intros Hex. split; [by apply Hraise|]. intros y_test.
    unfold convert_to_binary_class_matrices. by rewrite Hraise.
  - intros Hy. unfold to_categorical.
    destruct (Z.eqb_spec num_classes 0); [lia|]. cbn [bind].
    destruct (Z.ltb_spec num_classes 0); [lia|].
    destruct (assign_ones_ok num_classes y
      (replicate (length y) (replicate (Z.to_nat num_classes) f32_zero)) 0%nat Hy)
      as (Y & HY & Hlen & Hrows).
    exists Y. split; [done|]. split; [by rewrite Hlen, length_replicate|].
    intros i l Hl.
    assert (Hin : - num_classes <= l < num_classes).
    { eapply Forall_lookup_1 in Hy; [|exact Hl]. done. }
    pose proof (label_column_lt _ _ Hin) as Hcol.
    split_and!.
    + rewrite (Hrows i (replicate (Z.to_nat num_classes) f32_zero)).
      * rewrite decide_True by lia. rewrite Nat.sub_0_r, Hl.
        by rewrite insert_one_indicator.
      * apply lookup_replicate_2. by apply lookup_lt_Some in Hl.
    + by apply row_sum_indicator.
    + intros H0. unfold label_column. destruct (Z.ltb_spec l 0); [lia | done].
  - vm_compute. reflexivity.
Qed.

(** ** The claims at concrete inputs *)

Lemma extract_label_rstrip_semantics_witness :
  stripped_of suffix_chars (lit "rose_")
    (extract_label (lit "rose_" ++ lit "12" ++ lit "_.jpg")) /\
  extract_label (lit "rose_" ++ lit "12" ++ lit "_.jpg") = lit "rose" /\
  stripped_of suffix_chars (lit "rose")
    (extract_label (lit "rose" ++ [1635%N] ++ lit "_.jpg")) /\
  extract_label (lit "rose" ++ [1635%N] ++ lit "_.jpg") = lit "rose".
Proof.
  split_and!; [| reflexivity | | reflexivity].
  - apply (proj2 (proj1 (proj2 extract_label_rstrip_semantics)
                    (lit "rose_") (lit "12")
                    ltac:(apply (bool_decide_unpack _); vm_compute; exact I)
                    ltac:(apply (bool_decide_unpack _); vm_compute; exact I) _)).
    reflexivity.
  - apply (proj2 (proj1 (proj2 extract_label_rstrip_semantics)
                    (lit "rose") [1635%N]
                    ltac:(apply (bool_decide_unpack _); vm_compute; exact I)
                    ltac:(apply (bool_decide_unpack _); vm_compute; exact I) _)).
    reflexivity.
Defined.

Lemma label_nonempty_iff_and_deterministic_witness :
  extract_label (lit "rose_12_.jpg") <> [] /\
  image_categories
    [DirEntry (lit "rose_12_.jpg") true; DirEntry (lit ".DS_Store") true;
     DirEntry (lit "old") false]
    (lit "../imgs_jpgs/") !! (lit "../imgs_jpgs/" ++ lit "rose_12_.jpg")
  = Some (extract_label (lit "rose_12_.jpg")).
Proof.
  split.
  - apply (proj1 label_nonempty_iff_and_deterministic (lit "rose_12_.jpg")).
    exists (N_of_ascii "r").
    split_and!; [apply list_elem_of_here | reflexivity | reflexivity].
  - apply (proj2 label_nonempty_iff_and_deterministic _
             (lit "../imgs_jpgs/") (lit "rose_12_.jpg")); [|reflexivity].
    apply list_elem_of_here.
Defined.

Lemma digits_only_name_has_empty_label :
  startswith_dot (lit "123.jpg") = false /\
  extract_label (lit "123.jpg") = [] /\
  image_categories [DirEntry (lit "123.jpg") true] (lit "../imgs_jpgs/")
    !! lit "../imgs_jpgs/123.jpg" = Some [] /\
  extract_label (1635%N :: lit ".jpg") = [].
Proof. split_and!; vm_compute; reflexivity. Qed.

Lemma normalize_thin_image_raises :
  shape (solid_image 1000 3 orange) = (1000, 3, 3) /\
  normalize interp_nearest (solid_image 1000 3 orange) default_resize default_crop
    = Raise Cv2Error.
Proof. split; vm_compute; reflexivity. Qed.

Lemma normalize_output_shape_witness :
  exists out,
    normalize interp_nearest (solid_image 6 3 orange) default_resize default_crop
      = Ok out /\ shape out = (224, 224, 3).
Proof.
  destruct (normalize_output_shape interp_nearest (solid_image 6 3 orange)
              default_resize default_crop) as (out & Hout & _ & _ & Hshape);
    [cbn; lia | cbn; lia | reflexivity | reflexivity | cbn; lia | cbn; lia
    | cbn; lia | cbn; lia |].
  exists out. split; [exact Hout | exact (Hshape eq_refl eq_refl)].
Defined.

Lemma resize_tile_tall_image_scales_width :
  exists tile,
    resize_tile interp_nearest (solid_image 6 3 orange) default_resize
      = Ok (Mat3 tile) /\
    shape0 (solid_image 6 3 orange) > shape1 (solid_image 6 3 orange) /\
    shape0 tile = 256 /\ shape1 tile = 128 /\
    shape1 tile <> item1 default_resize.
Proof.
  destruct (cv2_resize_total interp_nearest (solid_image 6 3 orange) 128 256)
    as (tile & Ht & _ & [= S0 S1 _]); [cbn; lia ..|].
  exists tile. split_and!; [exact Ht | cbn; lia | exact S0 | exact S1 |].
  rewrite S1. vm_compute. discriminate.
Qed.

(** With an odd difference between the resize and the crop size the crop
    is one pixel larger: 6 to 3 gives 4. *)
Lemma normalize_odd_margin_example :
  result_shape (normalize interp_nearest (solid_image 4 2 orange)
                  (PySize PyList 6 6) (PySize PyList 3 3)) = Some (4, 4, 3).
Proof. vm_compute. reflexivity. Qed.

Lemma resize_tile_longer_side_fixed_witness :
  exists tile,
    resize_tile interp_nearest (solid_image 6 3 orange) default_resize = Ok tile /\
    mat_shape tile = [256; 128; 3] /\
    mat_shape0 tile = 256 /\ mat_shape1 tile = 128.
Proof.
  destruct (resize_tile_longer_side_fixed interp_nearest (solid_image 6 3 orange)
              default_resize) as (tile & Ht & _ & Hshape & Htall & _);
    [cbn; lia | cbn; lia | cbn; lia | cbn; lia | cbn; lia |].
  destruct Htall as [T0 T1]; [cbn; lia|].
  exists tile. split; [exact Ht|]. split; [|split; [exact T0 | exact T1]].
  rewrite Hshape, T0, T1. reflexivity.
Defined.

Lemma resize_image_to_square_thin_raises :
  shape (solid_image 300 1 orange) = (300, 1, 3) /\
  resize_image_to_square interp_nearest (solid_image 300 1 orange)
    (PySize PyList 256 256) = Raise Cv2Error.
Proof. split; vm_compute; reflexivity. Qed.

Lemma resize_image_to_square_exact_shape_witness :
  (exists out,
     resize_image_to_square interp_nearest (solid_image 6 3 orange)
       (PySize PyList 256 256) = Ok out /\ shape out = (256, 256, 3)) /\
  resize_image_to_square interp_nearest (solid_image 600 2 orange)
    (PySize PyList 256 256) = Raise Cv2Error.
Proof.
  split.
  - destruct (resize_image_to_square_exact_shape interp_nearest
                (solid_image 6 3 orange) 256) as [Hok _];
      [cbn; lia | cbn; lia | reflexivity |].
    destruct Hok as (tile & out & _ & Hout & _ & Hshape & _); [cbn; lia|].
    exists out. split; [exact Hout | exact Hshape].
  - apply (resize_image_to_square_exact_shape interp_nearest
             (solid_image 600 2 orange) 256); [cbn; lia | cbn; lia | reflexivity |].
    cbn; lia.
Defined.

Lemma pad_and_crop_keep_pixels_witness :
  match _center_image (solid_image 1 1 orange) (PySize PyList 3 3) with
  | Ok centered =>
      getpx centered 1 1 0 = Some xff /\ getpx centered 0 2 1 = Some x00
  | Raise _ => False
  end /\
  wf (crop_image (solid_image 4 4 orange) (PySize PyList 2 2)).
Proof.
  assert (Hwf : forall h w, 0 <= h -> 0 <= w -> wf (solid_image h w orange)).
  { intros h w Hh Hw. by apply solid_image_wf. }
  split.
  - destruct (_center_image (solid_image 1 1 orange) (PySize PyList 3 3))
      as [centered|e] eqn:Hc; [|vm_compute in Hc; discriminate Hc].
    assert (Hshape : shape centered = (3, 3, 3)).
    { vm_compute in Hc. by injection Hc as <-. }
    injection Hshape as S0 S1 S2.
    split.
    + apply (proj1 pad_and_crop_keep_pixels (solid_image 1 1 orange)
               (PySize PyList 3 3) centered 1%nat 1%nat 0%nat);
        [apply Hwf; lia | exact Hc | rewrite S0; lia | rewrite S1; lia
        | rewrite S2; lia].
    + apply (proj1 pad_and_crop_keep_pixels (solid_image 1 1 orange)
               (PySize PyList 3 3) centered 0%nat 2%nat 1%nat);
        [apply Hwf; lia | exact Hc | rewrite S0; lia | rewrite S1; lia
        | rewrite S2; lia].
  - destruct (proj2 pad_and_crop_keep_pixels byte (solid_image 4 4 orange)
                (PySize PyList 2 2)) as (r0 & c0 & Hcrop & _);
      [apply Hwf; lia | exact Hcrop].
Defined.

Lemma process_images_length_and_order_witness :
  process_images interp_nearest sample_imread [] default_resize default_crop = Ok [] /\
  (exists x,
     process_images interp_nearest sample_imread [lit "tall.jpg"; lit "wide.jpg"]
       (PySize PyList 8 8) (PySize PyList 4 4) = Ok x /\
     length x = 2%nat /\
     exists rgb sq,
       cvtColor_BGR2RGB (sample_imread (lit "wide.jpg")) = Ok rgb /\
       resize_image_to_square interp_nearest rgb (PySize PyList 8 8) = Ok sq /\
       x !! 1%nat = Some (crop_image sq (PySize PyList 4 4))) /\
  exists e,
    process_images interp_nearest sample_imread [lit "tall.jpg"; lit "lost.jpg"]
      (PySize PyList 8 8) (PySize PyList 4 4) = Raise e.
Proof.
  destruct (process_images_length_and_order interp_nearest sample_imread)
    as (Hnil & Hok & Hraise).
  split_and!.
  - apply Hnil.
  - destruct (Hok [lit "tall.jpg"; lit "wide.jpg"]
                (PySize PyList 8 8) (PySize PyList 4 4))
      as (x & Hx & Hlen & Hi); [reflexivity | cbn; lia | |].
    { repeat constructor.
      - exists (solid_image 4 2 orange). split_and!; [reflexivity | cbn ..]; lia.
      - exists (solid_image 2 4 orange). split_and!; [reflexivity | cbn ..]; lia. }
    exists x. split; [exact Hx|]. split; [exact Hlen|].
    apply (Hi 1%nat (lit "wide.jpg")). reflexivity.
  - apply (Hraise _ _ _ (lit "lost.jpg")); [|reflexivity].
    apply list_elem_of_further, list_elem_of_here.
Defined.

Lemma process_images_unreadable_file_raises :
  sample_imread (lit "lost.jpg") = None /\
  process_images interp_nearest sample_imread [lit "tall.jpg"; lit "lost.jpg"]
    (PySize PyList 8 8) (PySize PyList 4 4) = Raise Cv2Error /\
  process_images interp_nearest (fun _ => Some (solid_image 1000 3 orange))
    [lit "thin.jpg"] default_resize default_crop = Raise Cv2Error.
Proof. split_and!; vm_compute; reflexivity. Qed.

Lemma train_validation_split_keeps_pairs_witness :
  exists X_train X_test y_train y_test,
    train_validation_split sample_permutation sample_archive
      = Ok (X_train, X_test, y_train, y_test) /\
    length X_train = 3%nat /\ length y_train = 3%nat /\
    length X_test = 2%nat /\ length y_test = 2%nat.
Proof.
  destruct (train_validation_split_keeps_pairs sample_permutation sample_archive)
    as (codes & X_train & X_test & y_train & y_test & _ & _ & _ & Hsplit
        & (Hx1 & Hy1 & _) & (Hx2 & Hy2 & _));
    [reflexivity | cbn; lia | cbn; repeat constructor |].
  exists X_train, X_test, y_train, y_test.
  split; [exact Hsplit|]. split_and!; [exact Hx1 | exact Hy1 | exact Hx2 | exact Hy2].
Defined.

Lemma rescaled_pixels_in_unit_interval_witness :
  match train_validation_split sample_permutation sample_archive with
  | Ok (X_train, X_test, _, _) =>
      Forall unit_pixels X_train /\ Forall unit_pixels X_test /\
      length X_train = 3%nat /\ length X_test = 2%nat /\
      exists out, X_test !! 0%nat = Some out /\ getpx out 0 0 0 = Some f32_one
  | Raise _ => False
  end.
Proof.
  destruct (train_validation_split sample_permutation sample_archive)
    as [[[[X_train X_test] y_train] y_test]|e] eqn:Hsplit;
    [|vm_compute in Hsplit; discriminate Hsplit].
  destruct (rescaled_pixels_in_unit_interval _ _ _ _ _ _ Hsplit)
    as ((Ltr & _) & (Lte & Hte) & Utr & Ute).
  split_and!; [exact Utr | exact Ute | exact Ltr | exact Lte |].
  destruct (Hte 0%nat 4%nat eq_refl) as (img & out & Himg & Hout & _ & Hpx).
  injection Himg as <-.
  destruct (Hpx 0%nat 0%nat 0%nat xff eq_refl) as (v & Hv & _ & _ & H255 & _).
  exists out. split; [exact Hout|]. rewrite Hv, (H255 eq_refl). reflexivity.
Defined.

Lemma to_categorical_negative_label_wraps :
  to_categorical [-1] 3 = Ok [[f32_zero; f32_zero; f32_one]] /\
  convert_to_binary_class_matrices [-1] [0] 3
    = Ok ([[f32_zero; f32_zero; f32_one]], [[f32_one; f32_zero; f32_zero]]).
Proof. split; vm_compute; reflexivity. Qed.

Lemma to_categorical_indicator_rows_witness :
  to_categorical [0; 2; 3] 3 = Raise IndexError /\
  exists Y, to_categorical [0; 2; 1] 3 = Ok Y /\ length Y = 3%nat.
Proof.
  destruct (to_categorical_indicator_rows [0; 2; 3] 3) as ((Hraise & _) & _ & _);
    [lia | apply Exists_cons_tl, Exists_cons_tl, Exists_cons_hd; lia |].
  destruct (to_categorical_indicator_rows [0; 2; 1] 3) as (_ & Hok & _); [lia|].
  destruct Hok as (Y & HY & Hlen & _); [repeat constructor; lia|].
  split; [exact Hraise|]. exists Y. split; [exact HY | exact Hlen].
Defined.

(** * Further properties *)

(** ** Label extractor *)

Lemma elem_of_listed_files (listing : list dir_entry) (name : str) :
  name ∈ map entry_name (filter (fun e => entry_isfile e = true) listing)
  <-> DirEntry name true ∈ listing.
Proof.
  rewrite list_elem_of_fmap. split.
  - intros ([n b] & -> & He). apply list_elem_of_filter in He as [Hb He].
    simpl in *. by subst b.
  - intros He. exists (DirEntry name true). split; [done|].
    by apply list_elem_of_filter.
Qed.

Lemma image_categories_step_origin img_root files : forall m key v,
  fold_left (image_categories_step img_root) files m !! key = Some v ->
  m !! key = Some v \/
  exists name, name ∈ files /\ startswith_dot name = false /\
    key = (img_root ++ name) /\ v = extract_label name.
Proof.
  induction files as [|f files IH]; intros m key v; simpl; [by left|].
  intros H. apply IH in H as [H|(name & Hin & Hrest)].
  - unfold image_categories_step in H.
    destruct (startswith_dot f) eqn:Hdot; simpl in H; [by left|].
    rewrite lookup_insert in H. case_decide as Hk; [|by left].
    injection H as <-. right. exists f. split; [apply list_elem_of_here | done].
  - right. exists name. split; [by apply list_elem_of_further | done].
Qed.

(** X1.  The dictionary holds exactly the listed regular files whose name does
    not start with a dot, each under the key [img_root + name] with the
    label of its name: directories and hidden files never get an entry. *)
Theorem image_categories_lookup_iff (listing : list dir_entry)
    (img_root key v : str) :
  image_categories listing img_root !! key = Some v <->
  exists name, DirEntry name true ∈ listing /\ startswith_dot name = false /\
    key = (img_root ++ name) /\ v = extract_label name.
Proof.
  unfold image_categories. set (files := map entry_name _). split.
  - intros H. apply image_categories_step_origin in H as [H|(name & Hin & Hrest)].
    + by rewrite lookup_empty in H.
    + exists name. split; [by apply elem_of_listed_files | done].
  - intros (name & Hin & Hdot & -> & ->).
    apply elem_of_listed_files in Hin. fold files in Hin.
    destruct (image_categories_step_adds img_root files name ∅ Hin Hdot) as [v Hv].
    rewrite Hv. f_equal.
    destruct (image_categories_step_inv img_root files ∅)
      with (key := (img_root ++ name)) (v := v)
      as (n & Hn & ->); [by intros key v'; rewrite lookup_empty | done |].
    by apply app_inv_head in Hn as <-.
Qed.

Lemma rstrip_fixed chars s :
  (forall l c, s = l ++ [c] -> in_chars chars c = false) ->
  rstrip chars s = s.
Proof.
  intros Hs. apply (stripped_of_unique chars s); [apply rstrip_stripped|].
  exists []. split_and!; [by rewrite app_nil_r | constructor | done].
Qed.

(** X2.  A label contains no decimal digit and does not end in a character of
    ['_.jpg'], so extracting the label of a label changes nothing. *)
Theorem extract_label_clean (name : str) :
  Forall (fun c => is_digit c = false) (extract_label name) /\
  (forall l c, extract_label name = l ++ [c] ->
     in_chars suffix_chars c = false) /\
  extract_label (extract_label name) = extract_label name.
Proof.
  destruct (extract_label_stripped name) as (tail & Hfilter & _ & Hlast).
  assert (Hnodigit : Forall (fun c => is_digit c = false) (extract_label name)).
  { assert (Hall : Forall (fun c => is_digit c = false)
                     (filter (fun c => is_digit c = false) name)).
    { apply Forall_forall. intros c Hc. by apply list_elem_of_filter in Hc as [Hc _]. }
    rewrite Hfilter in Hall. by apply Forall_app in Hall as [Hall _]. }
  split_and!; [done | done |].
  rewrite (extract_label_filter (extract_label name)).
  rewrite filter_no_digits by done. by apply rstrip_fixed.
Qed.

(** X3.  The digits of a name never influence its label: two names that differ
    only in a run of digits get the same label. *)
Theorem extract_label_ignores_numbering (before digits1 digits2 after : str) :
  Forall (fun c => is_digit c = true) digits1 ->
  Forall (fun c => is_digit c = true) digits2 ->
  extract_label (before ++ digits1 ++ after)
  = extract_label (before ++ digits2 ++ after).
Proof.
  intros H1 H2. rewrite !extract_label_filter. f_equal.
  rewrite !filter_app.
  by rewrite (filter_all_digits _ H1), (filter_all_digits _ H2).
Qed.

(** ** The dictionary in insertion order *)

Lemma odict_set_to_map (d : list (str * str)) (k v : str) :
  (list_to_map (odict_set d k v) : gmap str str)
  = <[k := v]> (list_to_map d).
Proof.
  induction d as [|[k' v'] d IH]; simpl; [done|].
  destruct (decide (k' = k)) as [->|Hne]; simpl.
  - by rewrite insert_insert_eq.
  - rewrite IH. by apply insert_insert_ne.
Qed.

Lemma odict_set_new (d : list (str * str)) (k v : str) :
  k ∉ d.*1 -> odict_set d k v = d ++ [(k, v)].
Proof.
  induction d as [|[k' v'] d IH]; simpl; [done|]. intros Hk.
  apply not_elem_of_cons in Hk as [Hne Hk].
  destruct (decide (k' = k)) as [->|_]; [done|]. by rewrite IH.
Qed.

Lemma odict_set_keys (d : list (str * str)) (k v : str) :
  (odict_set d k v).*1 = if decide (k ∈ d.*1) then d.*1 else d.*1 ++ [k].
Proof.
  induction d as [|[k' v'] d IH]; [done|]. cbn [odict_set].
  destruct (decide (k' = k)) as [->|Hne]; rewrite !fmap_cons; cbn [fst].
  - rewrite decide_True; [done | apply list_elem_of_here].
  - rewrite IH. destruct (decide (k ∈ d.*1)) as [Hin|Hout].
    + rewrite decide_True; [done | by apply list_elem_of_further].
    + rewrite decide_False; [done|]. by apply not_elem_of_cons.
Qed.

Lemma odict_set_NoDup (d : list (str * str)) (k v : str) :
  NoDup d.*1 -> NoDup (odict_set d k v).*1.
Proof.
  intros Hd. rewrite odict_set_keys. case_decide as Hk; [done|].
  apply NoDup_app. split_and!; [done | | apply NoDup_singleton].
  intros x Hx Hx'. apply list_elem_of_singleton in Hx'. by subst x.
Qed.

Lemma image_categories_items_fold img_root files : forall d,
  NoDup d.*1 ->
  NoDup (fold_left (image_categories_items_step img_root) files d).*1 /\
  (list_to_map (fold_left (image_categories_items_step img_root) files d)
     : gmap str str)
  = fold_left (image_categories_step img_root) files (list_to_map d).
Proof.
  induction files as [|f files IH]; intros d Hd; simpl; [done|].
  unfold image_categories_items_step at 2 4, image_categories_step at 2.
  destruct (negb (startswith_dot f)).
  - rewrite <- odict_set_to_map. apply IH. by apply odict_set_NoDup.
  - by apply IH.
Qed.

Lemma image_categories_items_listed img_root files : forall d,
  NoDup files ->
  (forall name, name ∈ files -> (img_root ++ name) ∉ d.*1) ->
  fold_left (image_categories_items_step img_root) files d
  = d ++ map (fun name => ((img_root ++ name), extract_label name))
             (filter (fun name => startswith_dot name = false) files).
Proof.
  induction files as [|f files IH]; intros d Hnd Hfresh; simpl.
  - by rewrite app_nil_r.
  - apply NoDup_cons in Hnd as [Hf Hnd].
    unfold image_categories_items_step at 2.
    destruct (startswith_dot f) eqn:Hdot; simpl.
    + rewrite filter_cons_False by congruence. apply IH; [done|].
      intros name Hin. apply Hfresh. by apply list_elem_of_further.
    + rewrite filter_cons_True by done. simpl.
      rewrite odict_set_new by (apply Hfresh, list_elem_of_here).
      rewrite IH; [by rewrite <- app_assoc | done |].
      intros name Hin. rewrite fmap_app. simpl.
      apply not_elem_of_app. split.
      * apply Hfresh. by apply list_elem_of_further.
      * intros Heq%list_elem_of_singleton. apply app_inv_head in Heq as ->. done.
Qed.

(** X4.  The ordered dictionary that the script reads with [keys()] and
    [values()] has the same entries as the dictionary of
    [image_categories] and no key twice; for a listing without repeated
    names it holds the listed non-hidden regular files in listing order,
    so [file_list] and [y] are aligned: position [i] of [y] is the label
    of the file at position [i] of [file_list]. *)
Theorem image_categories_items_aligned (listing : list dir_entry) (img_root : str) :
  let items := image_categories_items listing img_root in
  let files := map entry_name (filter (fun e => entry_isfile e = true) listing) in
  (list_to_map items : gmap str str) = image_categories listing img_root /\
  NoDup (map fst items) /\
  (NoDup files ->
   items = map (fun name => ((img_root ++ name), extract_label name))
               (filter (fun name => startswith_dot name = false) files)).
Proof.
  intros items files.
  destruct (image_categories_items_fold img_root files []) as [Hnd Hmap];
    [constructor|].
  split_and!; [exact Hmap | exact Hnd |].
  intros Hfiles. unfold items, image_categories_items. fold files.
  rewrite image_categories_items_listed; [done | done |].
  intros name _. apply not_elem_of_nil.
Qed.

(** ** Geometric normalizer: edge cases *)

Lemma slice_whole {A} n (l : list A) stop :
  Z.of_nat (length l) = n -> n <= stop -> slice n l 0 stop = l.
Proof.
  intros Hl Hstop. unfold slice, slice_start, slice_len, adjust_index.
  change (0 <? 0) with false. cbv iota.
  destruct (Z.ltb_spec stop 0); [exfalso; lia|].
  rewrite (Z.min_l 0 n), (Z.min_r stop n) by lia. simpl. apply take_ge. lia.
Qed.

Lemma splice_whole {A} (l new : list A) :
  length new = length l -> splice l 0 new = new.
Proof.
  intros Hl. unfold splice. simpl. rewrite Hl, drop_all. apply app_nil_r.
Qed.

Lemma zip_with_splice_whole {A} n (old new : list (list A)) :
  length old = length new ->
  Forall (fun row => Z.of_nat (length row) = n) old ->
  Forall (fun row => Z.of_nat (length row) = n) new ->
  zip_with (fun drow srow => splice drow (Z.to_nat 0) srow) old new = new.
Proof.
  intros Hlen Hold. revert new Hlen.
  induction Hold as [|d old Hd _ IH]; intros [|s new] Hlen Hnew; try done.
  apply Forall_cons in Hnew as [Hs Hnew]. simpl.
  rewrite splice_whole by lia. f_equal. apply IH; [by injection Hlen | done].
Qed.

Lemma center_image_same_shape (img : ndarray byte) (new_size : pysize) :
  wf img -> kind new_size = PyList ->
  item0 new_size = shape0 img -> item1 new_size = shape1 img ->
  _center_image img new_size = Ok img.
Proof.
  intros Hw Hk E0 E1. pose proof Hw as (H0 & H1 & H2 & Hrows).
  unfold _center_image, concat_list1. rewrite Hk, E0, E1. cbn [bind].
  unfold np_zeros.
  destruct (Z.ltb_spec (shape0 img) 0); [exfalso; lia|].
  destruct (Z.ltb_spec (shape1 img) 0); [exfalso; lia|].
  destruct (Z.ltb_spec (shape2 img) 0); [exfalso; lia|]. cbn [orb bind].
  rewrite !Z.sub_diag. change (0 / 2) with 0. rewrite !Z.add_0_l.
  unfold setitem_slice2. cbn [shape0 shape1 shape2 data fst snd].
  assert (Hlen0 : slice_len (shape0 img) 0 (shape0 img) = shape0 img).
  { destruct (center_axis_fit (shape0 img) (shape0 img) ltac:(lia)) as (_ & _ & _ & Hl).
    by rewrite Z.sub_diag in Hl. }
  assert (Hlen1 : slice_len (shape1 img) 0 (shape1 img) = shape1 img).
  { destruct (center_axis_fit (shape1 img) (shape1 img) ltac:(lia)) as (_ & _ & _ & Hl).
    by rewrite Z.sub_diag in Hl. }
  rewrite Hlen0, Hlen1. unfold broadcastable. rewrite !Z.eqb_refl. cbn [orb andb].
  rewrite !stretch_same, !map_stretch_same.
  assert (Hid : map (map (stretch (shape2 img) (shape2 img))) (data img) = data img).
  { clear. induction (data img) as [|x l IH]; simpl; [done|].
    by rewrite map_stretch_same, IH. }
  rewrite Hid. unfold slice_start, adjust_index. cbn [Z.ltb Z.compare].
  rewrite !Z.min_l by lia.
  rewrite slice_whole by (rewrite ?length_replicate; lia).
  rewrite (zip_with_splice_whole (shape1 img)).
  - rewrite splice_whole by (rewrite length_replicate; lia).
    destruct img; done.
  - rewrite length_replicate. lia.
  - apply Forall_replicate. rewrite length_replicate. lia.
  - eapply Forall_impl; [exact Hrows|]. by intros row [Hr _].
Qed.

(** X5.  A tile of exactly the target size is returned unchanged, nothing is
    padded; hence centering is idempotent: centering an image that
    [_center_image] returned, to the same size, gives it back. *)
Theorem center_image_identity (img : ndarray byte) (new_size : pysize) :
  wf img ->
  (kind new_size = PyList ->
   item0 new_size = shape0 img -> item1 new_size = shape1 img ->
   _center_image img new_size = Ok img) /\
  (forall centered, _center_image img new_size = Ok centered ->
   _center_image centered new_size = Ok centered).
Proof.
  intros Hw. split; [by apply center_image_same_shape|].
  intros centered Hc.
  pose proof (center_image_wf _ _ _ Hw Hc) as Hwc.
  pose proof (center_image_shape _ _ _ Hc) as [= S0 S1 S2].
  apply center_image_inv in Hc as (zeros & Hk & _).
  by apply center_image_same_shape.
Qed.

(** X6.  A tile that exceeds the canvas on an axis (and is more than one pixel
    long there, so that it cannot broadcast) is never truncated:
    [_center_image] raises [ValueError]. *)
Theorem center_image_too_large (img : ndarray byte) (new_size : pysize) :
  kind new_size = PyList ->
  (item0 new_size < shape0 img /\ shape0 img <> 1) \/
  (item1 new_size < shape1 img /\ shape1 img <> 1) ->
  _center_image img new_size = Raise ValueError.
Proof.
  intros Hk Hbig. unfold _center_image, concat_list1. rewrite Hk. cbn [bind].
  unfold np_zeros. destruct (_ || _ || _) eqn:Hneg; [done|]. cbn [bind].
  apply orb_false_iff in Hneg as [Hneg _]. apply orb_false_iff in Hneg as [N0 N1].
  apply Z.ltb_ge in N0, N1.
  unfold setitem_slice2. cbn [shape0 shape1 shape2 data fst snd].
  set (rb := (item0 new_size - shape0 img) / 2).
  set (cb := (item1 new_size - shape1 img) / 2).
  pose proof (slice_bounds_ok (item0 new_size) rb (rb + shape0 img) N0) as (_ & _ & Hr).
  pose proof (slice_bounds_ok (item1 new_size) cb (cb + shape1 img) N1) as (_ & _ & Hc).
  pose proof (slice_bounds_ok (item0 new_size) rb (rb + shape0 img) N0) as (Hr0 & _ & _).
  pose proof (slice_bounds_ok (item1 new_size) cb (cb + shape1 img) N1) as (Hc0 & _ & _).
  assert (Hb : broadcastable (shape0 img) (slice_len (item0 new_size) rb (rb + shape0 img))
               && broadcastable (shape1 img) (slice_len (item1 new_size) cb (cb + shape1 img))
               = false).
  { unfold broadcastable. apply andb_false_iff.
    destruct Hbig as [[Hlt Hne]|[Hlt Hne]]; [left | right];
      apply orb_false_iff; split; apply Z.eqb_neq; lia. }
  by rewrite Hb.
Qed.

(** X7.  A crop size equal to the image size, or one pixel less, returns the
    image unchanged. *)
Theorem crop_image_identity {A} (img : ndarray A) (crop_size : pysize) :
  wf img ->
  0 <= shape0 img - item0 crop_size <= 1 ->
  0 <= shape1 img - item1 crop_size <= 1 ->
  crop_image img crop_size = img.
Proof.
  intros (H0 & H1 & H2 & Hrows) Hc0 Hc1. unfold crop_image, getitem_slice2.
  cbn [fst snd].
  replace ((shape0 img - item0 crop_size) / 2) with 0
    by (symmetry; apply Z.div_small; lia).
  replace ((shape1 img - item1 crop_size) / 2) with 0
    by (symmetry; apply Z.div_small; lia).
  rewrite !Z.sub_0_r.
  destruct (center_axis_fit (shape0 img) (shape0 img) ltac:(lia)) as (_ & _ & _ & Hl0).
  destruct (center_axis_fit (shape1 img) (shape1 img) ltac:(lia)) as (_ & _ & _ & Hl1).
  rewrite Z.sub_diag in Hl0, Hl1. change (0 / 2) with 0 in Hl0, Hl1.
  rewrite Z.add_0_l in Hl0, Hl1. rewrite Hl0, Hl1.
  rewrite slice_whole by lia.
  assert (Hid : map (fun row => slice (shape1 img) row 0 (shape1 img)) (data img) = data img).
  { clear -Hrows. induction Hrows as [|row rows [Hr _] _ IH]; simpl; [done|].
    rewrite slice_whole by lia. by rewrite IH. }
  rewrite Hid. by destruct img.
Qed.

(** The window of an oversized crop: for a crop size [c] larger than the
    axis length [n], the slice keeps the last [min(ceil((c - n) / 2), n)]
    entries. *)
Lemma crop_axis_oversize n c :
  0 <= n -> n < c ->
  let b := (n - c) / 2 in
  let kept := Z.min ((c - n + 1) / 2) n in
  slice_len n b (n - b) = kept /\ slice_start n b (n - b) = n - kept.
Proof.
  intros Hn Hc b kept.
  assert (Hb : b = - ((c - n + 1) / 2)).
  { subst b. pose proof (Z.div_mod (n - c) 2). pose proof (Z.mod_pos_bound (n - c) 2).
    pose proof (Z.div_mod (c - n + 1) 2). pose proof (Z.mod_pos_bound (c - n + 1) 2).
    lia. }
  assert (Hk : 1 <= (c - n + 1) / 2) by (apply Z.div_le_lower_bound; lia).
  unfold slice_len, slice_start, adjust_index, kept.
  destruct (Z.ltb_spec b 0); [|lia]. destruct (Z.ltb_spec (n - b) 0); lia.
Qed.

(** X8.  [crop_image] never pads: when the crop size exceeds the image on an
    axis the result is not larger than the image there and shorter than
    the crop size; it has [min(ceil((c - n) / 2), n)] rows (or columns).
    When both axes are exceeded these are the last rows and columns of
    the image, not a centered window. *)
Theorem crop_image_oversize {A} (img : ndarray A) (crop_size : pysize) :
  let cropped := crop_image img crop_size in
  (0 <= shape0 img < item0 crop_size ->
   shape0 cropped = Z.min ((item0 crop_size - shape0 img + 1) / 2) (shape0 img) /\
   shape0 cropped < item0 crop_size) /\
  (0 <= shape1 img < item1 crop_size ->
   shape1 cropped = Z.min ((item1 crop_size - shape1 img + 1) / 2) (shape1 img) /\
   shape1 cropped < item1 crop_size) /\
  (0 <= shape0 img < item0 crop_size -> 0 <= shape1 img < item1 crop_size ->
   forall i j k : nat,
     Z.of_nat i < shape0 cropped -> Z.of_nat j < shape1 cropped ->
     getpx cropped i j k
     = getpx img (Z.to_nat (shape0 img - shape0 cropped) + i)
                 (Z.to_nat (shape1 img - shape1 cropped) + j) k).
Proof.
  intros cropped. subst cropped. unfold crop_image.
  cbn [getitem_slice2 shape0 shape1 fst snd]. split_and!.
  - intros [Hn Hc].
    destruct (crop_axis_oversize (shape0 img) (item0 crop_size) Hn Hc) as [-> _]. lia.
  - intros [Hn Hc].
    destruct (crop_axis_oversize (shape1 img) (item1 crop_size) Hn Hc) as [-> _]. lia.
  - intros [Hn0 Hc0] [Hn1 Hc1] i j k Hi Hj.
    rewrite getitem_slice2_getpx by done. cbn [fst snd].
    destruct (crop_axis_oversize (shape0 img) (item0 crop_size) Hn0 Hc0) as [-> ->].
    destruct (crop_axis_oversize (shape1 img) (item1 crop_size) Hn1 Hc1) as [-> ->].
    do 2 f_equal; lia.
Qed.

(** ** Geometric normalizer: composition *)

Section NormalizerExtras.

Variable interp : interpolation.

(** X9.  With a tuple as [new_size], which is the default of
    [resize_image_to_square], no image is ever returned: the
    concatenation [new_size + [channels]] in [_center_image] is a
    [TypeError]. *)
Theorem resize_image_to_square_tuple_fails (img : ndarray byte) (h w : Z) :
  _center_image img (PySize PyTuple h w) = Raise TypeError /\
  forall out, resize_image_to_square interp img (PySize PyTuple h w) <> Ok out.
Proof.
  split; [done|]. intros out. unfold resize_image_to_square.
  destruct (resize_tile interp img (PySize PyTuple h w)) as [[rows cols px|tile]|];
    done.
Qed.

(** X10.  An image without pixels never yields an output: with zero height and
    zero width the scale computation divides by zero, with one of them
    zero [cv2.resize] refuses the source. *)
Theorem resize_image_to_square_empty_image (img : ndarray byte) (new_size : pysize) :
  0 <= shape0 img -> 0 <= shape1 img ->
  (shape0 img = 0 -> shape1 img = 0 ->
   resize_image_to_square interp img new_size = Raise ZeroDivisionError) /\
  (shape0 img = 0 \/ shape1 img = 0 -> shape0 img <> shape1 img ->
   resize_image_to_square interp img new_size = Raise Cv2Error).
Proof.
  intros H0 H1. unfold resize_image_to_square, resize_tile, tile_size, int_truediv.
  split.
  - intros -> ->. done.
  - intros Hz Hne. destruct (Z.gtb_spec (shape0 img) (shape1 img)) as [Hgt|Hle].
    + destruct (Z.eqb_spec (shape0 img) 0); [exfalso; lia|]. cbn [bind].
      unfold cv2_resize. assert (shape1 img = 0) as -> by lia.
      change (0 <=? 0) with true. by rewrite orb_true_r.
    + destruct (Z.eqb_spec (shape1 img) 0); [exfalso; lia|]. cbn [bind].
      unfold cv2_resize. assert (shape0 img = 0) as -> by lia. done.
Qed.

(** X11.  A square image with at least two channels gets no black border:
    the result of [resize_image_to_square] is the resized tile itself, of
    shape (S, S, channels).  A square image with one channel yields no
    output: its tile has the two axes (S, S) and the call raises
    [IndexError]. *)
Theorem resize_image_to_square_square_image (img : ndarray byte) (S : Z) :
  0 < shape0 img -> shape1 img = shape0 img -> 0 < S ->
  (1 < shape2 img ->
   exists tile,
     resize_tile interp img (PySize PyList S S) = Ok (Mat3 tile) /\
     shape tile = (S, S, shape2 img) /\
     resize_image_to_square interp img (PySize PyList S S) = Ok tile) /\
  (shape2 img = 1 ->
   (exists px, resize_tile interp img (PySize PyList S S) = Ok (Mat2 S S px)) /\
   resize_image_to_square interp img (PySize PyList S S) = Raise IndexError).
Proof.
  intros H0 H1 HS. unfold resize_image_to_square, resize_tile.
  rewrite tile_size_spec by (cbn; lia). cbn [bind item1].
  destruct (Z.gtb_spec (shape0 img) (shape1 img)) as [Hgt|_]; [exfalso; lia|].
  rewrite H1, (Z.mul_comm (shape0 img) S), Z.div_mul by lia. split.
  - intros H2.
    destruct (cv2_resize_total interp img S S) as (tile & -> & Hwf & Hshape); try lia.
    injection Hshape as S0 S1 S2.
    exists tile. split_and!; [done | unfold shape; congruence |]. cbn [bind].
    apply center_image_same_shape; done.
  - intros H2.
    destruct (cv2_resize_one_channel interp img S S) as (px & -> & _); try lia.
    split; [by exists px | done].
Qed.

Lemma resize_tile_wf img new_size tile :
  resize_tile interp img new_size = Ok (Mat3 tile) -> wf tile.
Proof.
  unfold resize_tile.
  destruct (tile_size img new_size) as [[dw dh]|]; cbn [bind]; [|done].
  intros Ht. by apply cv2_resize_inv in Ht as (_ & _ & _ & _ & _ & _ & _ & Hwf & _).
Qed.

Lemma center_image_fits (img : ndarray byte) (new_size : pysize) centered :
  wf img -> _center_image img new_size = Ok centered ->
  (item0 new_size = 0 \/ 0 <= shape0 img <= item0 new_size) /\
  (item1 new_size = 0 \/ 0 <= shape1 img <= item1 new_size).
Proof.
  intros Hw H. apply center_image_inv in H as (zeros & _ & Hz & Hset).
  pose proof Hw as (Hs0 & Hs1 & _).
  pose proof (np_zeros_wf _ _ Hz) as [(Hz0' & Hz1' & _) [= Hz0 Hz1 _]].
  revert Hset. unfold setitem_slice2. cbn [fst snd].
  destruct (_ && _) eqn:Hb; [|done]. intros _.
  apply andb_true_iff in Hb as [Hb _]. apply andb_true_iff in Hb as [Hb0 Hb1].
  rewrite Hz0 in Hb0. rewrite Hz1 in Hb1.
  split; eapply center_axis_cases; try exact Hb0; try exact Hb1; lia.
Qed.

(** X12.  The pipeline composed: every pixel of the output of [normalize] is
    the pixel of the resized tile at the position shifted by the crop
    margin minus the pad margin when that position lies in the tile, and
    0 otherwise. *)
Theorem normalize_pixels (img : ndarray byte) (resize_new_size crop_size : pysize)
    (tile out : ndarray byte) (i j k : nat) :
  resize_tile interp img resize_new_size = Ok (Mat3 tile) ->
  normalize interp img resize_new_size crop_size = Ok out ->
  0 <= item0 crop_size <= item0 resize_new_size ->
  0 <= item1 crop_size <= item1 resize_new_size ->
  Z.of_nat i < shape0 out -> Z.of_nat j < shape1 out -> Z.of_nat k < shape2 out ->
  let crop_row := (item0 resize_new_size - item0 crop_size) / 2 in
  let crop_col := (item1 resize_new_size - item1 crop_size) / 2 in
  let pad_row := (item0 resize_new_size - shape0 tile) / 2 in
  let pad_col := (item1 resize_new_size - shape1 tile) / 2 in
  getpx out i j k =
  if decide (pad_row <= crop_row + Z.of_nat i < pad_row + shape0 tile /\
             pad_col <= crop_col + Z.of_nat j < pad_col + shape1 tile)
  then getpx tile (Z.to_nat (crop_row + Z.of_nat i - pad_row))
                  (Z.to_nat (crop_col + Z.of_nat j - pad_col)) k
  else Some x00.
Proof.
  intros Ht Hn Hc0 Hc1 Hi Hj Hk crop_row crop_col pad_row pad_col.
  subst crop_row crop_col pad_row pad_col.
  pose proof (resize_tile_wf _ _ _ Ht) as Hwt.
  revert Hn. unfold normalize, resize_image_to_square. rewrite Ht. cbn [bind].
  destruct (_center_image tile resize_new_size) as [sq|] eqn:Hsq; cbn [bind]; [|done].
  intros [= <-].
  pose proof (center_image_shape _ _ _ Hsq) as [= S0 S1 S2].
  revert Hi Hj Hk. unfold crop_image. cbn [getitem_slice2 shape0 shape1 shape2 fst snd].
  rewrite S0, S1, S2.
  destruct (crop_axis _ _ Hc0) as [Hs0 Hl0]. destruct (crop_axis _ _ Hc1) as [Hs1 Hl1].
  cbv zeta in Hs0, Hl0, Hs1, Hl1.
  intros Hi Hj Hk.
  rewrite getitem_slice2_getpx by (cbn [fst snd]; rewrite ?S0, ?S1; done).
  cbn [fst snd]. rewrite S0, S1, Hs0, Hs1.
  set (crop_row := (item0 resize_new_size - item0 crop_size) / 2) in *.
  set (crop_col := (item1 resize_new_size - item1 crop_size) / 2) in *.
  assert (Hcr : 0 <= crop_row) by (apply Z.div_pos; lia).
  assert (Hcc : 0 <= crop_col) by (apply Z.div_pos; lia).
  rewrite Hl0 in Hi. rewrite Hl1 in Hj.
  assert (Hr : crop_row + Z.of_nat i < item0 resize_new_size).
  { pose proof (Z.div_mod (item0 resize_new_size - item0 crop_size) 2 ltac:(lia)).
    fold crop_row in H. lia. }
  assert (Hc : crop_col + Z.of_nat j < item1 resize_new_size).
  { pose proof (Z.div_mod (item1 resize_new_size - item1 crop_size) 2 ltac:(lia)).
    fold crop_col in H. lia. }
  rewrite (center_image_getpx tile resize_new_size sq) by (done || lia).
  set (pad_row := (item0 resize_new_size - shape0 tile) / 2).
  set (pad_col := (item1 resize_new_size - shape1 tile) / 2).
  destruct (center_image_fits _ _ _ Hwt Hsq) as [[F0|F0] [F1|F1]]; try (exfalso; lia).
  assert (Hpr : 0 <= pad_row) by (apply Z.div_pos; lia).
  assert (Hpc : 0 <= pad_col) by (apply Z.div_pos; lia).
  destruct (decide (pad_row <= crop_row + Z.of_nat i < pad_row + shape0 tile /\
                    pad_col <= crop_col + Z.of_nat j < pad_col + shape1 tile)) as [Hin|Hout].
  - rewrite decide_True by lia. do 2 f_equal; lia.
  - by rewrite decide_False by lia.
Qed.

End NormalizerExtras.

(** ** Batch processor *)

Lemma mapM_app {A B} (f : A -> result B) (l1 l2 : list A) :
  mapM f (l1 ++ l2) =
  do b1 <- mapM f l1; do b2 <- mapM f l2; Ok (b1 ++ b2).
Proof.
  induction l1 as [|a l1 IH]; simpl.
  - by destruct (mapM f l2).
  - destruct (f a) as [b|e]; cbn [bind]; [|done]. rewrite IH.
    destruct (mapM f l1) as [b1|e]; cbn [bind]; [|done].
    by destruct (mapM f l2).
Qed.

Section BatchExtras.

Variable interp : interpolation.
Variable imread : str -> option (ndarray byte).

Lemma process_one_wf rs cs p a :
  process_one interp imread rs cs p = Ok a -> wf a.
Proof.
  intros (img & sq & _ & _ & Hsq & ->)%process_one_inv.
  apply resize_image_to_square_inv in Hsq as (tile & _ & Hwf & _ & Hsq).
  apply getitem_slice2_wf. by eapply center_image_wf.
Qed.

(** X13.  Whatever the sizes of the input images, all arrays that
    [process_images] returns are well formed and have one and the same
    shape, fixed by the resize and crop sizes alone; this is what lets
    [np.array] stack them. *)
Theorem process_images_uniform_shape (paths : list str) (rs cs : pysize)
    (x : list (ndarray byte)) :
  process_images interp imread paths rs cs = Ok x ->
  Forall (fun a => wf a /\ shape a = processed_shape rs cs) x.
Proof.
  rewrite process_images_mapM. intros Hx%mapM_Forall2.
  induction Hx as [|p a paths x Hp _ IH]; constructor; [|done].
  split; [by eapply process_one_wf | by eapply process_one_shape].
Qed.

(** X14.  A batch can be split anywhere: processing [paths1 ++ paths2] gives the
    results of [paths1] followed by those of [paths2], and fails with the
    error of [paths1] if that fails, else with the error of [paths2]. *)
Theorem process_images_app (paths1 paths2 : list str) (rs cs : pysize) :
  process_images interp imread (paths1 ++ paths2) rs cs =
  do x1 <- process_images interp imread paths1 rs cs;
  do x2 <- process_images interp imread paths2 rs cs;
  Ok (x1 ++ x2).
Proof. rewrite !process_images_mapM. apply mapM_app. Qed.

(** X15.  The batch is all or nothing: the first path that cannot be processed
    decides the result, whatever follows it; for a file that [cv2.imread]
    cannot read this is the error of [cv2.cvtColor]. *)
Theorem process_images_first_failure (before after : list str)
    (file_path : str) (rs cs : pysize) (e : exn) :
  Forall (fun p => exists a, process_one interp imread rs cs p = Ok a) before ->
  (process_one interp imread rs cs file_path = Raise e ->
   process_images interp imread (before ++ file_path :: after) rs cs = Raise e) /\
  (imread file_path = None ->
   process_images interp imread (before ++ file_path :: after) rs cs
     = Raise Cv2Error).
Proof.
  intros Hbefore. destruct (mapM_total _ _ Hbefore) as [x1 Hx1].
  assert (Hfail : forall e',
    process_one interp imread rs cs file_path = Raise e' ->
    process_images interp imread (before ++ file_path :: after) rs cs = Raise e').
  { intros e' He. rewrite process_images_mapM, mapM_app, Hx1. cbn [bind].
    simpl. by rewrite He. }
  split; [apply Hfail|]. intros Hnone. apply Hfail.
  unfold process_one. by rewrite Hnone.
Qed.

End BatchExtras.

(** ** Dataset splitter *)

Lemma Forall2_lookup_seq {A} (a r : list A) :
  Forall2 (fun k v => a !! k = Some v) (seq 0 (length a)) r -> r = a.
Proof.
  intros H. apply list_eq. intros i.
  pose proof (Forall2_length _ _ _ H) as Hlen. rewrite length_seq in Hlen.
  destruct (decide (i < length a)%nat) as [Hi|Hi].
  - destruct (lookup_lt_is_Some_2 r i ltac:(lia)) as [v Hv].
    eapply Forall2_lookup_r in H as (k & Hk & Hkv); [|exact Hv].
    apply lookup_seq in Hk as [-> _]. by rewrite Hv.
  - rewrite !lookup_ge_None_2 by lia. done.
Qed.

Lemma take_indices_Permutation {A} (a : list A) (ind : list nat) (r : list A) :
  ind ≡ₚ seq 0 (length a) ->
  Forall2 (fun k v => a !! k = Some v) ind r -> r ≡ₚ a.
Proof.
  intros Hperm H.
  destruct (Permutation_Forall2 Hperm H) as (r' & Hr & H').
  apply Forall2_lookup_seq in H' as ->. done.
Qed.

Section SplitterExtras.

Variable permutation : nat -> list nat.

Lemma split_indices_lengths n :
  length (permutation n) = n ->
  length (fst (split_indices permutation n)) = (n - n_test_of n)%nat /\
  length (snd (split_indices permutation n)) = n_test_of n /\
  fst (split_indices permutation n) ++ snd (split_indices permutation n)
    ≡ₚ permutation n.
Proof.
  intros Hlen. unfold split_indices. cbn [fst snd].
  assert (Hle : (n_test_of n <= n)%nat).
  { unfold n_test_of. pose proof (Nat.div_mod_eq (n + 3) 4).
    pose proof (Nat.mod_upper_bound (n + 3) 4). destruct n; [done | lia]. }
  rewrite !length_take, length_drop, Hlen. split_and!; [lia | lia |].
  rewrite take_ge by (rewrite length_drop; lia).
  rewrite Permutation_app_comm. by rewrite take_drop.
Qed.

(** X16.  The split keeps the default proportions of [train_test_split]: for
    [n] samples the test part has [ceil(n / 4)] elements and the train
    part the other [n - ceil(n / 4)], images and labels alike; 100
    samples give 75 and 25. *)
Theorem train_validation_split_sizes saved_arr X_train X_test y_train y_test :
  let n := length (arr_0 saved_arr) in
  length (permutation n) = n ->
  train_validation_split permutation saved_arr
    = Ok (X_train, X_test, y_train, y_test) ->
  length X_test = ((n + 3) / 4)%nat /\
  length X_train = (n - (n + 3) / 4)%nat /\
  length y_train = length X_train /\ length y_test = length X_test /\
  (length X_train + length X_test = n)%nat /\
  (n = 100%nat -> length X_train = 75%nat /\ length X_test = 25%nat).
Proof.
  intros n Hperm H.
  apply train_validation_split_inv_full in H
    as (codes & Xtr & Xte & _ & _ & _ & _ & F1 & F2 & F3 & F4 & -> & ->).
  fold n in F1, F2, F3, F4.
  destruct (split_indices_lengths n Hperm) as (L1 & L2 & _).
  apply Forall2_length in F1, F2, F3, F4. unfold rescale. rewrite !length_map.
  unfold n_test_of in *.
  assert (Hle : ((n + 3) / 4 <= n)%nat).
  { pose proof (Nat.div_mod_eq (n + 3) 4).
    pose proof (Nat.mod_upper_bound (n + 3) 4). destruct n; [done | lia]. }
  split_and!; try lia. intros Hn. rewrite Hn in *. simpl in *. lia.
Qed.

(** X17.  When the generator returns a permutation of the sample indices, the
    split is a partition: train and test together hold every rescaled
    image and every label code exactly once. *)
Theorem train_validation_split_partition saved_arr X_train X_test y_train y_test codes :
  let n := length (arr_0 saved_arr) in
  permutation n ≡ₚ seq 0 n ->
  fit_transform (arr_1 saved_arr) = Ok codes ->
  train_validation_split permutation saved_arr
    = Ok (X_train, X_test, y_train, y_test) ->
  X_train ++ X_test ≡ₚ rescale (arr_0 saved_arr) /\
  y_train ++ y_test ≡ₚ codes.
Proof.
  intros n Hperm Hfit H.
  apply train_validation_split_inv_full in H
    as (codes' & Xtr & Xte & Hfit' & Hclen & _ & _ & F1 & F2 & F3 & F4 & -> & ->).
  fold n in F1, F2, F3, F4, Hclen.
  assert (codes' = codes) as -> by congruence.
  assert (Hlen : length (permutation n) = n).
  { rewrite (Permutation_length Hperm). apply length_seq. }
  destruct (split_indices_lengths n Hlen) as (_ & _ & Hsplit).
  rewrite Hperm in Hsplit. split.
  - unfold rescale. rewrite <- !fmap_app.
    apply fmap_Permutation, fmap_Permutation.
    eapply take_indices_Permutation; [exact Hsplit|]. by apply Forall2_app.
  - eapply take_indices_Permutation; [by rewrite Hclen|]. by apply Forall2_app.
Qed.

Lemma train_validation_split_small saved_arr :
  (length (arr_0 saved_arr) < 2)%nat \/
  length (arr_1 saved_arr) <> length (arr_0 saved_arr) ->
  train_validation_split permutation saved_arr = Raise ValueError.
Proof.
  intros Hbad. unfold train_validation_split.
  destruct (fit_transform_total (arr_1 saved_arr)) as (codes & -> & Hcodes).
  apply Forall2_length in Hcodes. cbn [bind]. unfold train_test_split.
  destruct (Nat.eqb_spec (length codes) (length (arr_0 saved_arr))) as [Hlen|]; [|done].
  simpl negb. cbv iota.
  destruct (Nat.eqb_spec (length (arr_0 saved_arr) - n_test_of (length (arr_0 saved_arr))) 0)
    as [|Hn]; [done|].
  exfalso. destruct Hbad as [Hsmall|Hne]; [|congruence].
  unfold n_test_of in Hn.
  destruct (length (arr_0 saved_arr)) as [|[|n]]; [done | | lia].
  apply Hn. reflexivity.
Qed.

Lemma train_validation_split_total saved_arr :
  let n := length (arr_0 saved_arr) in
  length (arr_1 saved_arr) = n -> (2 <= n)%nat ->
  Forall (fun k => k < n)%nat (permutation n) ->
  exists X_train X_test y_train y_test,
    train_validation_split permutation saved_arr
      = Ok (X_train, X_test, y_train, y_test).
Proof.
  intros n Hlen Hn Hperm.
  destruct (fit_transform_total (arr_1 saved_arr)) as (codes & Hfit & Hcodes).
  pose proof (Forall2_length _ _ _ Hcodes) as Hclen.
  destruct (split_indices_valid permutation n Hperm) as [Htr Hte].
  destruct (take_indices_total (arr_0 saved_arr) _ Htr) as (Xtr & HXtr & _).
  destruct (take_indices_total (arr_0 saved_arr) _ Hte) as (Xte & HXte & _).
  destruct (take_indices_total codes (fst (split_indices permutation n)))
    as (ytr & Hytr & _); [by rewrite <- Hclen, Hlen|].
  destruct (take_indices_total codes (snd (split_indices permutation n)))
    as (yte & Hyte & _); [by rewrite <- Hclen, Hlen|].
  exists (rescale Xtr), (rescale Xte), ytr, yte.
  unfold train_validation_split. rewrite Hfit. cbn [bind].
  unfold train_test_split. fold n.
  rewrite <- Hclen, Hlen, Nat.eqb_refl. simpl negb. cbv iota.
  assert (Hnt : ((n - n_test_of n) =? 0)%nat = false).
  { apply Nat.eqb_neq. unfold n_test_of.
    pose proof (Nat.div_mod_eq (n + 3) 4). pose proof (Nat.mod_upper_bound (n + 3) 4).
    lia. }
  rewrite Hnt. destruct (split_indices permutation n) as [train test] eqn:Hsi.
  simpl in *. by rewrite HXtr, HXte, Hytr, Hyte.
Qed.

(** X18.  Fewer than two samples, or label and image arrays of different
    lengths, make the split fail with [ValueError]: [train_test_split]
    refuses arrays of inconsistent length and a split that would leave the
    train part empty, which for the default test share of a quarter
    happens below two samples.  With at least two samples, arrays of
    equal length and valid indices from the generator it returns. *)
Theorem train_validation_split_returns_iff saved_arr :
  let n := length (arr_0 saved_arr) in
  Forall (fun k => k < n)%nat (permutation n) ->
  ((2 <= n)%nat /\ length (arr_1 saved_arr) = n <->
   exists X_train X_test y_train y_test,
     train_validation_split permutation saved_arr
       = Ok (X_train, X_test, y_train, y_test)) /\
  ((n < 2)%nat \/ length (arr_1 saved_arr) <> n ->
   train_validation_split permutation saved_arr = Raise ValueError).
Proof.
  intros n Hperm. split; [split|].
  - intros [Hn Hlen]. by apply train_validation_split_total.
  - intros (X_train & X_test & y_train & y_test & H).
    destruct (decide ((2 <= n)%nat /\ length (arr_1 saved_arr) = n)) as [|Hbad]; [done|].
    rewrite train_validation_split_small in H; [done|]. fold n. lia.
  - apply train_validation_split_small.
Qed.

End SplitterExtras.

(** ** Label encoder *)

Lemma np_unique_NoDup (y : list str) : NoDup (np_unique y).
Proof.
  unfold np_unique. rewrite merge_sort_Permutation. apply NoDup_remove_dups.
Qed.

Lemma encode_lookup (classes_ : list str) (label : str) (code : Z) :
  encode classes_ label = Ok code ->
  0 <= code /\ classes_ !! Z.to_nat code = Some label.
Proof.
  unfold encode. destruct (list_find _ classes_) as [[i x]|] eqn:Hf; [|done].
  intros [= <-]. apply list_find_Some in Hf as (Hx & -> & _).
  rewrite Nat2Z.id. split; [lia | done].
Qed.

Lemma encode_of_lookup (classes_ : list str) (label : str) (i : nat) :
  NoDup classes_ -> classes_ !! i = Some label ->
  encode classes_ label = Ok (Z.of_nat i).
Proof.
  intros Hnd Hi. unfold encode.
  destruct (list_find_elem_of (fun c => c = label) classes_ label) as [[j x] Hf];
    [by eapply list_elem_of_lookup_2 | done |].
  rewrite Hf. apply list_find_Some in Hf as (Hj & -> & _).
  by rewrite (NoDup_lookup _ _ _ _ Hnd Hj Hi).
Qed.

Lemma fit_transform_codes (y : list str) (codes : list Z) :
  fit_transform y = Ok codes ->
  Forall (fun code => 0 <= code < Z.of_nat (length (encoder_fit y))) codes /\
  (forall code, 0 <= code < Z.of_nat (length (encoder_fit y)) -> code ∈ codes).
Proof.
  intros Hfit%mapM_Forall2.
  assert (Hnd : NoDup (encoder_fit y)) by apply np_unique_NoDup. split.
  - eapply Forall2_Forall_r; [exact Hfit|]. apply Forall_forall.
    intros label _ code Henc. apply encode_lookup in Henc as [H0 Hl].
    apply lookup_lt_Some in Hl. lia.
  - intros code Hcode.
    destruct (lookup_lt_is_Some_2 (encoder_fit y) (Z.to_nat code) ltac:(lia)) as [label Hl].
    assert (Hin : label ∈ y).
    { apply elem_of_np_unique. by eapply list_elem_of_lookup_2. }
    apply list_elem_of_lookup in Hin as [i Hi].
    eapply Forall2_lookup_l in Hfit as (code' & Hc & Henc); [|exact Hi].
    rewrite (encode_of_lookup _ _ _ Hnd Hl) in Henc. injection Henc as <-.
    rewrite Z2Nat.id in Hc by lia. by eapply list_elem_of_lookup_2.
Qed.

(** X19.  The label codes are dense: with [C] the number of distinct labels,
    every code lies in [0, C) and every integer of [0, C) is the code of
    some sample. *)
Theorem label_codes_dense (y : list str) (codes : list Z) :
  fit_transform y = Ok codes ->
  let classes_ := encoder_fit y in
  NoDup classes_ /\ (forall label, label ∈ classes_ <-> label ∈ y) /\
  Forall (fun code => 0 <= code < Z.of_nat (length classes_)) codes /\
  (forall code, 0 <= code < Z.of_nat (length classes_) -> code ∈ codes).
Proof.
  intros Hfit classes_.
  destruct (fit_transform_codes y codes Hfit) as [Hran Hall].
  split_and!; [apply np_unique_NoDup | apply elem_of_np_unique | exact Hran | exact Hall].
Qed.

(** X20.  Decoding a code through [classes_] gives back the label: the code of
    sample [i] is the position of its label in the sorted list of distinct
    labels. *)
Theorem label_code_round_trip (y : list str) (codes : list Z)
    (i : nat) (label : str) :
  fit_transform y = Ok codes -> y !! i = Some label ->
  exists code, codes !! i = Some code /\ 0 <= code /\
    encoder_fit y !! Z.to_nat code = Some label.
Proof.
  intros Hfit%mapM_Forall2 Hi.
  eapply Forall2_lookup_l in Hfit as (code & Hc & Henc); [|exact Hi].
  exists code. split; [done|]. by apply encode_lookup.
Qed.

(** ** Float rescaling *)

Lemma rescale_table_increasing :
  forallb (fun i =>
    forallb (fun j =>
      implb (i <? j)%nat
            (SFltb (div_255 (f32_of_Z (Z.of_nat i))) (div_255 (f32_of_Z (Z.of_nat j)))))
      (seq 0 256)) (seq 0 256) = true.
Proof. vm_compute. reflexivity. Qed.

(** X21.  Rescaling keeps the order of pixel values: a larger uint8 value gives
    a strictly larger float32 value, so distinct intensities stay
    distinct. *)
Theorem rescale_strictly_increasing (b1 b2 : byte) :
  (Byte.to_N b1 < Byte.to_N b2)%N ->
  SFltb (div_255 (astype_float32 b1)) (div_255 (astype_float32 b2)) = true.
Proof.
  intros Hlt. pose proof (Byte.to_N_bounded b1). pose proof (Byte.to_N_bounded b2).
  assert (Hin : forall b, In (N.to_nat (Byte.to_N b)) (seq 0 256)).
  { intros b. pose proof (Byte.to_N_bounded b). apply in_seq. lia. }
  pose proof (proj1 (forallb_forall _ _) rescale_table_increasing _ (Hin b1)) as Hrow.
  pose proof (proj1 (forallb_forall _ _) Hrow _ (Hin b2)) as Htab.
  cbv beta in Htab.
  destruct (Nat.ltb_spec (N.to_nat (Byte.to_N b1)) (N.to_nat (Byte.to_N b2))); [|lia].
  cbn [implb] in Htab. rewrite !N_nat_Z in Htab. exact Htab.
Qed.

(** ** From labels to one-hot rows *)

Lemma to_categorical_raises (y : list Z) (num_classes : Z) :
  0 < num_classes ->
  Exists (fun l => l < - num_classes \/ num_classes <= l) y ->
  to_categorical y num_classes = Raise IndexError.
Proof.
  intros Hnc Hex. unfold to_categorical.
  destruct (Z.eqb_spec num_classes 0); [exfalso; lia|]. cbn [bind].
  destruct (Z.ltb_spec num_classes 0); [exfalso; lia|]. by apply assign_ones_raise.
Qed.

Lemma to_categorical_rows (y : list Z) (num_classes : Z) :
  0 < num_classes ->
  Forall (fun l => 0 <= l < num_classes) y ->
  exists Y, to_categorical y num_classes = Ok Y /\ length Y = length y /\
    forall (i : nat) l, y !! i = Some l ->
      Y !! i = Some (indicator (Z.to_nat num_classes) (Z.to_nat l)).
Proof.
  intros Hnc Hy. unfold to_categorical.
  destruct (Z.eqb_spec num_classes 0); [exfalso; lia|]. cbn [bind].
  destruct (Z.ltb_spec num_classes 0); [exfalso; lia|].
  destruct (assign_ones_ok num_classes y
    (replicate (length y) (replicate (Z.to_nat num_classes) f32_zero)) 0%nat)
    as (Y & HY & Hlen & Hrows).
  { eapply Forall_impl; [exact Hy|]. intros l Hl. simpl in Hl. lia. }
  exists Y. split; [done|]. split; [by rewrite Hlen, length_replicate|].
  intros i l Hl.
  assert (Hin : 0 <= l < num_classes) by (by eapply Forall_lookup_1 in Hy).
  rewrite (Hrows i (replicate (Z.to_nat num_classes) f32_zero)).
  - rewrite decide_True by lia. rewrite Nat.sub_0_r, Hl.
    unfold label_column. destruct (Z.ltb_spec l 0); [exfalso; lia|].
    rewrite insert_one_indicator by lia. done.
  - apply lookup_replicate_2. by apply lookup_lt_Some in Hl.
Qed.

(** X22.  Encoding and binarizing compose: the codes of a label array can be
    turned into one-hot rows exactly when the class count is at least the
    number of distinct labels.  With enough classes row [i] is the
    indicator of the position of label [i] among the sorted distinct
    labels; with too few the conversion raises [IndexError]. *)
Theorem one_hot_of_label_codes (y : list str) (codes : list Z) (nb_classes : Z) :
  fit_transform y = Ok codes -> 0 < nb_classes ->
  (Z.of_nat (length (encoder_fit y)) <= nb_classes ->
   exists Y, to_categorical codes nb_classes = Ok Y /\ length Y = length y /\
     forall (i : nat) label, y !! i = Some label ->
       exists j : nat, encoder_fit y !! j = Some label /\
         Y !! i = Some (indicator (Z.to_nat nb_classes) j)) /\
  (nb_classes < Z.of_nat (length (encoder_fit y)) ->
   to_categorical codes nb_classes = Raise IndexError).
Proof.
  intros Hfit Hnb. destruct (fit_transform_codes y codes Hfit) as [Hrange Hall].
  split.
  - intros Hle.
    destruct (to_categorical_rows codes nb_classes Hnb) as (Y & HY & Hlen & Hrows).
    { eapply Forall_impl; [exact Hrange|]. intros c Hc. simpl in Hc. lia. }
    apply mapM_Forall2 in Hfit.
    exists Y. split; [done|]. split; [by rewrite Hlen, <- (Forall2_length _ _ _ Hfit)|].
    intros i label Hi.
    eapply Forall2_lookup_l in Hfit as (code & Hc & Henc); [|exact Hi].
    apply encode_lookup in Henc as [H0 Hl].
    exists (Z.to_nat code). split; [done | by apply Hrows].
  - intros Hlt. apply to_categorical_raises; [done|].
    apply Exists_exists. exists nb_classes. split; [apply Hall; lia | lia].
Qed.

(** ** The script *)

Lemma to_categorical_dichotomy (y : list Z) (num_classes : Z) :
  0 < num_classes -> Forall (fun l => 0 <= l) y ->
  (Forall (fun l => 0 <= l < num_classes) y /\
   exists Y, to_categorical y num_classes = Ok Y /\ length Y = length y /\
     Forall (fun row => length row = Z.to_nat num_classes) Y) \/
  (Exists (fun l => num_classes <= l) y /\
   to_categorical y num_classes = Raise IndexError).
Proof.
  intros Hnc Hpos.
  destruct (decide (Forall (fun l => l < num_classes) y)) as [Hall|Hnot].
  - left. assert (Hy : Forall (fun l => 0 <= l < num_classes) y).
    { apply Forall_forall. intros l Hl.
      eapply Forall_forall in Hpos; [|exact Hl]. eapply Forall_forall in Hall; [|exact Hl].
      simpl in *. lia. }
    split; [done|].
    destruct (to_categorical_rows y num_classes Hnc Hy) as (Y & HY & Hlen & Hrows).
    exists Y. split_and!; [done | done |].
    apply Forall_lookup. intros i row Hrow.
    destruct (lookup_lt_is_Some_2 y i) as [l Hl].
    { rewrite <- Hlen. by eapply lookup_lt_Some. }
    rewrite (Hrows i l Hl) in Hrow. injection Hrow as <-.
    unfold indicator. by rewrite length_map, length_seq.
  - right. apply not_Forall_Exists in Hnot; [|apply _].
    assert (Hex : Exists (fun l => num_classes <= l) y).
    { eapply Exists_impl; [exact Hnot|]. intros l Hl. simpl in Hl. lia. }
    split; [done|]. apply to_categorical_raises; [done|].
    eapply Exists_impl; [exact Hex|]. intros l Hl. simpl in Hl. lia.
Qed.

Lemma Forall2_lookup_Forall {A} (P : A -> Prop) (a : list A) (ind : list nat) (r : list A) :
  Forall P a -> Forall2 (fun k v => a !! k = Some v) ind r -> Forall P r.
Proof.
  intros Ha H. eapply Forall2_Forall_r; [exact H|]. apply Forall_forall.
  intros k _ v Hk. by eapply Forall_lookup_1 in Ha.
Qed.

Section ScriptFacts.

Variable interp : interpolation.
Variable imread : str -> option (ndarray byte).
Variable permutation : nat -> list nat.

(** What the script does after the directory has been read, on the
    ordered items. *)
Lemma main_unfold listing :
  main interp imread permutation listing =
  let items := image_categories_items listing (lit "../imgs_jpgs/") in
  do image_array <-
    mapM (process_one interp imread (PySize PyList 256 256) (PySize PyList 224 224))
         (map fst items);
  do split <- train_validation_split permutation (Archive image_array (map snd items));
  do Y <- convert_to_binary_class_matrices split.1.2 split.2 13;
  Ok (split.1.1.1, split.1.1.2, Y.1, Y.2).
Proof.
  unfold main. cbv zeta. rewrite process_images_mapM.
  destruct (mapM _ _) as [x|]; cbn [bind]; [|done].
  destruct (train_validation_split _ _) as [[[[a b] c] d]|]; cbn [bind]; [|done].
  cbn [fst snd]. by destruct (convert_to_binary_class_matrices c d 13) as [[Y1 Y2]|].
Qed.

Lemma main_images listing :
  let items := image_categories_items listing (lit "../imgs_jpgs/") in
  Forall (fun p => exists a,
            process_one interp imread (PySize PyList 256 256) (PySize PyList 224 224) p
              = Ok a) (map fst items) ->
  exists image_array,
    mapM (process_one interp imread (PySize PyList 256 256) (PySize PyList 224 224))
         (map fst items) = Ok image_array /\
    length image_array = length items /\
    Forall (fun a => shape a = (224, 224, 3)) image_array.
Proof.
  intros items Hproc. destruct (mapM_total _ _ Hproc) as [x Hx].
  exists x. split; [done|]. apply mapM_Forall2 in Hx. split.
  - rewrite <- (Forall2_length _ _ _ Hx). by rewrite length_map.
  - eapply Forall2_Forall_r; [exact Hx|]. apply Forall_forall.
    intros p _ a Hp. by apply process_one_shape in Hp.
Qed.

(** X23.  The script succeeds when the directory holds at least two labelled
    files, every one of them can be read and normalized, there are at
    most 13 distinct labels and the generator returns valid indices.  It
    then writes [n - ceil(n / 4)] train and [ceil(n / 4)] test samples,
    every image of shape (224, 224, 3) and every label row of 13
    entries. *)
Theorem main_returns (listing : list Label.dir_entry) :
  let items := image_categories_items listing (lit "../imgs_jpgs/") in
  let n := length items in
  (2 <= n)%nat ->
  Forall (fun p => exists a,
            process_one interp imread (PySize PyList 256 256) (PySize PyList 224 224) p
              = Ok a) (map fst items) ->
  Z.of_nat (length (encoder_fit (map snd items))) <= 13 ->
  Forall (fun k => k < n)%nat (permutation n) -> length (permutation n) = n ->
  exists X_train X_test Y_train Y_test,
    main interp imread permutation listing = Ok (X_train, X_test, Y_train, Y_test) /\
    length X_test = ((n + 3) / 4)%nat /\
    length X_train = (n - (n + 3) / 4)%nat /\
    length Y_train = length X_train /\ length Y_test = length X_test /\
    Forall (fun a => shape a = (224, 224, 3)) (X_train ++ X_test) /\
    Forall (fun row => length row = 13%nat) (Y_train ++ Y_test).
Proof.
  intros items n Hn Hproc Hclasses Hperm Hplen.
  destruct (main_images listing Hproc) as (x & Hx & Hxlen & Hxshape).
  fold items in Hx, Hxlen. fold n in Hxlen.
  destruct (train_validation_split_total permutation (Archive x (map snd items)))
    as (X_train & X_test & y_train & y_test & Hsplit); cbn [arr_0 arr_1];
    rewrite ?Hxlen, ?length_map; try done.
  pose proof (train_validation_split_inv_full _ _ _ _ _ _ Hsplit)
    as (codes & Xtr & Xte & Hfit & _ & _ & _ & F1 & F2 & F3 & F4 & -> & ->).
  cbn [arr_0 arr_1] in Hfit, F1, F2, F3, F4. rewrite Hxlen in F1, F2, F3, F4.
  destruct (fit_transform_codes _ _ Hfit) as [Hrange _].
  assert (Hr13 : Forall (fun l => 0 <= l < 13) codes).
  { eapply Forall_impl; [exact Hrange|]. intros c Hc. simpl in Hc. lia. }
  destruct (to_categorical_rows y_train 13 ltac:(lia)) as (Y_train & HY1 & Hl1 & Hrows1);
    [by eapply Forall2_lookup_Forall|].
  destruct (to_categorical_rows y_test 13 ltac:(lia)) as (Y_test & HY2 & Hl2 & Hrows2);
    [by eapply Forall2_lookup_Forall|].
  exists (rescale Xtr), (rescale Xte), Y_train, Y_test.
  destruct (split_indices_lengths permutation n Hplen) as (L1 & L2 & _).
  pose proof (Forall2_length _ _ _ F1). pose proof (Forall2_length _ _ _ F2).
  pose proof (Forall2_length _ _ _ F3). pose proof (Forall2_length _ _ _ F4).
  unfold n_test_of in *.
  assert (Hrowlen : forall (y : list Z) Y,
    length Y = length y ->
    (forall (i : nat) l, y !! i = Some l ->
       Y !! i = Some (indicator (Z.to_nat 13) (Z.to_nat l))) ->
    Forall (fun row => length row = 13%nat) Y).
  { intros y Y Hlen Hrows. apply Forall_lookup. intros i row Hrow.
    destruct (lookup_lt_is_Some_2 y i) as [l Hl].
    { rewrite <- Hlen. by eapply lookup_lt_Some. }
    rewrite (Hrows i l Hl) in Hrow. injection Hrow as <-.
    unfold indicator. by rewrite length_map, length_seq. }
  split_and!.
  - rewrite main_unfold. cbv zeta. fold items. rewrite Hx. cbn [bind].
    rewrite Hsplit. cbn [bind fst snd].
    unfold convert_to_binary_class_matrices. by rewrite HY1, HY2.
  - unfold rescale. rewrite !length_map. lia.
  - unfold rescale. rewrite !length_map. lia.
  - unfold rescale. rewrite !length_map. lia.
  - unfold rescale. rewrite !length_map. lia.
  - unfold rescale. rewrite <- !fmap_app. apply Forall_fmap, Forall_fmap.
    apply Forall_app. split; by eapply Forall2_lookup_Forall.
  - apply Forall_app. split; by eapply Hrowlen.
Qed.

(** X24.  With more than 13 distinct labels in the directory the script cannot
    finish: the class count 13 is fixed in the script, and the one-hot
    conversion raises [IndexError] for the split that holds code 13. *)
Theorem main_too_many_classes (listing : list Label.dir_entry) :
  let items := image_categories_items listing (lit "../imgs_jpgs/") in
  let n := length items in
  Forall (fun p => exists a,
            process_one interp imread (PySize PyList 256 256) (PySize PyList 224 224) p
              = Ok a) (map fst items) ->
  13 < Z.of_nat (length (encoder_fit (map snd items))) ->
  permutation n ≡ₚ seq 0 n ->
  main interp imread permutation listing = Raise IndexError.
Proof.
  intros items n Hproc Hclasses Hperm.
  destruct (main_images listing Hproc) as (x & Hx & Hxlen & _).
  fold items in Hx, Hxlen. fold n in Hxlen.
  assert (Hplen : length (permutation n) = n).
  { rewrite (Permutation_length Hperm). apply length_seq. }
  assert (Hvalid : Forall (fun k => k < n)%nat (permutation n)).
  { rewrite Hperm. apply Forall_forall. intros k Hk%list_elem_of_In%in_seq. lia. }
  assert (Hn : (14 <= n)%nat).
  { assert (Hsub : encoder_fit (map snd items) ⊆+ map snd items).
    { apply NoDup_submseteq; [apply np_unique_NoDup|].
      intros l Hl. by apply elem_of_np_unique. }
    apply submseteq_length in Hsub. rewrite length_map in Hsub. fold n in Hsub. lia. }
  destruct (train_validation_split_total permutation (Archive x (map snd items)))
    as (X_train & X_test & y_train & y_test & Hsplit); cbn [arr_0 arr_1];
    rewrite ?Hxlen, ?length_map; try done; try lia.
  pose proof (train_validation_split_inv_full _ _ _ _ _ _ Hsplit)
    as (codes & Xtr & Xte & Hfit & Hclen & _ & _ & _ & _ & F3 & F4 & _).
  cbn [arr_0 arr_1] in Hfit, Hclen, F3, F4. rewrite Hxlen in Hclen, F3, F4.
  destruct (fit_transform_codes _ _ Hfit) as [Hrange Hall].
  assert (Hpos : Forall (fun l => 0 <= l) codes).
  { eapply Forall_impl; [exact Hrange|]. intros c Hc. simpl in Hc. lia. }
  destruct (split_indices_lengths permutation n Hplen) as (_ & _ & Hsplit_perm).
  rewrite Hperm in Hsplit_perm.
  assert (Hpart : y_train ++ y_test ≡ₚ codes).
  { eapply take_indices_Permutation; [by rewrite Hclen|]. by apply Forall2_app. }
  assert (H13 : 13 ∈ y_train ++ y_test) by (rewrite Hpart; apply Hall; lia).
  rewrite main_unfold. cbv zeta. fold items. rewrite Hx. cbn [bind].
  rewrite Hsplit. cbn [bind fst snd]. unfold convert_to_binary_class_matrices.
  destruct (to_categorical_dichotomy y_train 13 ltac:(lia))
    as [(Htr & Y1 & -> & _)|(_ & ->)]; [by eapply Forall2_lookup_Forall | | done].
  cbn [bind].
  destruct (to_categorical_dichotomy y_test 13 ltac:(lia))
    as [(Hte & _)|(_ & ->)]; [by eapply Forall2_lookup_Forall | | done].
  exfalso. apply elem_of_app in H13 as [H13|H13].
  - eapply Forall_forall in Htr; [|exact H13]. simpl in Htr. lia.
  - eapply Forall_forall in Hte; [|exact H13]. simpl in Hte. lia.
Qed.

(** X25.  With fewer than two labelled files (an empty directory, or only
    hidden files and sub-directories) the script stops in the split with
    [ValueError], even though every image was processed:
    [train_test_split] would leave the train part empty. *)
Theorem main_too_few_files (listing : list Label.dir_entry) :
  let items := image_categories_items listing (lit "../imgs_jpgs/") in
  (length items < 2)%nat ->
  Forall (fun p => exists a,
            process_one interp imread (PySize PyList 256 256) (PySize PyList 224 224) p
              = Ok a) (map fst items) ->
  main interp imread permutation listing = Raise ValueError.
Proof.
  intros items Hn Hproc.
  destruct (main_images listing Hproc) as (x & Hx & Hxlen & _).
  fold items in Hx, Hxlen.
  rewrite main_unfold. cbv zeta. fold items. rewrite Hx. cbn [bind].
  rewrite train_validation_split_small; [done|]. left. cbn [arr_0]. lia.
Qed.

End ScriptFacts.

(** ** The further properties at concrete inputs *)

Lemma sample_permutation_spec (n : nat) :
  sample_permutation n ≡ₚ seq 0 n /\ length (sample_permutation n) = n /\
  Forall (fun k => k < n)%nat (sample_permutation n).
Proof.
  unfold sample_permutation. split_and!.
  - symmetry. apply Permutation_rev.
  - by rewrite length_rev, length_seq.
  - apply Forall_forall. intros k Hk%list_elem_of_In%in_rev%in_seq. lia.
Qed.

Lemma sample_images_process (paths : list str) :
  Forall (fun p => exists a,
            process_one interp_nearest sample_imread_any
              (PySize PyList 256 256) (PySize PyList 224 224) p = Ok a) paths.
Proof.
  apply Forall_forall. intros p _.
  apply process_one_readable; [reflexivity | cbn; lia |].
  exists (solid_image 4 2 orange). split_and!; [reflexivity | cbn ..]; lia.
Qed.

Lemma image_categories_lookup_iff_witness :
  image_categories sample_listing (lit "../imgs_jpgs/")
    !! (lit "../imgs_jpgs/" ++ lit "tall_1_.jpg")
  = Some (extract_label (lit "tall_1_.jpg")).
Proof.
  apply (proj2 (image_categories_lookup_iff sample_listing (lit "../imgs_jpgs/")
                  (lit "../imgs_jpgs/" ++ lit "tall_1_.jpg")
                  (extract_label (lit "tall_1_.jpg")))).
  exists (lit "tall_1_.jpg").
  split_and!; [apply list_elem_of_here | reflexivity | reflexivity | reflexivity].
Defined.

Lemma extract_label_clean_witness :
  in_chars suffix_chars (N_of_ascii "e") = false /\
  extract_label (extract_label (lit "rose_12_.jpg")) = extract_label (lit "rose_12_.jpg").
Proof.
  destruct (extract_label_clean (lit "rose_12_.jpg")) as (_ & Hlast & Hfix).
  split; [|exact Hfix].
  apply (Hlast (lit "ros") (N_of_ascii "e")). reflexivity.
Defined.

Lemma extract_label_ignores_numbering_witness :
  extract_label (lit "rose_" ++ lit "1" ++ lit "_.jpg")
  = extract_label (lit "rose_" ++ [1634; 1635]%N ++ lit "_.jpg").
Proof.
  apply (extract_label_ignores_numbering (lit "rose_") (lit "1") [1634; 1635]%N
           (lit "_.jpg"));
    apply (bool_decide_unpack _); vm_compute; exact I.
Defined.

Lemma image_categories_items_aligned_witness :
  image_categories_items sample_listing (lit "../imgs_jpgs/")
  = [(lit "../imgs_jpgs/tall_1_.jpg", lit "tall");
     (lit "../imgs_jpgs/wide_2_.jpg", lit "wide")].
Proof.
  destruct (image_categories_items_aligned sample_listing (lit "../imgs_jpgs/"))
    as (_ & _ & Hitems).
  rewrite Hitems; [reflexivity|].
  apply (bool_decide_unpack _). vm_compute. exact I.
Defined.

Lemma center_image_identity_witness :
  _center_image (solid_image 2 3 orange) (PySize PyList 2 3)
    = Ok (solid_image 2 3 orange) /\
  forall centered,
    _center_image (solid_image 2 2 orange) (PySize PyList 4 4) = Ok centered ->
    _center_image centered (PySize PyList 4 4) = Ok centered.
Proof.
  split.
  - assert (Hwf : wf (solid_image 2 3 orange))
      by (apply (bool_decide_unpack _); vm_compute; exact I).
    apply (proj1 (center_image_identity _ (PySize PyList 2 3) Hwf)); reflexivity.
  - assert (Hwf : wf (solid_image 2 2 orange))
      by (apply (bool_decide_unpack _); vm_compute; exact I).
    exact (proj2 (center_image_identity _ (PySize PyList 4 4) Hwf)).
Defined.

Lemma center_image_too_large_witness :
  _center_image (solid_image 5 2 orange) (PySize PyList 4 4) = Raise ValueError.
Proof.
  apply center_image_too_large; [reflexivity|]. left. cbn. lia.
Defined.

Lemma crop_image_identity_witness :
  crop_image (solid_image 4 4 orange) (PySize PyList 4 3) = solid_image 4 4 orange.
Proof.
  apply crop_image_identity;
    [apply (bool_decide_unpack _); vm_compute; exact I | cbn; lia | cbn; lia].
Defined.

Lemma crop_image_oversize_witness :
  shape0 (crop_image (solid_image 4 4 orange) (PySize PyList 8 8)) = 2 /\
  shape1 (crop_image (solid_image 4 4 orange) (PySize PyList 8 8)) = 2 /\
  getpx (crop_image (solid_image 4 4 orange) (PySize PyList 8 8)) 0 0 0
  = getpx (solid_image 4 4 orange) 2 2 0.
Proof.
  pose proof (crop_image_oversize (solid_image 4 4 orange) (PySize PyList 8 8))
    as (H0 & H1 & Hpx).
  assert (R0 : 0 <= shape0 (solid_image 4 4 orange) < item0 (PySize PyList 8 8))
    by (cbn; lia).
  assert (R1 : 0 <= shape1 (solid_image 4 4 orange) < item1 (PySize PyList 8 8))
    by (cbn; lia).
  split_and!; [exact (proj1 (H0 R0)) | exact (proj1 (H1 R1)) |].
  apply (Hpx R0 R1 0%nat 0%nat 0%nat); by vm_compute.
Defined.

Lemma resize_image_to_square_tuple_fails_witness :
  resize_image_to_square interp_nearest (solid_image 4 2 orange) (PySize PyTuple 256 256)
  <> Ok (solid_image 256 256 orange).
Proof.
  apply (proj2 (resize_image_to_square_tuple_fails interp_nearest
                  (solid_image 4 2 orange) 256 256)).
Defined.

Lemma resize_image_to_square_empty_image_witness :
  resize_image_to_square interp_nearest (solid_image 0 0 orange) default_resize
    = Raise ZeroDivisionError /\
  resize_image_to_square interp_nearest (solid_image 4 0 orange) default_resize
    = Raise Cv2Error.
Proof.
  split.
  - apply (resize_image_to_square_empty_image interp_nearest (solid_image 0 0 orange));
      first [reflexivity | cbn; lia].
  - apply (resize_image_to_square_empty_image interp_nearest (solid_image 4 0 orange));
      first [cbn; lia | right; reflexivity].
Defined.

Lemma resize_image_to_square_square_image_witness :
  (exists tile,
     resize_tile interp_nearest (solid_image 2 2 orange) (PySize PyList 8 8)
       = Ok (Mat3 tile) /\
     resize_image_to_square interp_nearest (solid_image 2 2 orange) (PySize PyList 8 8)
       = Ok tile) /\
  resize_image_to_square interp_nearest (solid_image 2 2 [x80]) (PySize PyList 8 8)
    = Raise IndexError.
Proof.
  split.
  - destruct (resize_image_to_square_square_image interp_nearest
                (solid_image 2 2 orange) 8) as [Hcolor _];
      [cbn; lia | reflexivity | lia |].
    destruct Hcolor as (tile & Ht & _ & Hsq); [cbn; lia|].
    exists tile. split; [exact Ht | exact Hsq].
  - destruct (resize_image_to_square_square_image interp_nearest
                (solid_image 2 2 [x80]) 8) as [_ Hgray];
      [cbn; lia | reflexivity | lia |].
    apply Hgray. reflexivity.
Defined.

Lemma normalize_pixels_witness :
  match normalize interp_nearest (solid_image 4 2 orange)
          (PySize PyList 8 8) (PySize PyList 6 6) with
  | Ok out => getpx out 0 0 0 = Some x00 /\ getpx out 0 1 0 = Some xff
  | Raise _ => False
  end.
Proof.
  destruct (resize_tile_fits interp_nearest (solid_image 4 2 orange) (PySize PyList 8 8))
    as (tile & Ht & _); [cbn; lia ..|].
  destruct (normalize interp_nearest (solid_image 4 2 orange)
              (PySize PyList 8 8) (PySize PyList 6 6))
    as [out|e] eqn:Hn; [|vm_compute in Hn; discriminate Hn].
  assert (Hout : shape out = (6, 6, 3)).
  { vm_compute in Hn. by injection Hn as <-. }
  assert (Htile : shape tile = (8, 4, 3) /\
                  getpx tile 1 0 0 = Some xff).
  { vm_compute in Ht. by injection Ht as <-. }
  injection Hout as O0 O1 O2. destruct Htile as [[= T0 T1 T2] Tpx].
  split.
  - rewrite (normalize_pixels interp_nearest _ _ _ tile out 0 0 0 Ht Hn);
      [| cbn; lia | cbn; lia | rewrite O0; lia | rewrite O1; lia | rewrite O2; lia].
    rewrite T0, T1. reflexivity.
  - rewrite (normalize_pixels interp_nearest _ _ _ tile out 0 1 0 Ht Hn);
      [| cbn; lia | cbn; lia | rewrite O0; lia | rewrite O1; lia | rewrite O2; lia].
    rewrite T0, T1. exact Tpx.
Defined.

Lemma process_images_uniform_shape_witness :
  exists x,
    process_images interp_nearest sample_imread [lit "tall.jpg"; lit "wide.jpg"]
      (PySize PyList 8 8) (PySize PyList 4 4) = Ok x /\
    Forall (fun a => wf a /\ shape a = (4, 4, 3)) x.
Proof.
  destruct (process_images interp_nearest sample_imread [lit "tall.jpg"; lit "wide.jpg"]
              (PySize PyList 8 8) (PySize PyList 4 4)) as [x|e] eqn:Hx;
    [|vm_compute in Hx; discriminate Hx].
  exists x. split; [reflexivity|].
  exact (process_images_uniform_shape interp_nearest sample_imread _ _ _ x Hx).
Defined.

Lemma process_images_first_failure_witness :
  process_images interp_nearest sample_imread
    ([lit "tall.jpg"] ++ lit "lost.jpg" :: [lit "wide.jpg"])
    (PySize PyList 8 8) (PySize PyList 4 4) = Raise Cv2Error.
Proof.
  apply (process_images_first_failure interp_nearest sample_imread
           [lit "tall.jpg"] [lit "wide.jpg"] (lit "lost.jpg")
           (PySize PyList 8 8) (PySize PyList 4 4) Cv2Error);
    [|reflexivity].
  constructor; [|constructor].
  apply process_one_readable; [reflexivity | cbn; lia |].
  exists (solid_image 4 2 orange). split_and!; [reflexivity | cbn ..]; lia.
Defined.

Lemma train_validation_split_sizes_witness :
  match train_validation_split sample_permutation sample_archive with
  | Ok (X_train, X_test, y_train, y_test) =>
      length X_test = 2%nat /\ length X_train = 3%nat /\
      length y_train = 3%nat /\ length y_test = 2%nat
  | Raise _ => False
  end.
Proof.
  destruct (train_validation_split sample_permutation sample_archive)
    as [[[[X_train X_test] y_train] y_test]|e] eqn:Hsplit;
    [|vm_compute in Hsplit; discriminate Hsplit].
  destruct (train_validation_split_sizes sample_permutation sample_archive
              _ _ _ _ (proj1 (proj2 (sample_permutation_spec _))) Hsplit)
    as (Hte & Htr & Hytr & Hyte & _).
  split_and!; [exact Hte | exact Htr | by rewrite Hytr, Htr | by rewrite Hyte, Hte].
Defined.

Lemma train_validation_split_partition_witness :
  match train_validation_split sample_permutation sample_archive with
  | Ok (X_train, X_test, y_train, y_test) =>
      X_train ++ X_test ≡ₚ rescale (arr_0 sample_archive) /\
      y_train ++ y_test ≡ₚ [2; 1; 2; 0; 1]
  | Raise _ => False
  end.
Proof.
  destruct (train_validation_split sample_permutation sample_archive)
    as [[[[X_train X_test] y_train] y_test]|e] eqn:Hsplit;
    [|vm_compute in Hsplit; discriminate Hsplit].
  apply (train_validation_split_partition sample_permutation sample_archive
           X_train X_test y_train y_test [2; 1; 2; 0; 1]);
    [apply sample_permutation_spec | reflexivity | exact Hsplit].
Defined.

Lemma train_validation_split_returns_iff_witness :
  (exists X_train X_test y_train y_test,
     train_validation_split sample_permutation sample_archive
       = Ok (X_train, X_test, y_train, y_test)) /\
  train_validation_split sample_permutation
    (Archive [solid_image 1 1 orange] [lit "rose"]) = Raise ValueError.
Proof.
  split.
  - apply (proj1 (proj1 (train_validation_split_returns_iff sample_permutation
                           sample_archive (proj2 (proj2 (sample_permutation_spec _)))))).
    split; [cbn; lia | reflexivity].
  - apply (proj2 (train_validation_split_returns_iff sample_permutation
                    (Archive [solid_image 1 1 orange] [lit "rose"])
                    (proj2 (proj2 (sample_permutation_spec _))))).
    left. cbn. lia.
Defined.

Lemma label_codes_dense_witness :
  NoDup (encoder_fit (arr_1 sample_archive)) /\
  Forall (fun code => 0 <= code < 3) [2; 1; 2; 0; 1] /\
  1 ∈ [2; 1; 2; 0; 1].
Proof.
  destruct (label_codes_dense (arr_1 sample_archive) [2; 1; 2; 0; 1])
    as (Hnd & _ & Hran & Hall); [reflexivity|].
  split_and!; [exact Hnd | exact Hran | apply Hall; by vm_compute].
Defined.

Lemma label_code_round_trip_witness :
  exists code, [2; 1; 2; 0; 1] !! 3%nat = Some code /\ 0 <= code /\
    encoder_fit (arr_1 sample_archive) !! Z.to_nat code = Some (lit "aster").
Proof.
  apply (label_code_round_trip (arr_1 sample_archive) [2; 1; 2; 0; 1] 3 (lit "aster"));
    reflexivity.
Defined.

Lemma rescale_strictly_increasing_witness :
  SFltb (div_255 (astype_float32 x7f)) (div_255 (astype_float32 x80)) = true.
Proof.
  apply rescale_strictly_increasing. reflexivity.
Defined.

Lemma one_hot_of_label_codes_witness :
  (exists Y, to_categorical [2; 1; 2; 0; 1] 13 = Ok Y /\ length Y = 5%nat) /\
  to_categorical [2; 1; 2; 0; 1] 2 = Raise IndexError.
Proof.
  split.
  - destruct (one_hot_of_label_codes (arr_1 sample_archive) [2; 1; 2; 0; 1] 13)
      as [Hfits _]; [reflexivity | lia |].
    destruct Hfits as (Y & HY & Hlen & _); [by vm_compute|].
    exists Y. split; [exact HY | exact Hlen].
  - destruct (one_hot_of_label_codes (arr_1 sample_archive) [2; 1; 2; 0; 1] 2)
      as [_ Hshort]; [reflexivity | lia |].
    apply Hshort. by vm_compute.
Defined.

Lemma main_returns_witness :
  exists X_train X_test Y_train Y_test,
    main interp_nearest sample_imread_any sample_permutation sample_listing
      = Ok (X_train, X_test, Y_train, Y_test) /\
    length X_test = 1%nat /\ length X_train = 1%nat /\
    Forall (fun a => shape a = (224, 224, 3)) (X_train ++ X_test) /\
    Forall (fun row => length row = 13%nat) (Y_train ++ Y_test).
Proof.
  destruct (main_returns interp_nearest sample_imread_any sample_permutation
              sample_listing)
    as (X_train & X_test & Y_train & Y_test & Hmain & Hte & Htr & _ & _ & Hx & Hy).
  - by vm_compute.
  - apply sample_images_process.
  - by vm_compute.
  - apply sample_permutation_spec.
  - apply sample_permutation_spec.
  - exists X_train, X_test, Y_train, Y_test.
    split_and!; [exact Hmain | exact Hte | exact Htr | exact Hx | exact Hy].
Defined.

Lemma main_too_many_classes_witness :
  main interp_nearest sample_imread_any sample_permutation many_classes_listing
  = Raise IndexError.
Proof.
  apply main_too_many_classes.
  - apply sample_images_process.
  - by vm_compute.
  - apply sample_permutation_spec.
Defined.

Lemma main_too_few_files_witness :
  main interp_nearest sample_imread_any sample_permutation
    [DirEntry (lit ".DS_Store") true; DirEntry (lit "rose_1_.jpg") true]
  = Raise ValueError.
Proof.
  apply main_too_few_files.
  - by vm_compute.
  - apply sample_images_process.
Defined.
